(** * STM32F411 audio crossover: DSP core, button handler, preset manager

    A shallow embedding of the signal-processing sources (dynamics.c,
    crossover.c, delay.c, audio_processing.c) with the properties their
    design document states about them, and of the button handler
    (button_handler.c) and the pure part of the preset manager
    (preset_manager.c), with further properties read off the code.

    Modelling conventions.
    - A C [float] is an exact rational ([Qc], canonical fractions with
      Leibniz equality).  Arithmetic is therefore the ideal arithmetic the
      design document reasons in; binary32 rounding, infinities and NaN are
      not represented.
    - The functions of math.h whose values are irrational ([expf], [powf],
      [log10f], [sinf], [cosf]) are an interface ([Libm]); every result
      holds for all of its implementations.
    - Fixed-width integers are [Z]; conversions that can leave the range of
      the target type have their wrap-around written out.
    - C arrays are lists, read with [!!!] and written with [<[i:=x]>]; a
      [for] loop over [0 <= i < n] is [for_loop n body]; the C remainder
      [%] is [Z.rem].
    - File-scope variables of a C file are a record that the functions of
      the file take and return; a pin reading of the HAL is an argument. *)

From Stdlib Require Import ZArith QArith Qcanon Qround Qcabs Lia.
From stdpp Require Import base list numbers.

Open Scope Z_scope.

(** ** Numeric types *)

Abbreviation float := Qc.

#[global] Instance Qc_inhabited : Inhabited Qc := populate 0%Qc.

(** A decimal literal of the source, e.g. [0.001f]. *)
Definition lit (q : Q) : float := Q2Qc q.

(** Integer to float conversion (implicit in mixed C expressions). *)
Definition float_of_int (z : Z) : float := Q2Qc (inject_Z z).

(** Float to integer cast: C truncates toward zero. *)
Definition int_of_float (x : float) : Z :=
  Z.quot (Qnum (this x)) (Z.pos (Qden (this x))).

(** Comparisons of the source, as booleans. *)
Definition fgt (a b : float) : bool := bool_decide (b < a)%Qc.
Definition flt (a b : float) : bool := bool_decide (a < b)%Qc.
Definition fle (a b : float) : bool := bool_decide (a <= b)%Qc.

Definition fabsf (x : float) : float := Qcabs x.

(** Conversion of an [int] to [int16_t] (reduction modulo 2^16, as the
    target compiler defines it). *)
Definition to_int16 (z : Z) : Z := (z + 32768) mod 65536 - 32768.
Definition to_uint16 (z : Z) : Z := z mod 65536.
Definition to_uint32 (z : Z) : Z := z mod 4294967296.

(** A [uint8_t] used as a condition. *)
Definition truthy (z : Z) : bool := negb (z =? 0).

(** [for (i = 0; i < n; i++) s = body i s] *)
Fixpoint for_loop {St : Type} (n : nat) (body : nat -> St -> St) (s : St) : St :=
  match n with
  | O => s
  | S n' => body n' (for_loop n' body s)
  end.

(** The body of a loop that threads a state through a block and writes one
    output element per input element:
    [out[i] = post (step (&c, input[i]))]. *)
Definition stream_body {St A B : Type} `{!Inhabited A}
    (step : St -> A -> St * B) (post : B -> B) (input : list A)
    (i : nat) (s : St * list B) : St * list B :=
  let '(c, out) := s in
  let '(c, y) := step c (input !!! i) in
  (c, <[i := post y]> out).

(** ** math.h *)

Class Libm := {
  expf : float -> float;
  powf : float -> float -> float;
  log10f : float -> float;
  sinf : float -> float;
  cosf : float -> float
}.

(** First-order rational approximations of these functions.  They serve
    only to run the definitions on concrete inputs; no property below
    depends on them. *)
Definition libm_rational : Libm := {|
  expf x := if fle x 0 then (1 / (1 - x))%Qc else (1 + x)%Qc;
  powf b e := if fle e 0 then (1 / (1 - (b - 1) * e))%Qc else (1 + (b - 1) * e)%Qc;
  log10f x := ((x - 1) / (x + 1))%Qc;
  sinf x := x;
  cosf x := (1 - x * x / lit 2)%Qc
|}.

(** ** Macros of main.h *)

Definition MAX (a b : float) : float := if fgt a b then a else b.
Definition MIN (a b : float) : float := if flt a b then a else b.
Definition CLAMP (x low high : float) : float :=
  if fgt x high then high else if flt x low then low else x.

Definition DB_TO_LINEAR `{Libm} (x : float) : float :=
  powf (lit 10) (x / lit 20)%Qc.
Definition LINEAR_TO_DB `{Libm} (x : float) : float :=
  (lit 20 * log10f (MAX x (lit 0.00001)))%Qc.

(** ** delay.h, delay.c *)

Definition MAX_DELAY_MS : float := lit 100.
Definition DELAY_BUFFER_SIZE : Z := 4800.
Definition DELAY_NUM_CHANNELS : nat := 4.
Definition SAMPLE_RATE : Z := 48000.
Definition MS_TO_SAMPLES (ms : float) : float :=
  (ms * (float_of_int SAMPLE_RATE / lit 1000))%Qc.

Record Delay_t := mkDelay {
  buffer : list (list Z);      (* int16_t buffer[4][4800] *)
  writeIndex : Z;              (* uint16_t *)
  readIndex : list Z;          (* uint16_t readIndex[4] *)
  phaseInvert : list Z;        (* uint8_t phaseInvert[4] *)
  delaySamples : list float;   (* float delaySamples[4] *)
  needsUpdate : Z              (* uint8_t *)
}.

Definition set_buffer (d : Delay_t) (b : list (list Z)) : Delay_t :=
  mkDelay b (writeIndex d) (readIndex d) (phaseInvert d) (delaySamples d) (needsUpdate d).
Definition set_writeIndex (d : Delay_t) (w : Z) : Delay_t :=
  mkDelay (buffer d) w (readIndex d) (phaseInvert d) (delaySamples d) (needsUpdate d).
Definition set_readIndex (d : Delay_t) (r : list Z) : Delay_t :=
  mkDelay (buffer d) (writeIndex d) r (phaseInvert d) (delaySamples d) (needsUpdate d).
Definition set_phaseInvert (d : Delay_t) (p : list Z) : Delay_t :=
  mkDelay (buffer d) (writeIndex d) (readIndex d) p (delaySamples d) (needsUpdate d).
Definition set_delaySamples (d : Delay_t) (s : list float) : Delay_t :=
  mkDelay (buffer d) (writeIndex d) (readIndex d) (phaseInvert d) s (needsUpdate d).
Definition set_needsUpdate (d : Delay_t) (u : Z) : Delay_t :=
  mkDelay (buffer d) (writeIndex d) (readIndex d) (phaseInvert d) (delaySamples d) u.

(** [delayInstance.buffer[ch][idx]] *)
Definition buffer_at (d : Delay_t) (ch : nat) (idx : Z) : Z :=
  (buffer d !!! ch) !!! Z.to_nat idx.
Definition buffer_store (d : Delay_t) (ch : nat) (idx : Z) (v : Z) : Delay_t :=
  set_buffer d (<[ch := <[Z.to_nat idx := v]> (buffer d !!! ch)]> (buffer d)).

(** [Delay_Reset]: clear the four lines and rewind all indices. *)
Definition Delay_Reset (d : Delay_t) : Delay_t :=
  let d := for_loop DELAY_NUM_CHANNELS
             (fun ch d => set_buffer d (<[ch := replicate (Z.to_nat DELAY_BUFFER_SIZE) 0]> (buffer d))) d in
  let d := set_writeIndex d 0 in
  for_loop DELAY_NUM_CHANNELS (fun ch d => set_readIndex d (<[ch := 0]> (readIndex d))) d.

(** The zeroed instance that [memset] leaves behind. *)
Definition Delay_zero : Delay_t :=
  mkDelay (replicate 4 (replicate (Z.to_nat DELAY_BUFFER_SIZE) 0)) 0
          (replicate 4 0) (replicate 4 0) (replicate 4 (lit 0)) 0.

Definition Delay_Init : Delay_t :=
  let d := Delay_zero in
  let d := for_loop DELAY_NUM_CHANNELS
             (fun i d =>
                let d := set_delaySamples d (<[i := lit 0]> (delaySamples d)) in
                let d := set_phaseInvert d (<[i := 0]> (phaseInvert d)) in
                set_readIndex d (<[i := 0]> (readIndex d))) d in
  let d := set_writeIndex d 0 in
  let d := set_needsUpdate d 0 in
  Delay_Reset d.

(** [while (readPos < 0) readPos += DELAY_BUFFER_SIZE;] with the number of
    iterations bounded by [fuel]. *)
Fixpoint wrap_readPos (fuel : nat) (readPos : Z) : Z :=
  match fuel with
  | O => readPos
  | S fuel' =>
      if readPos <? 0 then wrap_readPos fuel' (readPos + DELAY_BUFFER_SIZE)
      else readPos
  end.

(** The body of the loop of [Delay_UpdateParameters]: the read index for
    write index [w] and a delay of [samples]. *)
Definition updated_readIndex (w : Z) (samples : float) : Z :=
  let offset := int_of_float samples in
  let readPos := w - offset in
  let readPos := wrap_readPos (Z.to_nat (- readPos)) readPos in
  to_uint16 (Z.rem readPos DELAY_BUFFER_SIZE).

Definition Delay_UpdateParameters (d : Delay_t) : Delay_t :=
  for_loop DELAY_NUM_CHANNELS
    (fun ch d =>
       set_readIndex d
         (<[ch := updated_readIndex (writeIndex d) (delaySamples d !!! ch)]> (readIndex d)))
    d.

Definition Delay_GetSample (d : Delay_t) (channel : nat) (index : Z) : Z :=
  let samples := delaySamples d !!! channel in
  let intDelay := int_of_float samples in
  let fraction := (samples - float_of_int intDelay)%Qc in
  if flt fraction (lit 0.001) then buffer_at d channel index
  else
    let sample1 := buffer_at d channel index in
    let sample2 := buffer_at d channel (Z.rem (index + 1) DELAY_BUFFER_SIZE) in
    int_of_float (float_of_int sample1 * (1 - fraction)
                  + float_of_int sample2 * fraction)%Qc.

(** The statements of [Delay_Process] before its sample loop. *)
Definition Delay_Process_update (d : Delay_t) : Delay_t :=
  if truthy (needsUpdate d) then set_needsUpdate (Delay_UpdateParameters d) 0
  else d.

(** One pass of the inner loop over the channels, for frame [i]. *)
Definition Delay_Process_channel (input : list Z) (i : nat) (ch : nat)
    (s : Delay_t * list Z) : Delay_t * list Z :=
  let '(d, output) := s in
  let inputSample := input !!! (i * DELAY_NUM_CHANNELS + ch)%nat in
  let d := buffer_store d ch (writeIndex d) inputSample in
  let outputSample := Delay_GetSample d ch (readIndex d !!! ch) in
  let outputSample :=
    if truthy (phaseInvert d !!! ch) then to_int16 (- outputSample)
    else outputSample in
  (d, <[(i * DELAY_NUM_CHANNELS + ch)%nat := outputSample]> output).

Definition Delay_Process_frame (input : list Z) (i : nat)
    (s : Delay_t * list Z) : Delay_t * list Z :=
  let '(d, output) := for_loop DELAY_NUM_CHANNELS (Delay_Process_channel input i) s in
  let d := set_writeIndex d (Z.rem (writeIndex d + 1) DELAY_BUFFER_SIZE) in
  let d := for_loop DELAY_NUM_CHANNELS
             (fun ch d =>
                set_readIndex d (<[ch := Z.rem (readIndex d !!! ch + 1) DELAY_BUFFER_SIZE]> (readIndex d)))
             d in
  (d, output).

Definition Delay_Process_samples (d : Delay_t) (input output : list Z) (size : nat)
    : Delay_t * list Z :=
  for_loop size (Delay_Process_frame input) (d, output).

Definition Delay_Process (d : Delay_t) (input output : list Z) (size : nat)
    : Delay_t * list Z :=
  Delay_Process_samples (Delay_Process_update d) input output size.

Definition Delay_SetDelayTime (d : Delay_t) (channel : nat) (delayMs : float) : Delay_t :=
  if bool_decide (DELAY_NUM_CHANNELS <= channel)%nat then d
  else
    let delayMs := CLAMP delayMs (lit 0) MAX_DELAY_MS in
    let samples := MS_TO_SAMPLES delayMs in
    let d := set_delaySamples d (<[channel := samples]> (delaySamples d)) in
    set_needsUpdate d 1.

Definition Delay_SetPhaseInvert (d : Delay_t) (channel : nat) (invert : Z) : Delay_t :=
  if bool_decide (DELAY_NUM_CHANNELS <= channel)%nat then d
  else set_phaseInvert d (<[channel := if truthy invert then 1 else 0]> (phaseInvert d)).

(** Two flag arrays that differ in the flag of channel [ch] only, set in the
    first and clear in the second. *)
Definition phase_related (ch : nat) (pS pC : list Z) : Prop :=
  truthy (pS !!! ch) = true /\ truthy (pC !!! ch) = false /\
  forall c, c <> ch -> truthy (pS !!! c) = truthy (pC !!! c).

(** The interleaved block [outS] carries, at the positions of channel [ch]
    below [m], the 16-bit negation of [outC], and [outC] itself everywhere
    else. *)
Definition inverted_on (ch m : nat) (outS outC : list Z) : Prop :=
  length outS = length outC /\
  forall k,
    outS !!! k
    = if bool_decide (k < m /\ k mod DELAY_NUM_CHANNELS = ch /\ k < length outC)%nat
      then to_int16 (- (outC !!! k)) else outC !!! k.

(** ** dynamics.h, dynamics.c *)

Section Dynamics.
Context `{Libm}.
Local Open Scope Qc_scope.

(** Time constant in ms to the coefficient of a one-pole low-pass. *)
Definition MS_TO_COEF (time_ms sample_rate : float) : float :=
  if fle time_ms (lit 0) then lit 0
  else expf (lit (-1) / ((time_ms * lit 0.001) * sample_rate)).

Record DynamicsState_t := mkDynamicsState {
  env : float;
  gainReduction : float;
  prevSample : float
}.

Record CompressorParams_t := mkCompressorParams {
  threshold : float;
  ratio : float;
  attack : float;
  release : float;
  makeupGain : float;
  enabled : Z;        (* uint8_t *)
  autoMakeup : Z;     (* uint8_t *)
  kneeWidth : float
}.

Record LimiterParams_t := mkLimiterParams {
  lim_threshold : float;
  lim_release : float;
  lim_enabled : Z;    (* uint8_t *)
  lookAhead : float
}.

Record Compressor_t := mkCompressor {
  params : CompressorParams_t;
  state : DynamicsState_t;
  attackCoef : float;
  releaseCoef : float;
  sampleRate : float
}.

Record Limiter_t := mkLimiter {
  lim_params : LimiterParams_t;
  lim_state : DynamicsState_t;
  lim_releaseCoef : float;
  lim_sampleRate : float
}.

Definition LIMITER_DEFAULT_THRESHOLD : float := lit (-3).
Definition LIMITER_DEFAULT_RELEASE : float := lit 50.
Definition LIMITER_DEFAULT_ENABLED : Z := 1.

Definition Dynamics_DetectPeak (sample prevSample : float) : float :=
  MAX sample prevSample.




Definition calculateCompressorGain (comp : Compressor_t) (inputLevel : float) : float :=
  let threshold := threshold (params comp) in
  let ratio := ratio (params comp) in
  let kneeWidth := kneeWidth (params comp) in
  let halfKneeWidth := kneeWidth * lit 0.5 in
  let gain := lit 1 in
  let gain :=
    if fgt kneeWidth (lit 0) && fgt inputLevel (threshold - halfKneeWidth)
       && flt inputLevel (threshold + halfKneeWidth)
    then
      (* soft knee region *)
      let kneeInput := inputLevel - threshold + halfKneeWidth in
      let kneeRatio := lit 1 + ((ratio - lit 1) * kneeInput * kneeInput) / (lit 2 * kneeWidth) in
      let gainReduction := (threshold - inputLevel) / kneeRatio in
      DB_TO_LINEAR gainReduction
    else if fgt inputLevel threshold then
      (* above threshold *)
      let gainReduction := (threshold - inputLevel) / ratio + (inputLevel - threshold) in
      let gainReduction := threshold - inputLevel + (inputLevel - threshold) / ratio in
      DB_TO_LINEAR gainReduction
    else gain in
  MAX gain (lit 0.001).

Definition Dynamics_CompressorProcessSample (comp : Compressor_t) (sample : float)
    : Compressor_t * float :=
  if negb (truthy (enabled (params comp))) then (comp, sample)
  else
    let inputAbs := fabsf sample in
    let peakValue := Dynamics_DetectPeak inputAbs (prevSample (state comp)) in
    let inputLevel := LINEAR_TO_DB peakValue in
    let env' :=
      if fgt inputLevel (env (state comp))
      then attackCoef comp * env (state comp) + (lit 1 - attackCoef comp) * inputLevel
      else releaseCoef comp * env (state comp) + (lit 1 - releaseCoef comp) * inputLevel in
    let comp := mkCompressor (params comp)
                  (mkDynamicsState env' (gainReduction (state comp)) inputAbs)
                  (attackCoef comp) (releaseCoef comp) (sampleRate comp) in
    let gain := calculateCompressorGain comp (env (state comp)) in
    let gr' :=
      if flt gain (gainReduction (state comp))
      then attackCoef comp * gainReduction (state comp) + (lit 1 - attackCoef comp) * gain
      else releaseCoef comp * gainReduction (state comp) + (lit 1 - releaseCoef comp) * gain in
    let comp := mkCompressor (params comp)
                  (mkDynamicsState (env (state comp)) gr' (prevSample (state comp)))
                  (attackCoef comp) (releaseCoef comp) (sampleRate comp) in
    (comp, sample * gainReduction (state comp)).

Definition Dynamics_CompressorProcess (comp : Compressor_t)
    (input output : list float) (size : nat) : Compressor_t * list float :=
  if negb (truthy (enabled (params comp))) then
    (comp, for_loop size (fun i output => <[i := input !!! i]> output) output)
  else
    let makeupGainLinear := DB_TO_LINEAR (makeupGain (params comp)) in
    for_loop size
      (stream_body Dynamics_CompressorProcessSample
         (fun y => y * makeupGainLinear) input)
      (comp, output).

Definition Dynamics_CompressorGetGainReduction (comp : Compressor_t) : float :=
  LINEAR_TO_DB (gainReduction (state comp)).

Definition Dynamics_LimiterSetParams (lim : Limiter_t) (p : LimiterParams_t) : Limiter_t :=
  let attackTime := lit 0.1 in
  let attackCoef := MS_TO_COEF attackTime (lim_sampleRate lim) in
  mkLimiter p (lim_state lim)
    (MS_TO_COEF (lim_release p) (lim_sampleRate lim))
    (lim_sampleRate lim).

Definition Dynamics_LimiterInit (lim : Limiter_t) (sampleRate : float) : Limiter_t :=
  let lim := mkLimiter (lim_params lim)
               (mkDynamicsState (lit 0) (lit 1) (lit 0))
               (lim_releaseCoef lim) sampleRate in
  let defaultParams :=
    mkLimiterParams LIMITER_DEFAULT_THRESHOLD LIMITER_DEFAULT_RELEASE
      LIMITER_DEFAULT_ENABLED (lit 0) in
  Dynamics_LimiterSetParams lim defaultParams.

Definition Dynamics_LimiterReset (lim : Limiter_t) : Limiter_t :=
  mkLimiter (lim_params lim) (mkDynamicsState (lit 0) (lit 1) (lit 0))
    (lim_releaseCoef lim) (lim_sampleRate lim).

Definition Dynamics_LimiterProcessSample (lim : Limiter_t) (sample : float)
    : Limiter_t * float :=
  if negb (truthy (lim_enabled (lim_params lim))) then (lim, sample)
  else
    let inputAbs := fabsf sample in
    let peakValue := Dynamics_DetectPeak inputAbs (prevSample (lim_state lim)) in
    let inputLevel := LINEAR_TO_DB peakValue in
    let env' :=
      if fgt inputLevel (env (lim_state lim)) then inputLevel
      else lim_releaseCoef lim * env (lim_state lim)
           + (lit 1 - lim_releaseCoef lim) * inputLevel in
    let gainReduction0 := lit 0 in
    let gainReduction_dB :=
      if fgt env' (lim_threshold (lim_params lim))
      then lim_threshold (lim_params lim) - env'
      else gainReduction0 in
    let targetGain :=
      if fgt gainReduction_dB (lit 0) then lit 1 else DB_TO_LINEAR gainReduction_dB in
    let gr' :=
      if flt targetGain (gainReduction (lim_state lim)) then targetGain
      else lim_releaseCoef lim * gainReduction (lim_state lim)
           + (lit 1 - lim_releaseCoef lim) * targetGain in
    let lim := mkLimiter (lim_params lim) (mkDynamicsState env' gr' inputAbs)
                 (lim_releaseCoef lim) (lim_sampleRate lim) in
    (lim, sample * gainReduction (lim_state lim)).

Definition Dynamics_LimiterProcess (lim : Limiter_t)
    (input output : list float) (size : nat) : Limiter_t * list float :=
  if negb (truthy (lim_enabled (lim_params lim))) then
    (lim, for_loop size (fun i output => <[i := input !!! i]> output) output)
  else
    for_loop size
      (stream_body Dynamics_LimiterProcessSample (fun y => y) input)
      (lim, output).

Definition Dynamics_LimiterGetGainReduction (lim : Limiter_t) : float :=
  LINEAR_TO_DB (gainReduction (lim_state lim)).

Definition Dynamics_DBToLinear (dB : float) : float := DB_TO_LINEAR dB.
Definition Dynamics_LinearToDB (linear : float) : float := LINEAR_TO_DB linear.

End Dynamics.

(** ** main.h: crossover settings *)

Definition AUDIO_BUFFER_SIZE : nat := 256.

Record CrossoverSettings_t := mkCrossoverSettings {
  lowCutoff : float;
  midCutoff : float;
  highCutoff : float;
  subGain : float;      (* dB *)
  lowGain : float;
  midGain : float;
  highGain : float;
  filterType : Z;       (* uint8_t, 0: Butterworth, 1: Linkwitz-Riley *)
  filterOrder : Z;      (* uint8_t *)
  subMute : Z;          (* uint8_t *)
  lowMute : Z;
  midMute : Z;
  highMute : Z
}.

(** ** crossover.c *)

Section Crossover.
Context `{Libm}.
Local Open Scope Qc_scope.

Record BiquadFilter_t := mkBiquad {
  a0 : float; a1 : float; a2 : float;
  b0 : float; b1 : float; b2 : float;
  x1 : float; x2 : float;
  y1 : float; y2 : float
}.

Record FilterChain_t := mkChain {
  filters : list BiquadFilter_t;   (* BiquadFilter_t[MAX_FILTER_ORDER/2] *)
  filterCount : Z                  (* uint8_t *)
}.

(** The fields of [CrossoverFilters_t] carry the prefix [cf_]; the settings
    record of main.h has fields of the same names. *)
Record CrossoverFilters_t := mkCrossoverFilters {
  subLowPass : FilterChain_t;
  lowLowPass : FilterChain_t;
  lowHighPass : FilterChain_t;
  midLowPass : FilterChain_t;
  midHighPass : FilterChain_t;
  highHighPass : FilterChain_t;
  cf_lowCutoff : float;
  cf_midCutoff : float;
  cf_highCutoff : float;
  cf_subGain : float;    (* linear *)
  cf_lowGain : float;
  cf_midGain : float;
  cf_highGain : float;
  cf_filterType : Z;
  cf_filterOrder : Z;
  cf_subMute : Z;
  cf_lowMute : Z;
  cf_midMute : Z;
  cf_highMute : Z;
  cf_sampleRate : float
}.

(** The file-scope variables of crossover.c. *)
Record CrossoverState := mkCrossoverState {
  crossoverFilters : CrossoverFilters_t;
  currentSettings : CrossoverSettings_t;
  subBuffer : list float;
  lowBuffer : list float;
  midBuffer : list float;
  highBuffer : list float
}.

Definition PI : float := lit 3.14159265358979323846.
Definition DEFAULT_SAMPLE_RATE : float := lit 48000.
Definition DEFAULT_LOW_CUTOFF : float := lit 100.
Definition DEFAULT_MID_CUTOFF : float := lit 1000.
Definition DEFAULT_HIGH_CUTOFF : float := lit 5000.
Definition DEFAULT_FILTER_TYPE : Z := 1.
Definition DEFAULT_FILTER_ORDER : Z := 4.
Definition MAX_FILTER_ORDER : Z := 8.

Definition zero_biquad : BiquadFilter_t :=
  mkBiquad (lit 0) (lit 0) (lit 0) (lit 0) (lit 0) (lit 0)
           (lit 0) (lit 0) (lit 0) (lit 0).

#[global] Instance BiquadFilter_inhabited : Inhabited BiquadFilter_t :=
  populate zero_biquad.

(** [f(&chain->filters[i])] for an [f] that updates one filter in place. *)
Definition update_filter (chain : FilterChain_t) (i : nat)
    (f : BiquadFilter_t -> BiquadFilter_t) : FilterChain_t :=
  mkChain (<[i := f (filters chain !!! i)]> (filters chain)) (filterCount chain).

Definition set_filterCount (chain : FilterChain_t) (n : Z) : FilterChain_t :=
  mkChain (filters chain) n.

(** Replace the six chains of the filter bank. *)
Definition set_chains (cf : CrossoverFilters_t)
    (subLP lowLP lowHP midLP midHP highHP : FilterChain_t) : CrossoverFilters_t :=
  mkCrossoverFilters subLP lowLP lowHP midLP midHP highHP
    (cf_lowCutoff cf) (cf_midCutoff cf) (cf_highCutoff cf)
    (cf_subGain cf) (cf_lowGain cf) (cf_midGain cf) (cf_highGain cf)
    (cf_filterType cf) (cf_filterOrder cf)
    (cf_subMute cf) (cf_lowMute cf) (cf_midMute cf) (cf_highMute cf)
    (cf_sampleRate cf).

Definition set_crossoverFilters (st : CrossoverState) (cf : CrossoverFilters_t)
    : CrossoverState :=
  mkCrossoverState cf (currentSettings st)
    (subBuffer st) (lowBuffer st) (midBuffer st) (highBuffer st).

Definition ResetFilter (filter : BiquadFilter_t) : BiquadFilter_t :=
  mkBiquad (a0 filter) (a1 filter) (a2 filter)
           (b0 filter) (b1 filter) (b2 filter)
           (lit 0) (lit 0) (lit 0) (lit 0).

Definition ResetAllFilters (st : CrossoverState) : CrossoverState :=
  let maxFilters := Z.to_nat (Z.quot MAX_FILTER_ORDER 2) in
  let cf :=
    for_loop maxFilters
      (fun i cf =>
         set_chains cf
           (update_filter (subLowPass cf) i ResetFilter)
           (update_filter (lowLowPass cf) i ResetFilter)
           (update_filter (lowHighPass cf) i ResetFilter)
           (update_filter (midLowPass cf) i ResetFilter)
           (update_filter (midHighPass cf) i ResetFilter)
           (update_filter (highHighPass cf) i ResetFilter))
      (crossoverFilters st) in
  mkCrossoverState cf (currentSettings st)
    (replicate AUDIO_BUFFER_SIZE (lit 0)) (replicate AUDIO_BUFFER_SIZE (lit 0))
    (replicate AUDIO_BUFFER_SIZE (lit 0)) (replicate AUDIO_BUFFER_SIZE (lit 0)).

(** [type]: 0 low-pass, otherwise high-pass.  The sample rate is read from
    [crossoverFilters]. *)
Definition CalculateButterworthCoefficients (sampleRate : float)
    (frequency q : float) (type : Z) (filter : BiquadFilter_t) : BiquadFilter_t :=
  let omega := lit 2 * PI * frequency / sampleRate in
  let alpha := sinf omega / (lit 2 * q) in
  let cosw := cosf omega in
  let '(c_a0, c_a1, c_a2, c_b0, c_b1, c_b2) :=
    if type =? 0 then
      (lit 1 + alpha, lit (-2) * cosw, lit 1 - alpha,
       (lit 1 - cosw) / lit 2, lit 1 - cosw, (lit 1 - cosw) / lit 2)
    else
      (lit 1 + alpha, lit (-2) * cosw, lit 1 - alpha,
       (lit 1 + cosw) / lit 2, - (lit 1 + cosw), (lit 1 + cosw) / lit 2) in
  mkBiquad (a0 filter) (c_a1 / c_a0) (c_a2 / c_a0)
           (c_b0 / c_a0) (c_b1 / c_a0) (c_b2 / c_a0)
           (x1 filter) (x2 filter) (y1 filter) (y2 filter).

Definition CalculateLinkwitzRileyCoefficients (sampleRate : float)
    (frequency : float) (type : Z) (filter : BiquadFilter_t) : BiquadFilter_t :=
  CalculateButterworthCoefficients sampleRate frequency (lit 0.7071) type filter.

Definition qValues2 : list float := [lit 0.7071].
Definition qValues4 : list float := [lit 0.5412; lit 1.3066].
Definition qValues8 : list float := [lit 0.5098; lit 0.6013; lit 0.9000; lit 1.7412].

Definition CalculateFilterCoefficients (st : CrossoverState) : CrossoverState :=
  let st := ResetAllFilters st in
  let cf := crossoverFilters st in
  let fs := cf_sampleRate cf in
  let cf :=
    if cf_filterType cf =? 0 then
      let numFilters := Z.quot (cf_filterOrder cf) 2 in
      let qValues :=
        if cf_filterOrder cf =? 2 then qValues2
        else if cf_filterOrder cf =? 4 then qValues4
        else if cf_filterOrder cf =? 8 then qValues8
        else qValues4 in
      for_loop (Z.to_nat numFilters)
        (fun i cf =>
           let q := qValues !!! i in
           set_chains cf
             (update_filter (subLowPass cf) i
                (CalculateButterworthCoefficients fs (cf_lowCutoff cf) q 0))
             (update_filter (lowLowPass cf) i
                (CalculateButterworthCoefficients fs (cf_midCutoff cf) q 0))
             (update_filter (lowHighPass cf) i
                (CalculateButterworthCoefficients fs (cf_lowCutoff cf) q 1))
             (update_filter (midLowPass cf) i
                (CalculateButterworthCoefficients fs (cf_highCutoff cf) q 0))
             (update_filter (midHighPass cf) i
                (CalculateButterworthCoefficients fs (cf_midCutoff cf) q 1))
             (update_filter (highHighPass cf) i
                (CalculateButterworthCoefficients fs (cf_highCutoff cf) q 1)))
        cf
    else
      let numFilters := Z.quot (cf_filterOrder cf) 4 in
      for_loop (Z.to_nat numFilters)
        (fun i cf =>
           set_chains cf
             (update_filter (subLowPass cf) i
                (CalculateLinkwitzRileyCoefficients fs (cf_lowCutoff cf) 0))
             (update_filter (lowLowPass cf) i
                (CalculateLinkwitzRileyCoefficients fs (cf_midCutoff cf) 0))
             (update_filter (lowHighPass cf) i
                (CalculateLinkwitzRileyCoefficients fs (cf_lowCutoff cf) 1))
             (update_filter (midLowPass cf) i
                (CalculateLinkwitzRileyCoefficients fs (cf_highCutoff cf) 0))
             (update_filter (midHighPass cf) i
                (CalculateLinkwitzRileyCoefficients fs (cf_midCutoff cf) 1))
             (update_filter (highHighPass cf) i
                (CalculateLinkwitzRileyCoefficients fs (cf_highCutoff cf) 1)))
        cf in
  set_crossoverFilters st cf.

(** Direct form II. *)
Definition ProcessBiquad (filter : BiquadFilter_t) (input : float)
    : BiquadFilter_t * float :=
  let output := input - a1 filter * x1 filter - a2 filter * x2 filter in
  let result := b0 filter * output + b1 filter * x1 filter + b2 filter * x2 filter in
  (mkBiquad (a0 filter) (a1 filter) (a2 filter)
            (b0 filter) (b1 filter) (b2 filter)
            output (x1 filter) (y1 filter) (y2 filter),
   result).

Definition ProcessFilterChain (chain : FilterChain_t) (input : float)
    : FilterChain_t * float :=
  for_loop (Z.to_nat (filterCount chain))
    (fun i '(chain, output) =>
       let '(f, result) := ProcessBiquad (filters chain !!! i) output in
       (update_filter chain i (fun _ => f), result))
    (chain, input).

(** The output pointers of [Crossover_Process]; [None] is [NULL]. *)
Record CrossoverOutputs := mkCrossoverOutputs {
  subOut : option (list float);
  lowOut : option (list float);
  midOut : option (list float);
  highOut : option (list float);
  mixOut : option (list float)     (* the parameter [output] *)
}.

(** [if (p != NULL) p[i] = v;] *)
Definition store_if_present (p : option (list float)) (i : nat) (v : float)
    : option (list float) :=
  match p with
  | Some l => Some (<[i := v]> l)
  | None => None
  end.

(** The body of the sample loop of [Crossover_Process]. *)
Definition Crossover_Process_sample (input : list float) (i : nat)
    (s : CrossoverState * CrossoverOutputs) : CrossoverState * CrossoverOutputs :=
  let '(st, outs) := s in
  let cf := crossoverFilters st in
  let inputSample := input !!! i in
  let '(subLP, subSample) := ProcessFilterChain (subLowPass cf) inputSample in
  let '(lowHP, lowHigh) := ProcessFilterChain (lowHighPass cf) inputSample in
  let '(lowLP, lowSample) := ProcessFilterChain (lowLowPass cf) lowHigh in
  let '(midHP, midHigh) := ProcessFilterChain (midHighPass cf) inputSample in
  let '(midLP, midSample) := ProcessFilterChain (midLowPass cf) midHigh in
  let '(highHP, highSample) := ProcessFilterChain (highHighPass cf) inputSample in
  let cf := set_chains cf subLP lowLP lowHP midLP midHP highHP in
  let subSample := if truthy (cf_subMute cf) then lit 0 else subSample * cf_subGain cf in
  let lowSample := if truthy (cf_lowMute cf) then lit 0 else lowSample * cf_lowGain cf in
  let midSample := if truthy (cf_midMute cf) then lit 0 else midSample * cf_midGain cf in
  let highSample := if truthy (cf_highMute cf) then lit 0 else highSample * cf_highGain cf in
  let outs :=
    mkCrossoverOutputs
      (store_if_present (subOut outs) i subSample)
      (store_if_present (lowOut outs) i lowSample)
      (store_if_present (midOut outs) i midSample)
      (store_if_present (highOut outs) i highSample)
      (store_if_present (mixOut outs) i
         (subSample + lowSample + midSample + highSample)) in
  (mkCrossoverState cf (currentSettings st)
     (<[i := subSample]> (subBuffer st)) (<[i := lowSample]> (lowBuffer st))
     (<[i := midSample]> (midBuffer st)) (<[i := highSample]> (highBuffer st)),
   outs).

Definition Crossover_Process (st : CrossoverState) (input : list float)
    (outs : CrossoverOutputs) (size : nat) : CrossoverState * CrossoverOutputs :=
  for_loop size (Crossover_Process_sample input) (st, outs).

Definition Crossover_GetBandOutput (st : CrossoverState) (band : Z)
    : option (list float) :=
  if band =? 0 then Some (subBuffer st)
  else if band =? 1 then Some (lowBuffer st)
  else if band =? 2 then Some (midBuffer st)
  else if band =? 3 then Some (highBuffer st)
  else None.

Definition Crossover_SetSettings (st : CrossoverState) (settings : CrossoverSettings_t)
    : CrossoverState :=
  let cf := crossoverFilters st in
  let filterCount := Z.quot (filterOrder settings) 2 in
  let cf :=
    mkCrossoverFilters
      (set_filterCount (subLowPass cf) filterCount)
      (set_filterCount (lowLowPass cf) filterCount)
      (set_filterCount (lowHighPass cf) filterCount)
      (set_filterCount (midLowPass cf) filterCount)
      (set_filterCount (midHighPass cf) filterCount)
      (set_filterCount (highHighPass cf) filterCount)
      (lowCutoff settings) (midCutoff settings) (highCutoff settings)
      (DB_TO_LINEAR (subGain settings)) (DB_TO_LINEAR (lowGain settings))
      (DB_TO_LINEAR (midGain settings)) (DB_TO_LINEAR (highGain settings))
      (filterType settings) (filterOrder settings)
      (subMute settings) (lowMute settings) (midMute settings) (highMute settings)
      (cf_sampleRate cf) in
  CalculateFilterCoefficients
    (mkCrossoverState cf settings
       (subBuffer st) (lowBuffer st) (midBuffer st) (highBuffer st)).

Definition Crossover_GetSettings (st : CrossoverState) : CrossoverSettings_t :=
  currentSettings st.

Definition Crossover_SetSampleRate (st : CrossoverState) (sampleRate : float)
    : CrossoverState :=
  let cf := crossoverFilters st in
  let cf :=
    mkCrossoverFilters
      (subLowPass cf) (lowLowPass cf) (lowHighPass cf)
      (midLowPass cf) (midHighPass cf) (highHighPass cf)
      (cf_lowCutoff cf) (cf_midCutoff cf) (cf_highCutoff cf)
      (cf_subGain cf) (cf_lowGain cf) (cf_midGain cf) (cf_highGain cf)
      (cf_filterType cf) (cf_filterOrder cf)
      (cf_subMute cf) (cf_lowMute cf) (cf_midMute cf) (cf_highMute cf)
      sampleRate in
  CalculateFilterCoefficients (set_crossoverFilters st cf).

(** The variables of crossover.c at program start: static storage is
    zero-initialised. *)
Definition Crossover_static_init : CrossoverState :=
  let chain := mkChain (replicate 4 zero_biquad) 0 in
  let z := lit 0 in
  mkCrossoverState
    (mkCrossoverFilters chain chain chain chain chain chain
       z z z z z z z 0 0 0 0 0 0 z)
    (mkCrossoverSettings z z z z z z z 0 0 0 0 0 0)
    (replicate AUDIO_BUFFER_SIZE z) (replicate AUDIO_BUFFER_SIZE z)
    (replicate AUDIO_BUFFER_SIZE z) (replicate AUDIO_BUFFER_SIZE z).

Definition Crossover_Init (st : CrossoverState) : CrossoverState :=
  let cf := crossoverFilters st in
  let filterCount := Z.quot DEFAULT_FILTER_ORDER 2 in
  let cf :=
    mkCrossoverFilters
      (set_filterCount (subLowPass cf) filterCount)
      (set_filterCount (lowLowPass cf) filterCount)
      (set_filterCount (lowHighPass cf) filterCount)
      (set_filterCount (midLowPass cf) filterCount)
      (set_filterCount (midHighPass cf) filterCount)
      (set_filterCount (highHighPass cf) filterCount)
      DEFAULT_LOW_CUTOFF DEFAULT_MID_CUTOFF DEFAULT_HIGH_CUTOFF
      (lit 1) (lit 1) (lit 1) (lit 1)
      DEFAULT_FILTER_TYPE DEFAULT_FILTER_ORDER
      0 0 0 0
      DEFAULT_SAMPLE_RATE in
  let st := ResetAllFilters (set_crossoverFilters st cf) in
  let st := CalculateFilterCoefficients st in
  let cf := crossoverFilters st in
  mkCrossoverState cf
    (mkCrossoverSettings
       (cf_lowCutoff cf) (cf_midCutoff cf) (cf_highCutoff cf)
       (LINEAR_TO_DB (cf_subGain cf)) (LINEAR_TO_DB (cf_lowGain cf))
       (LINEAR_TO_DB (cf_midGain cf)) (LINEAR_TO_DB (cf_highGain cf))
       (cf_filterType cf) (cf_filterOrder cf)
       (cf_subMute cf) (cf_lowMute cf) (cf_midMute cf) (cf_highMute cf))
    (subBuffer st) (lowBuffer st) (midBuffer st) (highBuffer st).

(** The six chains of the bank, and the coefficients of a section. *)
Definition crossover_chains (cf : CrossoverFilters_t) : list FilterChain_t :=
  [subLowPass cf; lowLowPass cf; lowHighPass cf;
   midLowPass cf; midHighPass cf; highHighPass cf].

Definition coefficients (f : BiquadFilter_t) : float * float * float * float * float :=
  (b0 f, b1 f, b2 f, a1 f, a2 f).

(** A chain that runs two stages and whose second stage has no
    feed-forward path. *)
Definition second_stage_dead (chain : FilterChain_t) : Prop :=
  filterCount chain = 2%Z /\
  exists f0 f1 rest, filters chain = f0 :: f1 :: rest /\
    b0 f1 = lit 0 /\ b1 f1 = lit 0 /\ b2 f1 = lit 0.

(** Settings [s] with the filter type and order replaced. *)
Definition with_filter (s : CrossoverSettings_t) (type order : Z) : CrossoverSettings_t :=
  mkCrossoverSettings (lowCutoff s) (midCutoff s) (highCutoff s)
    (subGain s) (lowGain s) (midGain s) (highGain s)
    type order (subMute s) (lowMute s) (midMute s) (highMute s).

(** A design loop seen from one chain: stage [i] is rewritten by [d i],
    for [i] below [n]. *)
Definition design_chain (n : nat) (d : nat -> BiquadFilter_t -> BiquadFilter_t)
    (chain : FilterChain_t) : FilterChain_t :=
  for_loop n (fun i chain => update_filter chain i (d i)) chain.

(** The cutoff and the type (0 low-pass, 1 high-pass) of each chain, in the
    order of [crossover_chains]. *)
Definition crossover_design (cf : CrossoverFilters_t) : list (float * Z) :=
  [(cf_lowCutoff cf, 0%Z); (cf_midCutoff cf, 0%Z); (cf_lowCutoff cf, 1%Z);
   (cf_highCutoff cf, 0%Z); (cf_midCutoff cf, 1%Z); (cf_highCutoff cf, 1%Z)].

(** The number of stages that [CalculateFilterCoefficients] designs, and
    the Q it uses for stage [j]. *)
Definition designed_stages (cf : CrossoverFilters_t) : nat :=
  if cf_filterType cf =? 0 then Z.to_nat (Z.quot (cf_filterOrder cf) 2)
  else Z.to_nat (Z.quot (cf_filterOrder cf) 4).

Definition stage_q (cf : CrossoverFilters_t) (j : nat) : float :=
  if cf_filterType cf =? 0 then
    (if cf_filterOrder cf =? 2 then qValues2
     else if cf_filterOrder cf =? 4 then qValues4
     else if cf_filterOrder cf =? 8 then qValues8
     else qValues4) !!! j
  else lit 0.7071.

(** All six chains have a dead second stage and the four band buffers are
    zero. *)
Definition crossover_silent (st : CrossoverState) : Prop :=
  Forall second_stage_dead (crossover_chains (crossoverFilters st)) /\
  subBuffer st = replicate AUDIO_BUFFER_SIZE (lit 0) /\
  lowBuffer st = replicate AUDIO_BUFFER_SIZE (lit 0) /\
  midBuffer st = replicate AUDIO_BUFFER_SIZE (lit 0) /\
  highBuffer st = replicate AUDIO_BUFFER_SIZE (lit 0).

End Crossover.

(** *** Relations between runs of the crossover, and the 16-bit entry point *)

Section CrossoverRuns.
Context `{Libm}.
Local Open Scope Qc_scope.



(** The gains and mute flags of a bank. *)
Definition band_controls (cf : CrossoverFilters_t) : list float * list Z :=
  ([cf_subGain cf; cf_lowGain cf; cf_midGain cf; cf_highGain cf],
   [cf_subMute cf; cf_lowMute cf; cf_midMute cf; cf_highMute cf]).




(** Every section of every chain has empty memories. *)
Definition filters_at_rest (cf : CrossoverFilters_t) : Prop :=
  Forall (fun chain => forall i,
            x1 (filters chain !!! i) = lit 0 /\ x2 (filters chain !!! i) = lit 0 /\
            y1 (filters chain !!! i) = lit 0 /\ y2 (filters chain !!! i) = lit 0)
         (crossover_chains cf).

(** Chain [c'] is chain [c] up to the memories of its sections. *)
Definition same_design (c' c : FilterChain_t) : Prop :=
  filterCount c' = filterCount c /\
  length (filters c') = length (filters c) /\
  forall j, coefficients (filters c' !!! j) = coefficients (filters c !!! j).

(** Buffer [b'] is buffer [b0] from index [k] on. *)
Definition buffer_kept (k : nat) (b' b0 : list float) : Prop :=
  length b' = length b0 /\ forall j, (k <= j)%nat -> b' !!! j = b0 !!! j.

(** The same for a buffer behind an output pointer; a null pointer stays
    null. *)
Definition pointer_kept (k : nat) (p' p : option (list float)) : Prop :=
  match p', p with
  | Some l', Some l => buffer_kept k l' l
  | None, None => True
  | _, _ => False
  end.

Definition output_pointers (outs : CrossoverOutputs) : list (option (list float)) :=
  [subOut outs; lowOut outs; midOut outs; highOut outs; mixOut outs].

(** The cutoffs, the filter type and order and the sample rate of a bank. *)
Definition bank_design (cf : CrossoverFilters_t) : list float * list Z :=
  ([cf_lowCutoff cf; cf_midCutoff cf; cf_highCutoff cf; cf_sampleRate cf],
   [cf_filterType cf; cf_filterOrder cf]).

(** The four band buffers of crossover.c. *)
Definition band_buffers (st : CrossoverState) : list (list float) :=
  [subBuffer st; lowBuffer st; midBuffer st; highBuffer st].


(** [floatInput] and [floatOutput] are the local arrays of the function;
    what they hold on entry is indeterminate, so it is an argument.  The
    cast to [int16_t] truncates toward zero; the limiting before it keeps
    its argument inside the range of [int16_t]. *)
Definition Crossover_ProcessI16 (st : CrossoverState) (floatInput floatOutput : list float)
    (input output : list Z) (size : nat) : CrossoverState * list Z :=
  let floatInput :=
    for_loop size
      (fun i floatInput => <[i := float_of_int (input !!! i) / lit 32768]> floatInput)
      floatInput in
  let '(st, outs) :=
    Crossover_Process st floatInput
      (mkCrossoverOutputs None None None None (Some floatOutput)) size in
  let floatOutput := default floatOutput (mixOut outs) in
  let output :=
    for_loop size
      (fun i output =>
         let limitedSample := floatOutput !!! i in
         let limitedSample :=
           if fgt limitedSample (lit 0.99) then lit 0.99 else limitedSample in
         let limitedSample :=
           if flt limitedSample (lit (-0.99)) then lit (-0.99) else limitedSample in
         <[i := int_of_float (limitedSample * lit 32767)]> output)
      output in
  (st, output).

(** What [Crossover_Process] leaves alone when it has produced the samples
    below [k]: the settings, the gains and mute flags, the design of the
    bank, and the part of each buffer from [k] on. *)
Definition process_kept (k : nat) (s' s : CrossoverState * CrossoverOutputs) : Prop :=
  currentSettings (fst s') = currentSettings (fst s) /\
  band_controls (crossoverFilters (fst s')) = band_controls (crossoverFilters (fst s)) /\
  bank_design (crossoverFilters (fst s')) = bank_design (crossoverFilters (fst s)) /\
  Forall2 same_design (crossover_chains (crossoverFilters (fst s')))
    (crossover_chains (crossoverFilters (fst s))) /\
  Forall2 (buffer_kept k) (band_buffers (fst s')) (band_buffers (fst s)) /\
  Forall2 (pointer_kept k) (output_pointers (snd s')) (output_pointers (snd s)).

End CrossoverRuns.

(** ** main.h: system settings *)

Record BandCompressorSettings := mkBandCompressorSettings {
  bc_threshold : float;
  bc_ratio : float;
  bc_attack : float;
  bc_release : float;
  bc_makeupGain : float;
  bc_enabled : Z
}.

Record CompressorSettings_t := mkCompressorSettings {
  comp_sub : BandCompressorSettings;
  comp_low : BandCompressorSettings;
  comp_mid : BandCompressorSettings;
  comp_high : BandCompressorSettings
}.

Record BandLimiterSettings := mkBandLimiterSettings {
  bl_threshold : float;
  bl_release : float;
  bl_enabled : Z
}.

Record LimiterSettings_t := mkLimiterSettings {
  lim_sub : BandLimiterSettings;
  lim_low : BandLimiterSettings;
  lim_mid : BandLimiterSettings;
  lim_high : BandLimiterSettings
}.

Record DelaySettings_t := mkDelaySettings {
  subDelay : float;
  lowDelay : float;
  midDelay : float;
  highDelay : float;
  subPhaseInvert : Z;
  lowPhaseInvert : Z;
  midPhaseInvert : Z;
  highPhaseInvert : Z
}.

Record SystemSettings_t := mkSystemSettings {
  crossover : CrossoverSettings_t;
  compressor : CompressorSettings_t;
  limiter : LimiterSettings_t;
  delay : DelaySettings_t
}.

(** ** delay.c: the settings interface *)

Definition Delay_wf (d : Delay_t) : Prop :=
  0 <= writeIndex d < DELAY_BUFFER_SIZE /\
  length (buffer d) = DELAY_NUM_CHANNELS /\
  Forall (fun row => length row = Z.to_nat DELAY_BUFFER_SIZE) (buffer d) /\
  length (readIndex d) = DELAY_NUM_CHANNELS /\
  Forall (fun r => 0 <= r < DELAY_BUFFER_SIZE) (readIndex d) /\
  length (phaseInvert d) = DELAY_NUM_CHANNELS /\
  length (delaySamples d) = DELAY_NUM_CHANNELS.

Definition DELAY_CHANNEL_SUB : nat := 0.
Definition DELAY_CHANNEL_LOW : nat := 1.
Definition DELAY_CHANNEL_MID : nat := 2.
Definition DELAY_CHANNEL_HIGH : nat := 3.

(** [settings == NULL] is [None]. *)
Definition Delay_SetSettings (d : Delay_t) (settings : option DelaySettings_t) : Delay_t :=
  match settings with
  | None => d
  | Some s =>
      let d := Delay_SetDelayTime d DELAY_CHANNEL_SUB (subDelay s) in
      let d := Delay_SetDelayTime d DELAY_CHANNEL_LOW (lowDelay s) in
      let d := Delay_SetDelayTime d DELAY_CHANNEL_MID (midDelay s) in
      let d := Delay_SetDelayTime d DELAY_CHANNEL_HIGH (highDelay s) in
      let d := Delay_SetPhaseInvert d DELAY_CHANNEL_SUB (subPhaseInvert s) in
      let d := Delay_SetPhaseInvert d DELAY_CHANNEL_LOW (lowPhaseInvert s) in
      let d := Delay_SetPhaseInvert d DELAY_CHANNEL_MID (midPhaseInvert s) in
      let d := Delay_SetPhaseInvert d DELAY_CHANNEL_HIGH (highPhaseInvert s) in
      Delay_UpdateParameters d
  end.


(** ** audio_processing.h, audio_processing.c *)

Definition NUM_BANDS : nat := 4.
Definition MAX_SAMPLE_VALUE : Z := 32767.
Definition MIN_SAMPLE_VALUE : Z := -32768.

Record AudioProcessingStats_t := mkStats {
  inputPeakLevel : float * float;            (* [CHANNEL_LEFT], [CHANNEL_RIGHT] *)
  outputPeakLevel : float * float;
  bandPeakLevel : list (float * float);      (* [4][2] *)
  compressionAmount : list float;            (* [4] *)
  limiterActivity : list float;              (* [4] *)
  clippingCount : Z;                         (* uint32_t *)
  processingTime : Z                         (* uint32_t *)
}.

(** The calls of [AudioProcessing_Process] whose definitions are not part
    of the sources: compressor.h and limiter.h are absent, and the
    [Crossover_Process] and [Delay_Process] it calls take other arguments
    than the functions of those names in crossover.c and delay.c.  They act
    on the state [M] of their own modules and on the buffers they are
    handed. *)
Class ExternalModules (M : Type) := {
  HAL_GetTick : M -> M * Z;
  (* (inL, inR, frames, subL, subR, lowL, lowR, midL, midR, highL, highR,
     settings): the new contents of the eight band buffers *)
  ext_Crossover_Process :
    M -> list float -> list float -> nat ->
    list float -> list float -> list float -> list float ->
    list float -> list float -> list float -> list float ->
    CrossoverSettings_t ->
    M * (list float * list float * list float * list float
         * list float * list float * list float * list float);
  ext_Compressor_Process :
    M -> list float -> list float -> nat ->
    float -> float -> float -> float -> float -> nat ->
    M * list float * list float * float;
  ext_Limiter_Process :
    M -> list float -> list float -> nat -> float -> float -> nat ->
    M * list float * list float * float;
  ext_Delay_Process :
    M -> list float -> list float -> nat -> float -> Z -> nat ->
    M * list float * list float
}.

Section AudioProcessing.
Context `{Libm} {M : Type} `{!ExternalModules M}.
Local Open Scope Qc_scope.

(** The file-scope variables of audio_processing.c, and the state of the
    modules it calls. *)
Record AudioState := mkAudioState {
  audioStats : AudioProcessingStats_t;
  tempBufferL : list float;
  tempBufferR : list float;
  bandBufferL : list (list float);     (* [NUM_BANDS][AUDIO_BUFFER_SIZE/2] *)
  bandBufferR : list (list float);
  processingStartTime : Z;             (* uint32_t *)
  processingEndTime : Z;
  bypassEnabled : Z;                   (* uint8_t *)
  modules : M
}.

Definition AudioProcessing_SetBypass (st : AudioState) (enable : Z) : AudioState :=
  mkAudioState (audioStats st) (tempBufferL st) (tempBufferR st)
    (bandBufferL st) (bandBufferR st)
    (processingStartTime st) (processingEndTime st)
    (if truthy enable then 1 else 0)%Z (modules st).

Definition AudioProcessing_GetBypass (st : AudioState) : Z := bypassEnabled st.

Definition ConvertToFloat (input : list Z) (outputL outputR : list float)
    (length : nat) : list float * list float :=
  let scale := lit 1 / float_of_int MAX_SAMPLE_VALUE in
  for_loop length
    (fun i '(outputL, outputR) =>
       (<[i := float_of_int (input !!! (2 * i)%nat) * scale]> outputL,
        <[i := float_of_int (input !!! (2 * i + 1)%nat) * scale]> outputR))
    (outputL, outputR).

(** The clipping condition of [ConvertToInt16]:
    [s > MAX_SAMPLE_VALUE || s < MIN_SAMPLE_VALUE]. *)
Definition sample_out_of_range (sample : float) : bool :=
  fgt sample (float_of_int MAX_SAMPLE_VALUE)
  || flt sample (float_of_int MIN_SAMPLE_VALUE).

(** The clipping check on one scaled sample, with the running count:
    [if (...) { clippingCount++; s = CLAMP (s, MIN, MAX); }] *)
Definition clip_check (sample : float) (clippingCount : Z) : float * Z :=
  if sample_out_of_range sample
  then (CLAMP sample (float_of_int MIN_SAMPLE_VALUE) (float_of_int MAX_SAMPLE_VALUE),
        to_uint32 (clippingCount + 1))
  else (sample, clippingCount).

(** The body of the loop of [ConvertToInt16]. *)
Definition ConvertToInt16_frame (inputL inputR : list float) (i : nat)
    (s : list Z * Z) : list Z * Z :=
  let '(output, clippingCount) := s in
  let leftSample := inputL !!! i * float_of_int MAX_SAMPLE_VALUE in
  let rightSample := inputR !!! i * float_of_int MAX_SAMPLE_VALUE in
  let '(leftSample, clippingCount) := clip_check leftSample clippingCount in
  let '(rightSample, clippingCount) := clip_check rightSample clippingCount in
  (<[(2 * i + 1)%nat := int_of_float rightSample]>
     (<[(2 * i)%nat := int_of_float leftSample]> output),
   clippingCount).

(** Returns the output buffer and the new [audioStats.clippingCount]. *)
Definition ConvertToInt16 (inputL inputR : list float) (output : list Z)
    (length : nat) (clippingCount0 : Z) : list Z * Z :=
  let '(output, clippingCount) :=
    for_loop length (ConvertToInt16_frame inputL inputR) (output, 0%Z) in
  (output, to_uint32 (clippingCount0 + clippingCount)).

(** The number of samples, among the first [n] frames, whose scaled value
    lies outside the range of [int16_t]. *)
Fixpoint clipped_samples (inputL inputR : list float) (n : nat) : Z :=
  match n with
  | O => 0%Z
  | S n' =>
      (clipped_samples inputL inputR n'
       + (if sample_out_of_range (inputL !!! n' * float_of_int MAX_SAMPLE_VALUE)
          then 1 else 0)
       + (if sample_out_of_range (inputR !!! n' * float_of_int MAX_SAMPLE_VALUE)
          then 1 else 0))%Z
  end.

Definition UpdatePeakLevels (bufferL bufferR : list float) (length : nat)
    (peakL peakR : float) : float * float :=
  let '(maxL, maxR) :=
    for_loop length
      (fun i '(maxL, maxR) =>
         let absL := fabsf (bufferL !!! i) in
         let absR := fabsf (bufferR !!! i) in
         (if fgt absL maxL then absL else maxL,
          if fgt absR maxR then absR else maxR))
      (lit 0, lit 0) in
  let decay := lit 0.8 in
  (if fgt maxL peakL then maxL else peakL * decay,
   if fgt maxR peakR then maxR else peakR * decay).

Definition MixBands (subL lowL midL highL subR lowR midR highR : list float)
    (outputL outputR : list float) (length : nat) : list float * list float :=
  for_loop length
    (fun i '(outputL, outputR) =>
       (<[i := subL !!! i + lowL !!! i + midL !!! i + highL !!! i]> outputL,
        <[i := subR !!! i + lowR !!! i + midR !!! i + highR !!! i]> outputR))
    (outputL, outputR).

Definition ApplyGain (buffer : list float) (length : nat) (gainDB : float)
    : list float :=
  let gain := DB_TO_LINEAR gainDB in
  for_loop length (fun i buffer => <[i := buffer !!! i * gain]> buffer) buffer.

(** [memset (buffer, 0, n * sizeof (float))] *)
Definition memset_zero (buffer : list float) (n : nat) : list float :=
  replicate n (lit 0) ++ drop n buffer.

(** [memcpy (dst, src, n * sizeof (int16_t))] *)
Definition memcpy (dst src : list Z) (n : nat) : list Z :=
  take n src ++ drop n dst.

(** The [switch (band)] statements. *)
Definition select_band {A : Type} (band : nat) (sub low mid high dflt : A) : A :=
  match band with
  | 0%nat => sub
  | 1%nat => low
  | 2%nat => mid
  | 3%nat => high
  | _ => dflt
  end.

(** Whether the mute flag of a band is set in the settings. *)
Definition band_muted (pSettings : SystemSettings_t) (band : nat) : bool :=
  truthy (select_band band
            (subMute (crossover pSettings)) (lowMute (crossover pSettings))
            (midMute (crossover pSettings)) (highMute (crossover pSettings)) 0%Z).

Definition set_stats (st : AudioState) (stats : AudioProcessingStats_t) : AudioState :=
  mkAudioState stats (tempBufferL st) (tempBufferR st)
    (bandBufferL st) (bandBufferR st)
    (processingStartTime st) (processingEndTime st) (bypassEnabled st) (modules st).

Definition set_bandBuffers (st : AudioState) (band : nat)
    (leftBuffer rightBuffer : list float) : AudioState :=
  mkAudioState (audioStats st) (tempBufferL st) (tempBufferR st)
    (<[band := leftBuffer]> (bandBufferL st))
    (<[band := rightBuffer]> (bandBufferR st))
    (processingStartTime st) (processingEndTime st) (bypassEnabled st) (modules st).

Definition set_modules (st : AudioState) (m : M) : AudioState :=
  mkAudioState (audioStats st) (tempBufferL st) (tempBufferR st)
    (bandBufferL st) (bandBufferR st)
    (processingStartTime st) (processingEndTime st) (bypassEnabled st) m.

(** The body of the loop over the bands in [AudioProcessing_Process]. *)
Definition AudioProcessing_band (pSettings : SystemSettings_t) (monoFrames : nat)
    (band : nat) (st : AudioState) : AudioState :=
  let leftBuffer := bandBufferL st !!! band in
  let rightBuffer := bandBufferR st !!! band in
  let xo := crossover pSettings in
  let bandGain :=
    select_band band (subGain xo) (lowGain xo) (midGain xo) (highGain xo) (lit 0) in
  let bandMute :=
    select_band band (subMute xo) (lowMute xo) (midMute xo) (highMute xo) 0%Z in
  if truthy bandMute then
    set_bandBuffers st band
      (memset_zero leftBuffer monoFrames) (memset_zero rightBuffer monoFrames)
  else
    let leftBuffer := ApplyGain leftBuffer monoFrames bandGain in
    let rightBuffer := ApplyGain rightBuffer monoFrames bandGain in
    let stats := audioStats st in
    let peaks :=
      UpdatePeakLevels leftBuffer rightBuffer monoFrames
        (fst (bandPeakLevel stats !!! band)) (snd (bandPeakLevel stats !!! band)) in
    let stats :=
      mkStats (inputPeakLevel stats) (outputPeakLevel stats)
        (<[band := peaks]> (bandPeakLevel stats))
        (compressionAmount stats) (limiterActivity stats)
        (clippingCount stats) (processingTime stats) in
    (* compressor *)
    let compSettings := compressor pSettings in
    let bandComp :=
      select_band band (comp_sub compSettings) (comp_low compSettings)
        (comp_mid compSettings) (comp_high compSettings) (comp_sub compSettings) in
    let '(m, leftBuffer, rightBuffer, amount) :=
      if truthy (bc_enabled bandComp) then
        ext_Compressor_Process (modules st) leftBuffer rightBuffer monoFrames
          (bc_threshold bandComp) (bc_ratio bandComp) (bc_attack bandComp)
          (bc_release bandComp) (bc_makeupGain bandComp) band
      else (modules st, leftBuffer, rightBuffer, lit 0) in
    let stats :=
      mkStats (inputPeakLevel stats) (outputPeakLevel stats) (bandPeakLevel stats)
        (<[band := amount]> (compressionAmount stats)) (limiterActivity stats)
        (clippingCount stats) (processingTime stats) in
    (* limiter *)
    let limSettings := limiter pSettings in
    let bandLim :=
      select_band band (lim_sub limSettings) (lim_low limSettings)
        (lim_mid limSettings) (lim_high limSettings) (lim_sub limSettings) in
    let '(m, leftBuffer, rightBuffer, reduction) :=
      if truthy (bl_enabled bandLim) then
        ext_Limiter_Process m leftBuffer rightBuffer monoFrames
          (bl_threshold bandLim) (bl_release bandLim) band
      else (m, leftBuffer, rightBuffer, lit 0) in
    let stats :=
      mkStats (inputPeakLevel stats) (outputPeakLevel stats) (bandPeakLevel stats)
        (compressionAmount stats) (<[band := reduction]> (limiterActivity stats))
        (clippingCount stats) (processingTime stats) in
    (* delay and phase *)
    let delaySettings := delay pSettings in
    let delayMs :=
      select_band band (subDelay delaySettings) (lowDelay delaySettings)
        (midDelay delaySettings) (highDelay delaySettings) (lit 0) in
    let phaseInv :=
      select_band band (subPhaseInvert delaySettings) (lowPhaseInvert delaySettings)
        (midPhaseInvert delaySettings) (highPhaseInvert delaySettings) 0%Z in
    let '(m, leftBuffer, rightBuffer) :=
      ext_Delay_Process m leftBuffer rightBuffer monoFrames delayMs phaseInv band in
    set_modules (set_stats (set_bandBuffers st band leftBuffer rightBuffer) stats) m.

Definition AudioProcessing_Process (st : AudioState)
    (pInputBuffer pOutputBuffer : list Z) (pSettings : SystemSettings_t)
    : AudioState * list Z :=
  let monoFrames := (AUDIO_BUFFER_SIZE / 2)%nat in
  let '(m, start) := HAL_GetTick (modules st) in
  if truthy (bypassEnabled st) then
    let output := memcpy pOutputBuffer pInputBuffer AUDIO_BUFFER_SIZE in
    let '(tempL, tempR) :=
      ConvertToFloat pInputBuffer (tempBufferL st) (tempBufferR st) monoFrames in
    let stats := audioStats st in
    let peaks :=
      UpdatePeakLevels tempL tempR monoFrames
        (fst (inputPeakLevel stats)) (snd (inputPeakLevel stats)) in
    let '(m, stop) := HAL_GetTick m in
    let stats :=
      mkStats peaks peaks (bandPeakLevel stats)
        (compressionAmount stats) (limiterActivity stats) (clippingCount stats)
        (to_uint32 (stop - start)) in
    (mkAudioState stats tempL tempR (bandBufferL st) (bandBufferR st)
       start stop (bypassEnabled st) m,
     output)
  else
    let '(tempL, tempR) :=
      ConvertToFloat pInputBuffer (tempBufferL st) (tempBufferR st) monoFrames in
    let stats := audioStats st in
    let peaks :=
      UpdatePeakLevels tempL tempR monoFrames
        (fst (inputPeakLevel stats)) (snd (inputPeakLevel stats)) in
    let stats :=
      mkStats peaks (outputPeakLevel stats) (bandPeakLevel stats)
        (compressionAmount stats) (limiterActivity stats) (clippingCount stats)
        (processingTime stats) in
    let '(m, (subL, subR, lowL, lowR, midL, midR, highL, highR)) :=
      ext_Crossover_Process m tempL tempR monoFrames
        (bandBufferL st !!! 0%nat) (bandBufferR st !!! 0%nat)
        (bandBufferL st !!! 1%nat) (bandBufferR st !!! 1%nat)
        (bandBufferL st !!! 2%nat) (bandBufferR st !!! 2%nat)
        (bandBufferL st !!! 3%nat) (bandBufferR st !!! 3%nat)
        (crossover pSettings) in
    let st := mkAudioState stats tempL tempR
                [subL; lowL; midL; highL] [subR; lowR; midR; highR]
                start (processingEndTime st) (bypassEnabled st) m in
    let st := for_loop NUM_BANDS (AudioProcessing_band pSettings monoFrames) st in
    let '(tempL, tempR) :=
      MixBands (bandBufferL st !!! 0%nat) (bandBufferL st !!! 1%nat)
               (bandBufferL st !!! 2%nat) (bandBufferL st !!! 3%nat)
               (bandBufferR st !!! 0%nat) (bandBufferR st !!! 1%nat)
               (bandBufferR st !!! 2%nat) (bandBufferR st !!! 3%nat)
               (tempBufferL st) (tempBufferR st) monoFrames in
    let stats := audioStats st in
    let peaks :=
      UpdatePeakLevels tempL tempR monoFrames
        (fst (outputPeakLevel stats)) (snd (outputPeakLevel stats)) in
    let '(output, clips) :=
      ConvertToInt16 tempL tempR pOutputBuffer monoFrames (clippingCount stats) in
    let '(m, stop) := HAL_GetTick (modules st) in
    let stats :=
      mkStats (inputPeakLevel stats) peaks (bandPeakLevel stats)
        (compressionAmount stats) (limiterActivity stats) clips
        (to_uint32 ((stop - start) * 1000)) in
    (mkAudioState stats tempL tempR (bandBufferL st) (bandBufferR st)
       (processingStartTime st) stop (bypassEnabled st) m,
     output).

End AudioProcessing.

(** The per-band meters of the statistics. *)
Definition band_meters (stats : AudioProcessingStats_t) (band : nat)
    : (float * float) * float * float :=
  (bandPeakLevel stats !!! band, compressionAmount stats !!! band,
   limiterActivity stats !!! band).

(** ** button_handler.h, button_handler.c *)

Definition to_uint8 (z : Z) : Z := z mod 256.

Module Button.

(** [ButtonState_t] and the values of its enumerators. *)
Inductive ButtonState_t :=
  | BUTTON_STATE_RELEASED
  | BUTTON_STATE_PRESSED
  | BUTTON_STATE_HELD
  | BUTTON_STATE_DOUBLE_CLICKED.

Definition ButtonState_value (s : ButtonState_t) : Z :=
  match s with
  | BUTTON_STATE_RELEASED => 0
  | BUTTON_STATE_PRESSED => 1
  | BUTTON_STATE_HELD => 2
  | BUTTON_STATE_DOUBLE_CLICKED => 3
  end.

(** [ButtonID_t]: a button is named by the value of its enumerator, which
    is its index in [buttons]. *)
Definition BUTTON_MENU : nat := 0.
Definition BUTTON_BACK : nat := 1.
Definition BUTTON_ENCODER : nat := 2.
Definition BUTTON_PRESET_1 : nat := 3.
Definition BUTTON_PRESET_2 : nat := 4.
Definition BUTTON_PRESET_3 : nat := 5.
Definition MAX_BUTTONS : nat := 6.

Definition BUTTON_DEBOUNCE_TIME : Z := 20.
Definition BUTTON_HOLD_TIME : Z := 1000.
Definition BUTTON_DOUBLE_CLICK_TIME : Z := 300.
Definition BUTTON_QUEUE_SIZE : Z := 8.

Definition GPIO_PIN_RESET : Z := 0.
Definition GPIO_PIN_SET : Z := 1.

Record ButtonEvent_t := mkButtonEvent {
  button : nat;
  state : ButtonState_t;
  holdTime : Z
}.

#[global] Instance ButtonEvent_inhabited : Inhabited ButtonEvent_t :=
  populate (mkButtonEvent 0 BUTTON_STATE_RELEASED 0).

(** [ButtonConfig_t].  The [port] and [pin] fields are written once, by
    [ButtonHandler_Init], and only select the input that [HAL_GPIO_ReadPin]
    reads; the embedding indexes the pin reading by the button instead. *)
Record ButtonConfig_t := mkButtonConfig {
  activeState : Z;
  debounceCounter : Z;
  stableState : Z;
  previousState : Z;
  pressTime : Z;
  releaseTime : Z;
  clickCount : Z
}.

#[global] Instance ButtonConfig_inhabited : Inhabited ButtonConfig_t :=
  populate (mkButtonConfig 0 0 0 0 0 0 0).

Record ButtonEventQueue_t := mkButtonEventQueue {
  events : list ButtonEvent_t;
  head : Z;
  tail : Z;
  count : Z
}.

(** The file-scope variables [buttons], [eventQueue] and [buttonTick]. *)
Record ButtonHandler := mkButtonHandler {
  buttons : list ButtonConfig_t;
  eventQueue : ButtonEventQueue_t;
  buttonTick : Z
}.

Definition IS_QUEUE_EMPTY (q : ButtonEventQueue_t) : bool := count q =? 0.
Definition IS_QUEUE_FULL (q : ButtonEventQueue_t) : bool := BUTTON_QUEUE_SIZE <=? count q.

Definition set_buttons (st : ButtonHandler) (b : list ButtonConfig_t) : ButtonHandler :=
  mkButtonHandler b (eventQueue st) (buttonTick st).
Definition set_eventQueue (st : ButtonHandler) (q : ButtonEventQueue_t) : ButtonHandler :=
  mkButtonHandler (buttons st) q (buttonTick st).
Definition set_buttonTick (st : ButtonHandler) (t : Z) : ButtonHandler :=
  mkButtonHandler (buttons st) (eventQueue st) t.

(** [buttons[i] = f (buttons[i])] *)
Definition update_button (st : ButtonHandler) (i : nat)
    (f : ButtonConfig_t -> ButtonConfig_t) : ButtonHandler :=
  set_buttons st (<[i := f (buttons st !!! i)]> (buttons st)).

Definition set_debounceCounter (v : Z) (b : ButtonConfig_t) : ButtonConfig_t :=
  mkButtonConfig (activeState b) v (stableState b) (previousState b)
    (pressTime b) (releaseTime b) (clickCount b).
Definition set_stableState (v : Z) (b : ButtonConfig_t) : ButtonConfig_t :=
  mkButtonConfig (activeState b) (debounceCounter b) v (previousState b)
    (pressTime b) (releaseTime b) (clickCount b).
Definition set_previousState (v : Z) (b : ButtonConfig_t) : ButtonConfig_t :=
  mkButtonConfig (activeState b) (debounceCounter b) (stableState b) v
    (pressTime b) (releaseTime b) (clickCount b).
Definition set_pressTime (v : Z) (b : ButtonConfig_t) : ButtonConfig_t :=
  mkButtonConfig (activeState b) (debounceCounter b) (stableState b) (previousState b)
    v (releaseTime b) (clickCount b).
Definition set_releaseTime (v : Z) (b : ButtonConfig_t) : ButtonConfig_t :=
  mkButtonConfig (activeState b) (debounceCounter b) (stableState b) (previousState b)
    (pressTime b) v (clickCount b).
Definition set_clickCount (v : Z) (b : ButtonConfig_t) : ButtonConfig_t :=
  mkButtonConfig (activeState b) (debounceCounter b) (stableState b) (previousState b)
    (pressTime b) (releaseTime b) v.
Definition set_activeState (v : Z) (b : ButtonConfig_t) : ButtonConfig_t :=
  mkButtonConfig v (debounceCounter b) (stableState b) (previousState b)
    (pressTime b) (releaseTime b) (clickCount b).

(** [PushEvent]: a full queue gives up its oldest event.  ([events[head]]
    with [head] outside the array would be undefined in C; [head] is only
    ever assigned a remainder modulo the queue size.) *)
Definition PushEvent (q : ButtonEventQueue_t) (button : nat) (state : ButtonState_t)
    (holdTime : Z) : ButtonEventQueue_t :=
  let q :=
    if IS_QUEUE_FULL q
    then mkButtonEventQueue (events q) (head q)
           (to_uint8 (Z.rem (tail q + 1) BUTTON_QUEUE_SIZE)) (to_uint8 (count q - 1))
    else q in
  let events' := <[Z.to_nat (head q) := mkButtonEvent button state holdTime]> (events q) in
  mkButtonEventQueue events' (to_uint8 (Z.rem (head q + 1) BUTTON_QUEUE_SIZE))
    (tail q) (to_uint8 (count q + 1)).

Definition push (st : ButtonHandler) (button : nat) (state : ButtonState_t)
    (holdTime : Z) : ButtonHandler :=
  set_eventQueue st (PushEvent (eventQueue st) button state holdTime).

(** [ReadButtonPin], with the reading of [HAL_GPIO_ReadPin] for each button
    given by [pins]. *)
Definition ReadButtonPin (pins : nat -> Z) (button : nat) : Z :=
  if (MAX_BUTTONS <=? button)%nat then GPIO_PIN_RESET else pins button.

Definition ProcessButtonState (st : ButtonHandler) (button : nat) : ButtonHandler :=
  if stableState (buttons st !!! button) =? 1 then
    let st := update_button st button (set_pressTime (buttonTick st)) in
    let st := push st button BUTTON_STATE_PRESSED 0 in
    if (clickCount (buttons st !!! button) =? 1)
       && (to_uint32 (buttonTick st - releaseTime (buttons st !!! button))
           <=? BUTTON_DOUBLE_CLICK_TIME)
    then
      let st := update_button st button (set_clickCount 0) in
      push st button BUTTON_STATE_DOUBLE_CLICKED 0
    else st
  else
    let holdTime := to_uint32 (buttonTick st - pressTime (buttons st !!! button)) in
    let st := update_button st button (set_releaseTime (buttonTick st)) in
    if negb (previousState (buttons st !!! button) =? ButtonState_value BUTTON_STATE_HELD)
    then
      let st := push st button BUTTON_STATE_RELEASED holdTime in
      update_button st button (set_clickCount 1)
    else
      update_button st button (set_clickCount 0).

(** The body of the loop of [ButtonHandler_Sample] for button [i]. *)
Definition ButtonHandler_Sample_button (pins : nat -> Z) (i : nat)
    (st : ButtonHandler) : ButtonHandler :=
  let pinState := ReadButtonPin pins i in
  let currentState := if pinState =? activeState (buttons st !!! i) then 1 else 0 in
  let st :=
    if negb (currentState =? stableState (buttons st !!! i)) then
      let st := update_button st i
                  (fun b => set_debounceCounter (to_uint32 (debounceCounter b + 1)) b) in
      if BUTTON_DEBOUNCE_TIME <=? debounceCounter (buttons st !!! i) then
        let st := update_button st i (fun b => set_previousState (stableState b) b) in
        let st := update_button st i (set_stableState currentState) in
        let st := update_button st i (set_debounceCounter 0) in
        ProcessButtonState st i
      else st
    else update_button st i (set_debounceCounter 0) in
  let st :=
    if truthy (stableState (buttons st !!! i))
       && (BUTTON_HOLD_TIME <=? to_uint32 (buttonTick st - pressTime (buttons st !!! i)))
    then
      if negb (previousState (buttons st !!! i) =? ButtonState_value BUTTON_STATE_HELD)
      then
        let st := update_button st i
                    (set_previousState (ButtonState_value BUTTON_STATE_HELD)) in
        push st i BUTTON_STATE_HELD
          (to_uint32 (buttonTick st - pressTime (buttons st !!! i)))
      else st
    else st in
  if (clickCount (buttons st !!! i) =? 1)
     && (BUTTON_DOUBLE_CLICK_TIME
         <? to_uint32 (buttonTick st - releaseTime (buttons st !!! i)))
  then update_button st i (set_clickCount 0)
  else st.

Definition ButtonHandler_Sample (pins : nat -> Z) (st : ButtonHandler) : ButtonHandler :=
  let st := set_buttonTick st (to_uint32 (buttonTick st + 1)) in
  for_loop MAX_BUTTONS (ButtonHandler_Sample_button pins) st.

(** The variables as the C start-up code leaves them. *)
Definition ButtonHandler_static : ButtonHandler :=
  mkButtonHandler (replicate MAX_BUTTONS inhabitant)
    (mkButtonEventQueue (replicate (Z.to_nat BUTTON_QUEUE_SIZE) inhabitant) 0 0 0) 0.

Definition ButtonHandler_Init (pins : nat -> Z) (st : ButtonHandler) : ButtonHandler :=
  let st := update_button st BUTTON_MENU (set_activeState GPIO_PIN_RESET) in
  let st := update_button st BUTTON_BACK (set_activeState GPIO_PIN_RESET) in
  let st := update_button st BUTTON_ENCODER (set_activeState GPIO_PIN_RESET) in
  let st := update_button st BUTTON_PRESET_1 (set_activeState GPIO_PIN_RESET) in
  let st := update_button st BUTTON_PRESET_2 (set_activeState GPIO_PIN_RESET) in
  let st := update_button st BUTTON_PRESET_3 (set_activeState GPIO_PIN_RESET) in
  let st :=
    for_loop MAX_BUTTONS
      (fun i st =>
         let st := update_button st i (set_debounceCounter 0) in
         let st := update_button st i
                     (fun b => set_stableState
                                 (if ReadButtonPin pins i =? activeState b then 1 else 0) b) in
         let st := update_button st i (fun b => set_previousState (stableState b) b) in
         let st := update_button st i (set_pressTime 0) in
         let st := update_button st i (set_releaseTime 0) in
         update_button st i (set_clickCount 0)) st in
  let q := eventQueue st in
  let st := set_eventQueue st (mkButtonEventQueue (events q) 0 0 0) in
  set_buttonTick st 0.

(** [ButtonHandler_GetEvent]: the return value, the variables, and the
    caller's [*event]. *)
Definition ButtonHandler_GetEvent (st : ButtonHandler) (event : ButtonEvent_t)
    : Z * ButtonHandler * ButtonEvent_t :=
  let q := eventQueue st in
  if IS_QUEUE_EMPTY q then (0, st, event)
  else
    let event := events q !!! Z.to_nat (tail q) in
    let q := mkButtonEventQueue (events q) (head q)
               (to_uint8 (Z.rem (tail q + 1) BUTTON_QUEUE_SIZE)) (to_uint8 (count q - 1)) in
    (1, set_eventQueue st q, event).

Definition ButtonHandler_IsPressed (st : ButtonHandler) (button : nat) : Z :=
  if (MAX_BUTTONS <=? button)%nat then 0 else stableState (buttons st !!! button).

Definition ButtonHandler_IsHeld (st : ButtonHandler) (button : nat) : Z :=
  if (MAX_BUTTONS <=? button)%nat then 0
  else if truthy (stableState (buttons st !!! button))
          && (BUTTON_HOLD_TIME
              <=? to_uint32 (buttonTick st - pressTime (buttons st !!! button)))
  then 1 else 0.

Definition ButtonHandler_ClearEvents (st : ButtonHandler) : ButtonHandler :=
  set_eventQueue st (mkButtonEventQueue (events (eventQueue st)) 0 0 0).

(** The events waiting in the queue, oldest first. *)
Definition pending (q : ButtonEventQueue_t) : list ButtonEvent_t :=
  map (fun k => events q !!! Z.to_nat (Z.rem (tail q + Z.of_nat k) BUTTON_QUEUE_SIZE))
      (seq 0 (Z.to_nat (count q))).

(** The representation invariant of the queue. *)
Definition queue_wf (q : ButtonEventQueue_t) : Prop :=
  List.length (events q) = Z.to_nat BUTTON_QUEUE_SIZE /\
  0 <= tail q < BUTTON_QUEUE_SIZE /\
  0 <= count q <= BUTTON_QUEUE_SIZE /\
  head q = Z.rem (tail q + count q) BUTTON_QUEUE_SIZE.

(** The handler after the samples [samples], one pin reading per call of
    [ButtonHandler_Sample], earliest first. *)
Definition sampled (samples : list (nat -> Z)) (st : ButtonHandler) : ButtonHandler :=
  fold_left (fun st pins => ButtonHandler_Sample pins st) samples st.

(** The level of button [i] in a pin reading, as the handler sees it. *)
Definition level (pins : nat -> Z) (st : ButtonHandler) (i : nat) : Z :=
  if ReadButtonPin pins i =? activeState (buttons st !!! i) then 1 else 0.

End Button.

(** ** preset_manager.h, preset_manager.c *)

Module Preset.

Definition PRESET_VALID_MARKER : Z := 0xABCD1234.
Definition STRING_MAX_LENGTH : nat := 15.
Definition PRESET_STORAGE_BASE_ADDR : Z := 0x0800C000.
Definition PRESET_STORAGE_SECTOR_SIZE : Z := 0x4000.
Definition PRESET_STORAGE_MAX_SIZE : Z := PRESET_STORAGE_SECTOR_SIZE * 2.

Definition MAX_USER_PRESETS : nat := 10.
Definition USER_PRESET_START_ID : Z := 5.
Definition TOTAL_PRESET_COUNT : Z := USER_PRESET_START_ID + Z.of_nat MAX_USER_PRESETS.
Definition PRESET_ID_INVALID : Z := 0xFF.
Definition PRESET_ID_CURRENT : Z := 0xFE.

(** [PresetMetadata_t]; [name] is the 16 characters of the array, as
    character codes. *)
Record PresetMetadata_t := mkPresetMetadata {
  presetId : Z;
  name : list Z;
  checksum : Z;
  timestamp : Z
}.

#[global] Instance PresetMetadata_inhabited : Inhabited PresetMetadata_t :=
  populate (mkPresetMetadata 0 [] 0 0).

(** [Preset_t]; [settings] is the object representation of the
    [PresetSettings_t], the bytes that [CalculateChecksum] reads through its
    [uint8_t*]. *)
Record Preset_t := mkPreset {
  metadata : PresetMetadata_t;
  settings : list Z
}.

(** The file-scope variables. *)
Record PresetManager := mkPresetManager {
  currentPresetId : Z;
  presetMetadata : list PresetMetadata_t;
  presetInfoInitialized : Z
}.

(** [CalculateChecksum]; [sizeof(PresetSettings_t)] is the number of bytes
    of [settings]. *)
Definition CalculateChecksum (settings : list Z) : Z :=
  for_loop (List.length settings)
    (fun i checksum => to_uint32 (checksum + settings !!! i)) PRESET_VALID_MARKER.

(** [GetPresetAddress], for a [Preset_t] of [sizeof_Preset] bytes. *)
Definition GetPresetAddress (sizeof_Preset : Z) (presetId : Z) : Z :=
  if (presetId <? USER_PRESET_START_ID) || (TOTAL_PRESET_COUNT <=? presetId) then 0
  else
    let userPresetIndex := to_uint8 (presetId - USER_PRESET_START_ID) in
    let offset := to_uint32 (userPresetIndex * sizeof_Preset) in
    if PRESET_STORAGE_MAX_SIZE <=? offset then 0
    else to_uint32 (PRESET_STORAGE_BASE_ADDR + offset).

(** The characters [SanitizePresetName] lets through. *)
Definition name_char_allowed (c : Z) : bool :=
  ((65 <=? c) && (c <=? 90)) || ((97 <=? c) && (c <=? 122))
  || ((48 <=? c) && (c <=? 57)) || (c =? 32) || (c =? 95) || (c =? 45).

(** The loop of [SanitizePresetName] from index [i] on, with [n] iterations
    left before [STRING_MAX_LENGTH].  Characters are their codes: ['A'] is
    65, ['Z'] 90, ['a'] 97, ['z'] 122, ['0'] 48, ['9'] 57, space 32, ['_'] 95
    and ['-'] 45. *)
Fixpoint SanitizePresetName_loop (n i : nat) (name : list Z) : list Z :=
  match n with
  | O => name
  | S n' =>
      if name !!! i =? 0 then name
      else
        let name := if negb (name_char_allowed (name !!! i))
                    then <[i := 95]> name else name in
        SanitizePresetName_loop n' (S i) name
  end.

(** [strcpy (dst, src)] for a string [src] given by its characters; the
    terminating NUL is written too.  (Writing past the end of [dst] is
    undefined in C; [list_inserts] stops there.) *)
Definition strcpy (dst src : list Z) : list Z := list_inserts 0 (src ++ [0]) dst.

(** The characters of "User_Preset". *)
Definition User_Preset : list Z := [85; 115; 101; 114; 95; 80; 114; 101; 115; 101; 116].

Definition SanitizePresetName (name : list Z) : list Z :=
  let name := SanitizePresetName_loop STRING_MAX_LENGTH 0 name in
  if name !!! 0%nat =? 0 then strcpy name User_Preset else name.

Definition IsPresetValid (preset : Preset_t) : Z :=
  if (presetId (metadata preset) <? USER_PRESET_START_ID)
     || (TOTAL_PRESET_COUNT <=? presetId (metadata preset)) then 0
  else if negb (CalculateChecksum (settings preset) =? checksum (metadata preset)) then 0
  else 1.

Definition PresetManager_GetPresetCount (pm : PresetManager) : Z :=
  for_loop MAX_USER_PRESETS
    (fun i count =>
       if negb (presetId (presetMetadata pm !!! i) =? PRESET_ID_INVALID)
       then to_uint8 (count + 1) else count)
    USER_PRESET_START_ID.

(** The loop of [PresetManager_GetNextEmptySlot] from index [i] on, with [n]
    iterations left. *)
Fixpoint GetNextEmptySlot_loop (pm : PresetManager) (n i : nat) : Z :=
  match n with
  | O => PRESET_ID_INVALID
  | S n' =>
      if presetId (presetMetadata pm !!! i) =? PRESET_ID_INVALID
      then to_uint8 (USER_PRESET_START_ID + Z.of_nat i)
      else GetNextEmptySlot_loop pm n' (S i)
  end.

Definition PresetManager_GetNextEmptySlot (pm : PresetManager) : Z :=
  GetNextEmptySlot_loop pm MAX_USER_PRESETS 0.

Definition PresetManager_SetCurrentPreset (pm : PresetManager) (presetId : Z)
    : PresetManager :=
  if presetId <? TOTAL_PRESET_COUNT
  then mkPresetManager presetId (presetMetadata pm) (presetInfoInitialized pm)
  else pm.

Definition PresetManager_GetCurrentPreset (pm : PresetManager) : Z := currentPresetId pm.

(** The string held by a character array: the characters before the first
    NUL. *)
Fixpoint c_str (buf : list Z) : list Z :=
  match buf with
  | [] => []
  | c :: rest => if c =? 0 then [] else c :: c_str rest
  end.

(** What the loop of [SanitizePresetName] makes of one character. *)
Definition sanitized_char (c : Z) : Z := if name_char_allowed c then c else 95.

(** The loop of [SanitizePresetName] on the characters it has not reached
    yet. *)
Fixpoint sanitized_rest (n : nat) (l : list Z) : list Z :=
  match n, l with
  | S n', c :: rest => if c =? 0 then l else sanitized_char c :: sanitized_rest n' rest
  | _, _ => l
  end.

(** The metadata slots in use. *)
Definition used_slots (pm : PresetManager) : list PresetMetadata_t :=
  List.filter (fun m => negb (presetId m =? PRESET_ID_INVALID)) (presetMetadata pm).

End Preset.

(** ** Sample inputs

    Concrete values on which the statements below are instantiated. *)



(** A limiter at 48 kHz, as [Dynamics_LimiterInit] leaves it. *)
Definition sample_limiter : Limiter_t :=
  @Dynamics_LimiterInit libm_rational
    (mkLimiter (mkLimiterParams (lit 0) (lit 0) 0 (lit 0))
       (mkDynamicsState (lit 0) (lit 0) (lit 0)) (lit 0) (lit 0))
    (lit 48000).

(** Stand-ins for the modules outside the sources, used only to run
    [AudioProcessing_Process] on concrete inputs: the state is the tick
    counter, and every stage hands its buffers back unchanged. *)
Definition passthrough_modules : ExternalModules Z := {|
  HAL_GetTick m := (m + 1, m);
  ext_Crossover_Process m _ _ _ subL subR lowL lowR midL midR highL highR _ :=
    (m, (subL, subR, lowL, lowR, midL, midR, highL, highR));
  ext_Compressor_Process m l r _ _ _ _ _ _ _ := (m, l, r, lit 0);
  ext_Limiter_Process m l r _ _ _ _ := (m, l, r, lit 0);
  ext_Delay_Process m l r _ _ _ _ := (m, l, r)
|}.

(** The variables of audio_processing.c after [AudioProcessing_Init], with
    the given bypass flag and band buffers. *)
Definition sample_audio_state (bypass : Z) (bandsL bandsR : list (list float))
    : @AudioState Z :=
  mkAudioState
    (mkStats (lit 0, lit 0) (lit 0, lit 0) (replicate 4 (lit 0, lit 0))
       (replicate 4 (lit 0)) (replicate 4 (lit 0)) 0 0)
    (replicate 1024 (lit 0)) (replicate 1024 (lit 0))
    bandsL bandsR 0 0 bypass 0.

(** A block of 128 stereo frames at full scale, [+32767] left and [-32767]
    right. *)
Definition full_scale_block : list Z :=
  concat (replicate 128 [32767; -32767]).

Definition silent_settings : SystemSettings_t :=
  let bc := mkBandCompressorSettings (lit (-20)) (lit 4) (lit 5) (lit 100) (lit 0) 1 in
  let bl := mkBandLimiterSettings (lit (-3)) (lit 50) 1 in
  mkSystemSettings
    (mkCrossoverSettings (lit 80) (lit 1000) (lit 8000)
       (lit 6) (lit 0) (lit 0) (lit 0) 1 4 0 1 0 0)
    (mkCompressorSettings bc bc bc bc)
    (mkLimiterSettings bl bl bl bl)
    (mkDelaySettings (lit 0) (lit 2) (lit 0) (lit 0) 0 1 0 0).

(** A request with the low crossover point below 20 Hz and the high one
    above the Nyquist frequency of 24 kHz. *)
Definition out_of_range_settings : CrossoverSettings_t :=
  mkCrossoverSettings (lit 5) (lit 1000) (lit 30000)
    (lit 0) (lit 0) (lit 0) (lit 0) 1 4 0 0 0 0.

(** The crossover of crossover.c after start-up. *)
Definition sample_crossover : CrossoverState :=
  @Crossover_Init libm_rational Crossover_static_init.

(** The crossover with the settings of [silent_settings]: the low band is
    muted and the sub band has 6 dB of gain. *)
Definition muted_crossover : CrossoverState :=
  @Crossover_SetSettings libm_rational sample_crossover (crossover silent_settings).

(** Output pointers for a block of two samples; no combined output. *)
Definition sample_outputs : CrossoverOutputs :=
  mkCrossoverOutputs (Some [lit 9; lit 9]) (Some [lit 9; lit 9])
    (Some [lit 9; lit 9]) (Some [lit 9; lit 9]) None.

(** The pipeline state with bypass off and band buffers holding 0.25. *)
Definition sample_pipeline : @AudioState Z :=
  sample_audio_state 0 (replicate 4 (replicate 128 (lit 0.25)))
    (replicate 4 (replicate 128 (lit 0.25))).


(** A request for first-order filters, the low band muted. *)
Definition first_order_settings : CrossoverSettings_t :=
  with_filter (crossover silent_settings) 0 1.

(** A compressor and a limiter that are switched off. *)
Definition disabled_compressor : Compressor_t :=
  mkCompressor (mkCompressorParams (lit (-20)) (lit 4) (lit 5) (lit 100) (lit 6) 0 0 (lit 3))
    (mkDynamicsState (lit (-30)) (lit 0.5) (lit 0.25)) (lit 0.5) (lit 0.5) (lit 48000).

Definition disabled_limiter : Limiter_t :=
  mkLimiter (mkLimiterParams (lit (-3)) (lit 50) 0 (lit 0))
    (mkDynamicsState (lit (-30)) (lit 0.5) (lit 0.25)) (lit 0.5) (lit 48000).


(** The settings of [silent_settings] with every compressor and limiter
    switched off. *)
Definition dynamics_off_settings : SystemSettings_t :=
  let bc := mkBandCompressorSettings (lit (-20)) (lit 4) (lit 5) (lit 100) (lit 0) 0 in
  let bl := mkBandLimiterSettings (lit (-3)) (lit 50) 0 in
  mkSystemSettings (crossover silent_settings)
    (mkCompressorSettings bc bc bc bc) (mkLimiterSettings bl bl bl bl)
    (delay silent_settings).

(** Stand-ins for the modules that report 3 dB of compression and of
    limiting whenever they run. *)
Definition busy_modules : ExternalModules Z := {|
  HAL_GetTick m := (m + 1, m);
  ext_Crossover_Process m _ _ _ subL subR lowL lowR midL midR highL highR _ :=
    (m, (subL, subR, lowL, lowR, midL, midR, highL, highR));
  ext_Compressor_Process m l r _ _ _ _ _ _ _ := (m, l, r, lit 3);
  ext_Limiter_Process m l r _ _ _ _ := (m, l, r, lit 3);
  ext_Delay_Process m l r _ _ _ _ := (m, l, r)
|}.

(** The pipeline state with meters that read 0.5 everywhere. *)
Definition metered_pipeline : @AudioState Z :=
  mkAudioState
    (mkStats (lit 0, lit 0) (lit 0, lit 0) (replicate 4 (lit 0.5, lit 0.5))
       (replicate 4 (lit 0.5)) (replicate 4 (lit 0.5)) 0 0)
    (replicate 1024 (lit 0)) (replicate 1024 (lit 0))
    (replicate 4 (replicate 128 (lit 0.25))) (replicate 4 (replicate 128 (lit 0.25)))
    0 0 0 0.

(** The handler after [ButtonHandler_Init] with every pin high, that is,
    every button released. *)
Definition released_buttons : Button.ButtonHandler :=
  Button.ButtonHandler_Init (fun _ => Button.GPIO_PIN_SET) Button.ButtonHandler_static.

(** The menu button debounced as pressed and already reported as held,
    nineteen samples into a release. *)
Definition held_button : Button.ButtonHandler :=
  Button.mkButtonHandler
    (Button.mkButtonConfig 0 19 1 2 100 0 0 :: replicate 5 inhabitant)
    (Button.mkButtonEventQueue (replicate 8 inhabitant) 0 0 0) 1500.

(** A stored preset of three settings bytes with its checksum. *)
Definition stored_preset : Preset.Preset_t :=
  Preset.mkPreset
    (Preset.mkPresetMetadata 5 [] (Preset.CalculateChecksum [1; 2; 3]) 0) [1; 2; 3].

(** The name buffer holding "Bass+Boost!". *)
Definition raw_name : list Z :=
  [66; 97; 115; 115; 43; 66; 111; 111; 115; 116; 33; 0; 0; 0; 0; 0].

(** Two user presets stored, eight slots free. *)
Definition two_presets : Preset.PresetManager :=
  Preset.mkPresetManager 0
    (Preset.mkPresetMetadata 5 [] 0 0 :: Preset.mkPresetMetadata 6 [] 0 0
     :: replicate 8 (Preset.mkPresetMetadata Preset.PRESET_ID_INVALID [] 0 0)) 1.

(** * Properties *)

(** ** Loops *)

Lemma for_loop_inv {St : Type} (P : nat -> St -> Prop) (n : nat)
    (body : nat -> St -> St) (s : St) :
  P 0%nat s ->
  (forall i st, (i < n)%nat -> P i st -> P (S i) (body i st)) ->
  P n (for_loop n body s).
Proof.
  intros H0 Hstep. induction n as [|n IH]; simpl; [exact H0|].
  apply Hstep; [lia|]. apply IH. intros i st Hi. apply Hstep. lia.
Qed.

(** A loop that threads a state through a buffer, writing one output
    element per input element: the shape of the block functions. *)
Section StreamLoop.
Context {St A B : Type} `{!Inhabited A, !Inhabited B}.
Variables (step : St -> A -> St * B) (post : B -> B).
Variables (input : list A) (c0 : St) (out0 : list B).

Local Abbreviation body := (stream_body step post input).



End StreamLoop.

(** ** Arithmetic of the numeric model *)

Lemma fgt_true (a b : float) : fgt a b = true <-> (b < a)%Qc.
Proof. unfold fgt. apply bool_decide_eq_true. Qed.

Lemma fgt_false (a b : float) : fgt a b = false <-> (a <= b)%Qc.
Proof.
  unfold fgt. rewrite bool_decide_eq_false. split.
  - apply Qcnot_lt_le.
  - apply Qcle_not_lt.
Qed.

Lemma flt_true (a b : float) : flt a b = true <-> (a < b)%Qc.
Proof. unfold flt. apply bool_decide_eq_true. Qed.

Lemma flt_false (a b : float) : flt a b = false <-> (b <= a)%Qc.
Proof.
  unfold flt. rewrite bool_decide_eq_false. split.
  - apply Qcnot_lt_le.
  - apply Qcle_not_lt.
Qed.

Lemma CLAMP_bounds (x low high : float) :
  (low <= high)%Qc -> (low <= CLAMP x low high <= high)%Qc.
Proof.
  intros Hlh. unfold CLAMP.
  destruct (fgt x high) eqn:Hhi.
  - split; [exact Hlh | apply Qcle_refl].
  - destruct (flt x low) eqn:Hlo.
    + split; [apply Qcle_refl | exact Hlh].
    + split; [now apply flt_false | now apply fgt_false].
Qed.

Lemma CLAMP_in_range (x low high : float) :
  (low <= x <= high)%Qc -> CLAMP x low high = x.
Proof.
  intros [Hl Hh]. unfold CLAMP.
  apply fgt_false in Hh. apply flt_false in Hl. now rewrite Hh, Hl.
Qed.

(** On non-negative values the cast to an integer is the floor. *)
Lemma int_of_float_floor (x : float) :
  (0 <= x)%Qc -> int_of_float x = Qfloor x.
Proof.
  destruct x as [[n d] Hc]. unfold Qcle, Qle, int_of_float, Qfloor. simpl.
  intros Hn. apply Z.quot_div_nonneg; lia.
Qed.

Lemma float_of_int_le_l (z : Z) (x : float) :
  (float_of_int z <= x)%Qc <-> z * Z.pos (Qden (this x)) <= Qnum (this x).
Proof.
  unfold Qcle, float_of_int, Q2Qc. cbn [this]. rewrite Qred_correct.
  unfold Qle, inject_Z. cbn [Qnum Qden]. lia.
Qed.

Lemma float_of_int_le_r (z : Z) (x : float) :
  (x <= float_of_int z)%Qc <-> Qnum (this x) <= z * Z.pos (Qden (this x)).
Proof.
  unfold Qcle, float_of_int, Q2Qc. cbn [this]. rewrite Qred_correct.
  unfold Qle, inject_Z. cbn [Qnum Qden]. lia.
Qed.

(** Truncation keeps a value inside an integer interval around zero. *)
Lemma int_of_float_range (x : float) (lo hi : Z) :
  lo <= 0 <= hi ->
  (float_of_int lo <= x <= float_of_int hi)%Qc ->
  lo <= int_of_float x <= hi.
Proof.
  intros Hz [Hlo Hhi].
  apply float_of_int_le_l in Hlo. apply float_of_int_le_r in Hhi.
  unfold int_of_float.
  set (n := Qnum (this x)) in *. set (d := Z.pos (Qden (this x))) in *.
  assert (Hd : 0 < d) by (unfold d; lia).
  destruct (Z.le_gt_cases 0 n) as [Hn|Hn].
  - rewrite Z.quot_div_nonneg by lia. split.
    + pose proof (Z.div_pos n d Hn Hd). lia.
    + apply Z.div_le_upper_bound; lia.
  - replace n with (- (- n)) by lia. rewrite Z.quot_opp_l by lia.
    rewrite Z.quot_div_nonneg by lia. split.
    + assert ((- n) / d <= - lo) by (apply Z.div_le_upper_bound; lia). lia.
    + pose proof (Z.div_pos (- n) d ltac:(lia) Hd). lia.
Qed.

Lemma to_int16_opp (x : Z) : -32768 < x <= 32767 -> to_int16 (- x) = - x.
Proof. intros Hx. unfold to_int16. rewrite Z.mod_small; lia. Qed.

(** ** Delay line *)

Lemma wrap_readPos_spec (fuel : nat) (r : Z) :
  - r <= Z.of_nat fuel ->
  0 <= wrap_readPos fuel r /\
  wrap_readPos fuel r mod DELAY_BUFFER_SIZE = r mod DELAY_BUFFER_SIZE /\
  (r < 0 -> wrap_readPos fuel r < DELAY_BUFFER_SIZE).
Proof.
  revert r. induction fuel as [|fuel IH]; intros r Hr; simpl.
  - repeat split; lia.
  - destruct (Z.ltb_spec r 0) as [Hneg|Hpos].
    + destruct (IH (r + DELAY_BUFFER_SIZE)) as (H0 & Hm & Hlt);
        [unfold DELAY_BUFFER_SIZE; lia|].
      split; [exact H0|]. split.
      * rewrite Hm. unfold DELAY_BUFFER_SIZE.
        replace (r + 4800) with (r + 1 * 4800) by lia. apply Z_mod_plus_full.
      * intros _. destruct (Z.ltb_spec (r + DELAY_BUFFER_SIZE) 0) as [Hn|Hp].
        -- now apply Hlt.
        -- destruct fuel; simpl.
           ++ unfold DELAY_BUFFER_SIZE; lia.
           ++ destruct (Z.ltb_spec (r + DELAY_BUFFER_SIZE) 0); [lia|].
              unfold DELAY_BUFFER_SIZE; lia.
    + repeat split; lia.
Qed.

Lemma updated_readIndex_formula (w : Z) (samples : float) :
  (0 <= samples)%Qc ->
  updated_readIndex w samples
  = (w - Qfloor samples + DELAY_BUFFER_SIZE) mod DELAY_BUFFER_SIZE.
Proof.
  intros Hs. unfold updated_readIndex. cbv zeta.
  rewrite (int_of_float_floor _ Hs).
  set (r := w - Qfloor samples).
  destruct (wrap_readPos_spec (Z.to_nat (- r)) r) as (H0 & Hm & _); [lia|].
  rewrite Z.rem_mod_nonneg by (unfold DELAY_BUFFER_SIZE; lia).
  rewrite Hm. unfold to_uint16.
  assert (Hb : 0 <= r mod DELAY_BUFFER_SIZE < DELAY_BUFFER_SIZE)
    by (apply Z.mod_pos_bound; unfold DELAY_BUFFER_SIZE; lia).
  rewrite Z.mod_small by (unfold DELAY_BUFFER_SIZE in *; lia).
  unfold DELAY_BUFFER_SIZE.
  replace (r + 4800) with (r + 1 * 4800) by lia. now rewrite Z_mod_plus_full.
Qed.

Lemma Delay_UpdateParameters_fields (d : Delay_t) :
  buffer (Delay_UpdateParameters d) = buffer d /\
  writeIndex (Delay_UpdateParameters d) = writeIndex d /\
  delaySamples (Delay_UpdateParameters d) = delaySamples d /\
  phaseInvert (Delay_UpdateParameters d) = phaseInvert d.
Proof. unfold Delay_UpdateParameters. simpl. auto. Qed.

Lemma Delay_UpdateParameters_readIndex (d : Delay_t) (ch : nat) :
  (ch < DELAY_NUM_CHANNELS)%nat ->
  length (readIndex d) = DELAY_NUM_CHANNELS ->
  readIndex (Delay_UpdateParameters d) !!! ch
  = updated_readIndex (writeIndex d) (delaySamples d !!! ch).
Proof.
  intros Hch Hlen. unfold Delay_UpdateParameters, DELAY_NUM_CHANNELS in *.
  destruct d as [b w r p s u]. simpl in *.
  destruct r as [|r0 [|r1 [|r2 [|r3 [|]]]]]; try discriminate.
  destruct ch as [|[|[|[|]]]]; try lia; reflexivity.
Qed.

Ltac qc_decide := apply (bool_decide_unpack _); vm_compute; exact I.

Lemma MS_TO_SAMPLES_nonneg (ms : float) : (0 <= ms)%Qc -> (0 <= MS_TO_SAMPLES ms)%Qc.
Proof.
  intros Hms. unfold MS_TO_SAMPLES.
  apply Qcmult_nonneg_nonneg; [exact Hms | qc_decide].
Qed.

(** C5.  A delay request for a band is stored clamped to [0 ms, 100 ms];
    the buffers and the write index are untouched; and the next call of
    [Delay_Process] first recomputes the band's read index as
    [(writeIndex - floor(delaySamples) + 4800) mod 4800], before its sample
    loop runs. *)
Theorem C5_delay_clamped_read_index_recomputed
    (d : Delay_t) (ch : nat) (delayMs : float)
    (input output : list Z) (size : nat) :
  (ch < DELAY_NUM_CHANNELS)%nat ->
  length (delaySamples d) = DELAY_NUM_CHANNELS ->
  length (readIndex d) = DELAY_NUM_CHANNELS ->
  let ms := CLAMP delayMs (lit 0) MAX_DELAY_MS in
  let d1 := Delay_SetDelayTime d ch delayMs in
  let d2 := Delay_Process_update d1 in
  (lit 0 <= ms <= lit 100)%Qc /\
  ((lit 0 <= delayMs <= lit 100)%Qc -> ms = delayMs) /\
  delaySamples d1 !!! ch = MS_TO_SAMPLES ms /\
  buffer d1 = buffer d /\ writeIndex d1 = writeIndex d /\
  Delay_Process d1 input output size = Delay_Process_samples d2 input output size /\
  delaySamples d2 = delaySamples d1 /\
  buffer d2 = buffer d /\ writeIndex d2 = writeIndex d /\
  readIndex d2 !!! ch
  = (writeIndex d2 - Qfloor (this (delaySamples d2 !!! ch)) + 4800) mod 4800.
Proof.
  intros Hch Hls Hlr ms d1 d2.
  assert (Hms : (lit 0 <= ms <= lit 100)%Qc).
  { apply CLAMP_bounds. qc_decide. }
  assert (Hd1 : d1 = set_needsUpdate
                       (set_delaySamples d (<[ch := MS_TO_SAMPLES ms]> (delaySamples d))) 1).
  { unfold d1, Delay_SetDelayTime. rewrite bool_decide_eq_false_2 by lia. reflexivity. }
  assert (Hst : delaySamples d1 !!! ch = MS_TO_SAMPLES ms).
  { rewrite Hd1. simpl. apply list_lookup_total_insert_eq. lia. }
  assert (Hd2 : d2 = set_needsUpdate (Delay_UpdateParameters d1) 0).
  { unfold d2, Delay_Process_update. rewrite Hd1. reflexivity. }
  destruct (Delay_UpdateParameters_fields d1) as (Hb & Hw & Hs & _).
  split; [exact Hms|]. split; [apply CLAMP_in_range|].
  split; [exact Hst|].
  split; [rewrite Hd1; reflexivity|]. split; [rewrite Hd1; reflexivity|].
  split; [reflexivity|].
  split; [rewrite Hd2; exact Hs|].
  split; [rewrite Hd2; transitivity (buffer d1); [exact Hb | rewrite Hd1; reflexivity]|].
  split; [rewrite Hd2; transitivity (writeIndex d1); [exact Hw | rewrite Hd1; reflexivity]|].
  rewrite Hd2.
  change (readIndex (Delay_UpdateParameters d1) !!! ch
          = (writeIndex (Delay_UpdateParameters d1)
             - Qfloor (this (delaySamples (Delay_UpdateParameters d1) !!! ch)) + 4800) mod 4800).
  rewrite Hw, Hs.
  rewrite Delay_UpdateParameters_readIndex;
    [| exact Hch | rewrite Hd1; exact Hlr].
  apply updated_readIndex_formula.
  rewrite Hst. apply MS_TO_SAMPLES_nonneg, Hms.
Qed.

(** A request of 250 ms for the low band of a freshly initialised line. *)
Lemma C5_delay_clamped_witness :
  delaySamples (Delay_SetDelayTime Delay_Init 1 (lit 250)) !!! 1%nat
  = MS_TO_SAMPLES (CLAMP (lit 250) (lit 0) MAX_DELAY_MS) /\
  readIndex (Delay_Process_update (Delay_SetDelayTime Delay_Init 1 (lit 250))) !!! 1%nat
  = (writeIndex (Delay_Process_update (Delay_SetDelayTime Delay_Init 1 (lit 250)))
     - Qfloor (this (delaySamples (Delay_Process_update (Delay_SetDelayTime Delay_Init 1 (lit 250))) !!! 1%nat))
     + 4800) mod 4800.
Proof.
  assert (H1 : (1 < DELAY_NUM_CHANNELS)%nat) by (unfold DELAY_NUM_CHANNELS; lia).
  assert (H2 : length (delaySamples Delay_Init) = DELAY_NUM_CHANNELS) by reflexivity.
  assert (H3 : length (readIndex Delay_Init) = DELAY_NUM_CHANNELS) by reflexivity.
  destruct (C5_delay_clamped_read_index_recomputed Delay_Init 1 (lit 250) [] [] 0 H1 H2 H3)
    as (_ & _ & Hs & _ & _ & _ & _ & _ & _ & Hr).
  split; [exact Hs | exact Hr].
Defined.

(** *** Phase inversion *)

Lemma mod_channel (i c : nat) :
  (c < DELAY_NUM_CHANNELS)%nat -> ((i * DELAY_NUM_CHANNELS + c) mod DELAY_NUM_CHANNELS = c)%nat.
Proof.
  intros Hc. rewrite Nat.add_comm, Nat.Div0.mod_add. now apply Nat.mod_small.
Qed.

Lemma Delay_Process_update_phase (d : Delay_t) (p : list Z) :
  Delay_Process_update (set_phaseInvert d p) = set_phaseInvert (Delay_Process_update d) p.
Proof.
  unfold Delay_Process_update. cbn [needsUpdate set_phaseInvert].
  destruct (truthy (needsUpdate d)); reflexivity.
Qed.

Lemma Delay_Process_channel_phase (ch : nat) (pS pC : list Z) (input : list Z)
    (i c : nat) (d : Delay_t) (outS outC : list Z) :
  (c < DELAY_NUM_CHANNELS)%nat ->
  phase_related ch pS pC ->
  inverted_on ch (i * DELAY_NUM_CHANNELS + c) outS outC ->
  exists d' outS' outC',
    Delay_Process_channel input i c (set_phaseInvert d pS, outS) = (set_phaseInvert d' pS, outS') /\
    Delay_Process_channel input i c (set_phaseInvert d pC, outC) = (set_phaseInvert d' pC, outC') /\
    inverted_on ch (i * DELAY_NUM_CHANNELS + c + 1) outS' outC'.
Proof.
  intros Hc (HS & HC & Hother) (Hlen & Hrel).
  set (m := (i * DELAY_NUM_CHANNELS + c)%nat) in *.
  set (d' := buffer_store d c (writeIndex d) (input !!! m)).
  set (o := Delay_GetSample d' c (readIndex d' !!! c)).
  exists d',
    (<[m := if truthy (pS !!! c) then to_int16 (- o) else o]> outS),
    (<[m := if truthy (pC !!! c) then to_int16 (- o) else o]> outC).
  split; [reflexivity|]. split; [reflexivity|].
  split; [now rewrite !length_insert|].
  intros k. rewrite length_insert.
  destruct (decide (k = m)) as [->|Hk].
  - destruct (decide (m < length outC)%nat) as [Hm|Hm].
    + rewrite !list_lookup_total_insert_eq by lia.
      destruct (decide (c = ch)) as [->|Hne].
      * rewrite HS, HC. rewrite bool_decide_eq_true_2; [reflexivity|].
        split; [lia|]. split; [apply mod_channel, Hc | exact Hm].
      * rewrite (Hother c Hne). rewrite bool_decide_eq_false_2; [reflexivity|].
        intros (_ & Hmod & _). unfold m in Hmod. rewrite mod_channel in Hmod by exact Hc.
        contradiction.
    + rewrite !list_insert_ge by lia. rewrite Hrel.
      rewrite !bool_decide_eq_false_2 by lia. reflexivity.
  - rewrite !list_lookup_total_insert_ne by congruence. rewrite Hrel.
    apply (f_equal (fun b : bool => if b then _ else _)).
    apply bool_decide_ext. lia.
Qed.

Lemma Delay_Process_frame_phase (ch : nat) (pS pC : list Z) (input : list Z)
    (i : nat) (d : Delay_t) (outS outC : list Z) :
  phase_related ch pS pC ->
  inverted_on ch (i * DELAY_NUM_CHANNELS) outS outC ->
  exists d' outS' outC',
    Delay_Process_frame input i (set_phaseInvert d pS, outS) = (set_phaseInvert d' pS, outS') /\
    Delay_Process_frame input i (set_phaseInvert d pC, outC) = (set_phaseInvert d' pC, outC') /\
    inverted_on ch (S i * DELAY_NUM_CHANNELS) outS' outC'.
Proof.
  intros Hp H0.
  replace (i * DELAY_NUM_CHANNELS)%nat with (i * DELAY_NUM_CHANNELS + 0)%nat in H0 by lia.
  destruct (Delay_Process_channel_phase ch pS pC input i 0 d outS outC)
    as (d1 & oS1 & oC1 & ES1 & EC1 & H1); [unfold DELAY_NUM_CHANNELS; lia | exact Hp | exact H0 |].
  replace (i * DELAY_NUM_CHANNELS + 0 + 1)%nat with (i * DELAY_NUM_CHANNELS + 1)%nat in H1 by lia.
  destruct (Delay_Process_channel_phase ch pS pC input i 1 d1 oS1 oC1)
    as (d2 & oS2 & oC2 & ES2 & EC2 & H2); [unfold DELAY_NUM_CHANNELS; lia | exact Hp | exact H1 |].
  replace (i * DELAY_NUM_CHANNELS + 1 + 1)%nat with (i * DELAY_NUM_CHANNELS + 2)%nat in H2 by lia.
  destruct (Delay_Process_channel_phase ch pS pC input i 2 d2 oS2 oC2)
    as (d3 & oS3 & oC3 & ES3 & EC3 & H3); [unfold DELAY_NUM_CHANNELS; lia | exact Hp | exact H2 |].
  replace (i * DELAY_NUM_CHANNELS + 2 + 1)%nat with (i * DELAY_NUM_CHANNELS + 3)%nat in H3 by lia.
  destruct (Delay_Process_channel_phase ch pS pC input i 3 d3 oS3 oC3)
    as (d4 & oS4 & oC4 & ES4 & EC4 & H4); [unfold DELAY_NUM_CHANNELS; lia | exact Hp | exact H3 |].
  replace (i * DELAY_NUM_CHANNELS + 3 + 1)%nat with (S i * DELAY_NUM_CHANNELS)%nat in H4
    by (unfold DELAY_NUM_CHANNELS; lia).
  set (after := fun d : Delay_t =>
    for_loop DELAY_NUM_CHANNELS
      (fun ch d => set_readIndex d (<[ch := Z.rem (readIndex d !!! ch + 1) DELAY_BUFFER_SIZE]> (readIndex d)))
      (set_writeIndex d (Z.rem (writeIndex d + 1) DELAY_BUFFER_SIZE))).
  exists (after d4), oS4, oC4.
  split; [|split; [|exact H4]].
  - unfold Delay_Process_frame.
    change (for_loop DELAY_NUM_CHANNELS (Delay_Process_channel input i) (set_phaseInvert d pS, outS))
      with (Delay_Process_channel input i 3
              (Delay_Process_channel input i 2
                 (Delay_Process_channel input i 1
                    (Delay_Process_channel input i 0 (set_phaseInvert d pS, outS))))).
    rewrite ES1, ES2, ES3, ES4. reflexivity.
  - unfold Delay_Process_frame.
    change (for_loop DELAY_NUM_CHANNELS (Delay_Process_channel input i) (set_phaseInvert d pC, outC))
      with (Delay_Process_channel input i 3
              (Delay_Process_channel input i 2
                 (Delay_Process_channel input i 1
                    (Delay_Process_channel input i 0 (set_phaseInvert d pC, outC))))).
    rewrite EC1, EC2, EC3, EC4. reflexivity.
Qed.

Lemma Delay_Process_samples_phase (ch : nat) (pS pC : list Z) (input : list Z)
    (d : Delay_t) (output : list Z) (size : nat) :
  phase_related ch pS pC ->
  exists d' outS outC,
    Delay_Process_samples (set_phaseInvert d pS) input output size = (set_phaseInvert d' pS, outS) /\
    Delay_Process_samples (set_phaseInvert d pC) input output size = (set_phaseInvert d' pC, outC) /\
    inverted_on ch (size * DELAY_NUM_CHANNELS) outS outC.
Proof.
  intros Hp. unfold Delay_Process_samples.
  induction size as [|n IH].
  - exists d, output, output. split; [reflexivity|]. split; [reflexivity|].
    split; [reflexivity|]. intros k. rewrite bool_decide_eq_false_2 by (simpl; lia). reflexivity.
  - destruct IH as (d1 & oS & oC & ES & EC & Hrel).
    destruct (Delay_Process_frame_phase ch pS pC input n d1 oS oC Hp Hrel)
      as (d2 & oS2 & oC2 & ES2 & EC2 & Hrel2).
    exists d2, oS2, oC2. cbn [for_loop]. rewrite ES, EC. auto.
Qed.

Lemma Delay_SetPhaseInvert_related (d : Delay_t) (ch : nat) :
  (ch < DELAY_NUM_CHANNELS)%nat ->
  length (phaseInvert d) = DELAY_NUM_CHANNELS ->
  phase_related ch (phaseInvert (Delay_SetPhaseInvert d ch 1))
                   (phaseInvert (Delay_SetPhaseInvert d ch 0)).
Proof.
  intros Hch Hlen. unfold Delay_SetPhaseInvert.
  rewrite bool_decide_eq_false_2 by lia. cbn [phaseInvert set_phaseInvert truthy Z.eqb negb].
  split; [|split].
  - rewrite list_lookup_total_insert_eq by lia. reflexivity.
  - rewrite list_lookup_total_insert_eq by lia. reflexivity.
  - intros c Hc. now rewrite !list_lookup_total_insert_ne by congruence.
Qed.

(** Setting the phase-invert flag of a band changes the band's output samples
    to the 16-bit negation of what they are with the flag clear, and changes
    neither the other bands' samples nor the state the call leaves behind
    (the flag itself apart). *)
Lemma Delay_Process_phase_invert (d : Delay_t) (ch : nat) (input output : list Z) (size : nat) :
  (ch < DELAY_NUM_CHANNELS)%nat ->
  length (phaseInvert d) = DELAY_NUM_CHANNELS ->
  let set := Delay_SetPhaseInvert d ch 1 in
  let clear := Delay_SetPhaseInvert d ch 0 in
  fst (Delay_Process set input output size)
  = set_phaseInvert (fst (Delay_Process clear input output size)) (phaseInvert set) /\
  inverted_on ch (size * DELAY_NUM_CHANNELS)
    (snd (Delay_Process set input output size))
    (snd (Delay_Process clear input output size)).
Proof.
  intros Hch Hlen set clear.
  pose proof (Delay_SetPhaseInvert_related d ch Hch Hlen) as Hp.
  assert (ES : set = set_phaseInvert d (<[ch := 1]> (phaseInvert d))).
  { unfold set, Delay_SetPhaseInvert. rewrite bool_decide_eq_false_2 by lia. reflexivity. }
  assert (EC : clear = set_phaseInvert d (<[ch := 0]> (phaseInvert d))).
  { unfold clear, Delay_SetPhaseInvert. rewrite bool_decide_eq_false_2 by lia. reflexivity. }
  fold set clear in Hp. rewrite ES, EC in Hp |- *. cbn [phaseInvert set_phaseInvert] in Hp |- *.
  unfold Delay_Process. rewrite !Delay_Process_update_phase.
  destruct (Delay_Process_samples_phase ch _ _ input
              (Delay_Process_update d) output size Hp) as (d' & oS & oC & HS & HC & Hrel).
  rewrite HS, HC. split; [reflexivity | exact Hrel].
Qed.

(** In particular the inverted band carries the exact negation of every
    sample other than [-32768]. *)
Lemma Delay_Process_phase_invert_exact (d : Delay_t) (ch : nat) (input output : list Z)
    (size k : nat) :
  (ch < DELAY_NUM_CHANNELS)%nat ->
  length (phaseInvert d) = DELAY_NUM_CHANNELS ->
  (k < size * DELAY_NUM_CHANNELS)%nat -> (k < length output)%nat ->
  (k mod DELAY_NUM_CHANNELS = ch)%nat ->
  -32768 < snd (Delay_Process (Delay_SetPhaseInvert d ch 0) input output size) !!! k <= 32767 ->
  snd (Delay_Process (Delay_SetPhaseInvert d ch 1) input output size) !!! k
  = - snd (Delay_Process (Delay_SetPhaseInvert d ch 0) input output size) !!! k.
Proof.
  intros Hch Hlen Hk Hko Hmod Hrange.
  destruct (Delay_Process_phase_invert d ch input output size Hch Hlen) as (_ & _ & Hrel).
  rewrite Hrel. rewrite bool_decide_eq_true_2; [now apply to_int16_opp|].
  split; [exact Hk|]. split; [exact Hmod|].
  enough (length (snd (Delay_Process (Delay_SetPhaseInvert d ch 0) input output size))
          = length output) by lia.
  clear. unfold Delay_Process, Delay_Process_samples.
  generalize (Delay_Process_update (Delay_SetPhaseInvert d ch 0)). intros d0.
  induction size as [|n IH]; [reflexivity|].
  cbn [for_loop]. destruct (for_loop n _ _) as [d1 o1]. cbn [snd] in IH.
  unfold Delay_Process_frame. cbn [for_loop DELAY_NUM_CHANNELS].
  unfold Delay_Process_channel. cbn [snd]. now rewrite !length_insert.
Qed.

(** C9 at the sample [-32768]: with the phase-invert flag of the sub band
    set, the band's output is [-32768], the same value as with the flag
    clear, and not its negation [32768]. *)
Theorem C9_phase_invert_int16_min :
  snd (Delay_Process (Delay_SetPhaseInvert Delay_Init 0 1)
         [-32768; 0; 0; 0] [0; 0; 0; 0] 1) !!! 0%nat = -32768 /\
  snd (Delay_Process Delay_Init [-32768; 0; 0; 0] [0; 0; 0; 0] 1) !!! 0%nat = -32768.
Proof. split; vm_compute; reflexivity. Qed.

(** ** Dynamics processors *)

Section DynamicsProperties.
Context `{Libm}.
Local Open Scope Qc_scope.









(** The reduction in dB computed by the limiter is never positive, so its
    conversion to a linear gain always goes through [DB_TO_LINEAR]. *)
Lemma limiter_reduction_nonpos (e thr : float) :
  fgt (if fgt e thr then thr - e else lit 0) (lit 0) = false.
Proof.
  apply fgt_false. destruct (fgt e thr) eqn:E.
  - apply fgt_true in E. apply Qclt_le_weak in E.
    apply Qcle_minus_iff in E. apply Qcle_minus_iff.
    replace (lit 0 + - (thr - e)) with (e + - thr) by (unfold lit; ring).
    exact E.
  - apply Qcle_refl.
Qed.

(** C4.  One step of an enabled limiter: a level above the envelope
    replaces it without smoothing; the reduction in dB is
    [threshold - envelope] above the threshold and 0 dB otherwise; a lower
    target gain is applied at once and a higher one is approached with the
    release coefficient. *)
Theorem C4_limiter_step (lim : Limiter_t) (x : float) :
  truthy (lim_enabled (lim_params lim)) = true ->
  let st := lim_state lim in
  let r := lim_releaseCoef lim in
  let thr := lim_threshold (lim_params lim) in
  let level := LINEAR_TO_DB (Dynamics_DetectPeak (fabsf x) (prevSample st)) in
  let lim' := fst (Dynamics_LimiterProcessSample lim x) in
  let y := snd (Dynamics_LimiterProcessSample lim x) in
  let st' := lim_state lim' in
  exists reduction_dB : float,
    let target := DB_TO_LINEAR reduction_dB in
    (env st < level -> env st' = level) /\
    (level <= env st -> env st' = r * env st + (1 - r) * level) /\
    (thr < env st' -> reduction_dB = thr - env st') /\
    (env st' <= thr -> reduction_dB = lit 0) /\
    (target < gainReduction st -> gainReduction st' = target) /\
    (gainReduction st <= target ->
     gainReduction st' = r * gainReduction st + (1 - r) * target) /\
    y = x * gainReduction st' /\
    lim_releaseCoef lim' = r /\ lim_params lim' = lim_params lim.
Proof.
  intros Hen st r thr level lim' y st'.
  set (env1 := if fgt level (env st) then level
               else r * env st + (1 - r) * level).
  set (red := if fgt env1 thr then thr - env1 else lit 0).
  set (gr1 := if flt (DB_TO_LINEAR red) (gainReduction st) then DB_TO_LINEAR red
              else r * gainReduction st + (1 - r) * DB_TO_LINEAR red).
  assert (Hstep : Dynamics_LimiterProcessSample lim x
    = (mkLimiter (lim_params lim) (mkDynamicsState env1 gr1 (fabsf x)) r
         (lim_sampleRate lim), x * gr1)).
  { unfold Dynamics_LimiterProcessSample. rewrite Hen. cbn [negb]. cbv zeta.
    rewrite limiter_reduction_nonpos. reflexivity. }
  assert (Henv : env st' = env1) by (unfold st', lim'; rewrite Hstep; reflexivity).
  assert (Hgr : gainReduction st' = gr1) by (unfold st', lim'; rewrite Hstep; reflexivity).
  exists red. cbv zeta. rewrite Henv, Hgr.
  split.
  { intros Hlt. unfold env1. apply fgt_true in Hlt. now rewrite Hlt. }
  split.
  { intros Hle. unfold env1. apply fgt_false in Hle. now rewrite Hle. }
  split.
  { intros Hlt. unfold red. apply fgt_true in Hlt. now rewrite Hlt. }
  split.
  { intros Hle. unfold red. apply fgt_false in Hle. now rewrite Hle. }
  split.
  { intros Hlt. unfold gr1. apply flt_true in Hlt. now rewrite Hlt. }
  split.
  { intros Hle. unfold gr1. apply flt_false in Hle. now rewrite Hle. }
  split; [unfold y; rewrite Hstep; reflexivity|].
  unfold lim'. rewrite Hstep. split; reflexivity.
Qed.



End DynamicsProperties.


(** A full-scale sample through the default limiter at 48 kHz. *)
Lemma C4_limiter_step_witness :
  snd (@Dynamics_LimiterProcessSample libm_rational sample_limiter (lit 1))
  = (lit 1
     * gainReduction (lim_state (fst (@Dynamics_LimiterProcessSample libm_rational
                                        sample_limiter (lit 1)))))%Qc.
Proof.
  assert (H1 : truthy (lim_enabled (lim_params sample_limiter)) = true) by reflexivity.
  destruct (@C4_limiter_step libm_rational sample_limiter (lit 1) H1)
    as (red & _ & _ & _ & _ & _ & _ & Hy & _).
  exact Hy.
Defined.


(** ** Crossover network: coefficient design *)

Section CrossoverDesign.
Context `{Libm}.
Local Open Scope Qc_scope.

Lemma for_loop_ext_inv {St : Type} (I : St -> Prop) (n : nat)
    (f g : nat -> St -> St) (s : St) :
  I s ->
  (forall i st, I st -> f i st = g i st) ->
  (forall i st, I st -> I (g i st)) ->
  for_loop n f s = for_loop n g s /\ I (for_loop n g s).
Proof.
  intros Hs Hfg Hg. induction n as [|n [IHe IHi]]; cbn [for_loop].
  - split; [reflexivity | exact Hs].
  - split.
    + rewrite IHe. now apply Hfg.
    + now apply Hg.
Qed.

Lemma design_chain_stage (n : nat) (d : nat -> BiquadFilter_t -> BiquadFilter_t)
    (chain : FilterChain_t) :
  filterCount (design_chain n d chain) = filterCount chain /\
  length (filters (design_chain n d chain)) = length (filters chain) /\
  forall j, (j < length (filters chain))%nat ->
    filters (design_chain n d chain) !!! j
    = if decide (j < n)%nat then d j (filters chain !!! j) else filters chain !!! j.
Proof.
  unfold design_chain. induction n as [|n (IHc & IHl & IHs)]; cbn [for_loop].
  - split; [reflexivity|]. split; [reflexivity|].
    intros j _. destruct (decide (j < 0)%nat); [lia | reflexivity].
  - set (c := for_loop n (fun i chain => update_filter chain i (d i)) chain) in *.
    unfold update_filter. cbn [filters filterCount].
    rewrite length_insert. split; [exact IHc|]. split; [exact IHl|].
    intros j Hj. destruct (Nat.eq_dec j n) as [->|Hne].
    + rewrite list_lookup_total_insert_eq by lia. rewrite (IHs n Hj).
      destruct (decide (n < n)%nat); [lia|].
      destruct (decide (n < S n)%nat); [reflexivity | lia].
    + rewrite list_lookup_total_insert_ne by lia. rewrite (IHs j Hj).
      destruct (decide (j < n)%nat), (decide (j < S n)%nat); try lia; reflexivity.
Qed.

(** A loop that rewrites stage [i] of each of the six chains acts on every
    chain by itself. *)
Lemma six_chain_loop (d1 d2 d3 d4 d5 d6 : nat -> BiquadFilter_t -> BiquadFilter_t)
    (n : nat) (cf : CrossoverFilters_t) :
  for_loop n
    (fun i cf =>
       set_chains cf
         (update_filter (subLowPass cf) i (d1 i))
         (update_filter (lowLowPass cf) i (d2 i))
         (update_filter (lowHighPass cf) i (d3 i))
         (update_filter (midLowPass cf) i (d4 i))
         (update_filter (midHighPass cf) i (d5 i))
         (update_filter (highHighPass cf) i (d6 i)))
    cf
  = set_chains cf
      (design_chain n d1 (subLowPass cf)) (design_chain n d2 (lowLowPass cf))
      (design_chain n d3 (lowHighPass cf)) (design_chain n d4 (midLowPass cf))
      (design_chain n d5 (midHighPass cf)) (design_chain n d6 (highHighPass cf)).
Proof.
  induction n as [|n IH]; cbn [for_loop design_chain].
  - destruct cf; reflexivity.
  - rewrite IH. reflexivity.
Qed.

Lemma ResetAllFilters_chains (st : CrossoverState) :
  crossoverFilters (ResetAllFilters st)
  = let cf := crossoverFilters st in
    let reset := design_chain 4 (fun _ => ResetFilter) in
    set_chains cf
      (reset (subLowPass cf)) (reset (lowLowPass cf)) (reset (lowHighPass cf))
      (reset (midLowPass cf)) (reset (midHighPass cf)) (reset (highHighPass cf)).
Proof.
  unfold ResetAllFilters. cbn [crossoverFilters]. cbv zeta.
  change (Z.to_nat (Z.quot MAX_FILTER_ORDER 2)) with 4%nat.
  exact (six_chain_loop (fun _ => ResetFilter) (fun _ => ResetFilter)
           (fun _ => ResetFilter) (fun _ => ResetFilter)
           (fun _ => ResetFilter) (fun _ => ResetFilter) 4 (crossoverFilters st)).
Qed.

(** What [CalculateFilterCoefficients] does to the bank: every chain is
    reset over its four sections, and then its first [designed_stages]
    sections are designed for the chain's cutoff and type. *)
Lemma CalculateFilterCoefficients_chains (st : CrossoverState) :
  let cf := crossoverFilters st in
  let st' := CalculateFilterCoefficients st in
  let stage cutoff type chain :=
    design_chain (designed_stages cf)
      (fun j => CalculateButterworthCoefficients (cf_sampleRate cf) cutoff
                  (stage_q cf j) type)
      (design_chain 4 (fun _ => ResetFilter) chain) in
  crossoverFilters st'
  = set_chains cf
      (stage (cf_lowCutoff cf) 0%Z (subLowPass cf))
      (stage (cf_midCutoff cf) 0%Z (lowLowPass cf))
      (stage (cf_lowCutoff cf) 1%Z (lowHighPass cf))
      (stage (cf_highCutoff cf) 0%Z (midLowPass cf))
      (stage (cf_midCutoff cf) 1%Z (midHighPass cf))
      (stage (cf_highCutoff cf) 1%Z (highHighPass cf)) /\
  currentSettings st' = currentSettings st.
Proof.
  cbv zeta. unfold CalculateFilterCoefficients. cbv zeta.
  cbn [crossoverFilters currentSettings set_crossoverFilters].
  split; [|reflexivity].
  rewrite ResetAllFilters_chains. cbv zeta.
  set (cf := crossoverFilters st).
  set (cfR := set_chains cf _ _ _ _ _ _).
  unfold designed_stages, stage_q.
  change (cf_filterType cfR) with (cf_filterType cf).
  change (cf_filterOrder cfR) with (cf_filterOrder cf).
  change (cf_sampleRate cfR) with (cf_sampleRate cf).
  set (I := fun c : CrossoverFilters_t =>
              cf_lowCutoff c = cf_lowCutoff cf /\ cf_midCutoff c = cf_midCutoff cf /\
              cf_highCutoff c = cf_highCutoff cf).
  assert (HI : I cfR) by (unfold I; repeat split).
  destruct (cf_filterType cf =? 0)%Z.
  - set (qValues := if (cf_filterOrder cf =? 2)%Z then qValues2
                    else if (cf_filterOrder cf =? 4)%Z then qValues4
                    else if (cf_filterOrder cf =? 8)%Z then qValues8 else qValues4).
    set (n := Z.to_nat (Z.quot (cf_filterOrder cf) 2)).
    pose proof (six_chain_loop
      (fun i => CalculateButterworthCoefficients (cf_sampleRate cf) (cf_lowCutoff cf) (qValues !!! i) 0)
      (fun i => CalculateButterworthCoefficients (cf_sampleRate cf) (cf_midCutoff cf) (qValues !!! i) 0)
      (fun i => CalculateButterworthCoefficients (cf_sampleRate cf) (cf_lowCutoff cf) (qValues !!! i) 1)
      (fun i => CalculateButterworthCoefficients (cf_sampleRate cf) (cf_highCutoff cf) (qValues !!! i) 0)
      (fun i => CalculateButterworthCoefficients (cf_sampleRate cf) (cf_midCutoff cf) (qValues !!! i) 1)
      (fun i => CalculateButterworthCoefficients (cf_sampleRate cf) (cf_highCutoff cf) (qValues !!! i) 1)
      n cfR) as Hsix.
    cbv beta in Hsix.
    match type of Hsix with for_loop _ ?g _ = _ =>
      match goal with |- for_loop _ ?f _ = _ =>
        destruct (for_loop_ext_inv I n f g cfR HI) as [Hext _]
      end
    end.
    + intros i c (E1 & E2 & E3). cbv zeta. rewrite E1, E2, E3. reflexivity.
    + intros i c Hc. exact Hc.
    + rewrite Hext, Hsix. reflexivity.
  - set (n := Z.to_nat (Z.quot (cf_filterOrder cf) 4)).
    pose proof (six_chain_loop
      (fun i => CalculateLinkwitzRileyCoefficients (cf_sampleRate cf) (cf_lowCutoff cf) 0)
      (fun i => CalculateLinkwitzRileyCoefficients (cf_sampleRate cf) (cf_midCutoff cf) 0)
      (fun i => CalculateLinkwitzRileyCoefficients (cf_sampleRate cf) (cf_lowCutoff cf) 1)
      (fun i => CalculateLinkwitzRileyCoefficients (cf_sampleRate cf) (cf_highCutoff cf) 0)
      (fun i => CalculateLinkwitzRileyCoefficients (cf_sampleRate cf) (cf_midCutoff cf) 1)
      (fun i => CalculateLinkwitzRileyCoefficients (cf_sampleRate cf) (cf_highCutoff cf) 1)
      n cfR) as Hsix.
    cbv beta in Hsix.
    match type of Hsix with for_loop _ ?g _ = _ =>
      match goal with |- for_loop _ ?f _ = _ =>
        destruct (for_loop_ext_inv I n f g cfR HI) as [Hext _]
      end
    end.
    + intros i c (E1 & E2 & E3). rewrite E1, E2, E3. reflexivity.
    + intros i c Hc. exact Hc.
    + rewrite Hext, Hsix. reflexivity.
Qed.

Lemma design_chain_count (n : nat) (d : nat -> BiquadFilter_t -> BiquadFilter_t)
    (chain : FilterChain_t) :
  filterCount (design_chain n d chain) = filterCount chain.
Proof. apply design_chain_stage. Qed.

(** Section [j] of a chain of four after reset and design. *)
Lemma designed_stage (n : nat) (d : nat -> BiquadFilter_t -> BiquadFilter_t)
    (chain : FilterChain_t) (j : nat) :
  length (filters chain) = 4%nat -> (j < 4)%nat ->
  filters (design_chain n d (design_chain 4 (fun _ => ResetFilter) chain)) !!! j
  = if decide (j < n)%nat then d j (ResetFilter (filters chain !!! j))
    else ResetFilter (filters chain !!! j).
Proof.
  intros Hlen Hj.
  destruct (design_chain_stage 4 (fun _ => ResetFilter) chain) as (_ & Hl & Hr).
  destruct (design_chain_stage n d (design_chain 4 (fun _ => ResetFilter) chain))
    as (_ & _ & Hd).
  rewrite Hd by lia. rewrite Hr by lia.
  destruct (decide (j < 4)%nat); [reflexivity | lia].
Qed.

(** The fields of the bank that [Crossover_SetSettings] copies from the
    settings. *)
Lemma Crossover_SetSettings_fields (st : CrossoverState) (settings : CrossoverSettings_t) :
  let st' := Crossover_SetSettings st settings in
  let cf' := crossoverFilters st' in
  cf_lowCutoff cf' = lowCutoff settings /\
  cf_midCutoff cf' = midCutoff settings /\
  cf_highCutoff cf' = highCutoff settings /\
  cf_filterType cf' = filterType settings /\
  cf_filterOrder cf' = filterOrder settings /\
  cf_sampleRate cf' = cf_sampleRate (crossoverFilters st) /\
  currentSettings st' = settings.
Proof.
  cbv zeta. unfold Crossover_SetSettings. cbv zeta.
  match goal with
  | |- context [CalculateFilterCoefficients ?s] =>
      destruct (CalculateFilterCoefficients_chains s) as [E Ec]
  end.
  rewrite E, Ec. cbn. repeat split.
Qed.

(** The chains after [Crossover_SetSettings]: section [j] of each chain is
    designed for the requested cutoff when [j] is below [designed_stages],
    and otherwise keeps the coefficients it had. *)
Lemma Crossover_SetSettings_stage (st : CrossoverState)
    (settings : CrossoverSettings_t) (j : nat) :
  Forall (fun chain => length (filters chain) = 4%nat)
         (crossover_chains (crossoverFilters st)) ->
  (j < 4)%nat ->
  let cf' := crossoverFilters (Crossover_SetSettings st settings) in
  Forall2
    (fun chain' '(chain, (cutoff, type)) =>
       filterCount chain' = Z.quot (filterOrder settings) 2 /\
       filters chain' !!! j
       = if decide (j < designed_stages cf')%nat
         then CalculateButterworthCoefficients (cf_sampleRate cf') cutoff
                (stage_q cf' j) type (ResetFilter (filters chain !!! j))
         else ResetFilter (filters chain !!! j))
    (crossover_chains cf')
    (zip (crossover_chains (crossoverFilters st))
       [(lowCutoff settings, 0%Z); (midCutoff settings, 0%Z);
        (lowCutoff settings, 1%Z); (highCutoff settings, 0%Z);
        (midCutoff settings, 1%Z); (highCutoff settings, 1%Z)]).
Proof.
  intros Hlen Hj. cbv zeta. unfold crossover_chains in Hlen.
  rewrite !Forall_cons_iff in Hlen.
  destruct Hlen as (L1 & L2 & L3 & L4 & L5 & L6 & _).
  unfold Crossover_SetSettings. cbv zeta.
  match goal with
  | |- context [CalculateFilterCoefficients ?s] =>
      destruct (CalculateFilterCoefficients_chains s) as [E _]; set (s0 := s) in *
  end.
  rewrite E. clear E. unfold crossover_chains. subst s0.
  cbn [crossoverFilters set_chains subLowPass lowLowPass lowHighPass midLowPass
       midHighPass highHighPass cf_lowCutoff cf_midCutoff cf_highCutoff
       cf_sampleRate zip zip_with].
  repeat (apply Forall2_cons;
    [ split;
      [ rewrite !design_chain_count; reflexivity
      | rewrite designed_stage by (cbn [filters set_filterCount]; assumption);
        reflexivity ]
    | ]).
  apply Forall2_nil.
Qed.

(** On the Butterworth path every active section is designed by the call. *)
Lemma Butterworth_stages_designed (st : CrossoverState)
    (settings : CrossoverSettings_t) (j : nat) :
  Forall (fun chain => length (filters chain) = 4%nat)
         (crossover_chains (crossoverFilters st)) ->
  filterType settings = 0%Z ->
  (filterOrder settings = 2 \/ filterOrder settings = 4 \/ filterOrder settings = 8)%Z ->
  (Z.of_nat j < Z.quot (filterOrder settings) 2)%Z ->
  let cf' := crossoverFilters (Crossover_SetSettings st settings) in
  Forall2
    (fun chain' '(chain, (cutoff, type)) =>
       filterCount chain' = Z.quot (filterOrder settings) 2 /\
       filters chain' !!! j
       = CalculateButterworthCoefficients (cf_sampleRate cf') cutoff
           (stage_q cf' j) type (ResetFilter (filters chain !!! j)))
    (crossover_chains cf')
    (zip (crossover_chains (crossoverFilters st))
       [(lowCutoff settings, 0%Z); (midCutoff settings, 0%Z);
        (lowCutoff settings, 1%Z); (highCutoff settings, 0%Z);
        (midCutoff settings, 1%Z); (highCutoff settings, 1%Z)]).
Proof.
  intros Hlen Ht Ho Hj. cbv zeta.
  assert (Hj4 : (j < 4)%nat).
  { destruct Ho as [E|[E|E]]; rewrite E in Hj;
      [ change (Z.quot 2 2) with 1%Z in Hj
      | change (Z.quot 4 2) with 2%Z in Hj
      | change (Z.quot 8 2) with 4%Z in Hj ]; lia. }
  pose proof (Crossover_SetSettings_stage st settings j Hlen Hj4) as Hst.
  cbv zeta in Hst.
  destruct (Crossover_SetSettings_fields st settings) as (_ & _ & _ & Et & Eo & _).
  cbv zeta in Et, Eo.
  assert (Hd : (j < designed_stages
                       (crossoverFilters (Crossover_SetSettings st settings)))%nat).
  { unfold designed_stages. rewrite Et, Eo, Ht. cbn [Z.eqb]. lia. }
  revert Hst. apply Forall2_impl.
  intros chain' [chain [cutoff type]] [Hc Hf]. split; [exact Hc|].
  rewrite Hf. destruct (decide _); [reflexivity | contradiction].
Qed.

(** On the Linkwitz-Riley path the design loop stops at order/4: the
    sections from there on keep the coefficients they had before the call,
    also those below order/2 that the chain runs. *)
Lemma LinkwitzRiley_upper_stages_kept (st : CrossoverState)
    (settings : CrossoverSettings_t) (j : nat) :
  Forall (fun chain => length (filters chain) = 4%nat)
         (crossover_chains (crossoverFilters st)) ->
  filterType settings <> 0%Z ->
  (j < 4)%nat ->
  (Z.quot (filterOrder settings) 4 <= Z.of_nat j)%Z ->
  let cf' := crossoverFilters (Crossover_SetSettings st settings) in
  Forall2
    (fun chain' chain =>
       filterCount chain' = Z.quot (filterOrder settings) 2 /\
       coefficients (filters chain' !!! j) = coefficients (filters chain !!! j))
    (crossover_chains cf') (crossover_chains (crossoverFilters st)).
Proof.
  intros Hlen Ht Hj4 Hj. cbv zeta.
  pose proof (Crossover_SetSettings_stage st settings j Hlen Hj4) as Hst.
  cbv zeta in Hst.
  destruct (Crossover_SetSettings_fields st settings) as (_ & _ & _ & Et & Eo & _).
  cbv zeta in Et, Eo.
  assert (Hd : ~ (j < designed_stages
                        (crossoverFilters (Crossover_SetSettings st settings)))%nat).
  { unfold designed_stages. rewrite Et, Eo.
    destruct (Z.eqb_spec (filterType settings) 0); [contradiction|]. lia. }
  unfold crossover_chains in *. cbn [zip zip_with] in Hst.
  repeat match goal with
         | Hx : Forall2 _ (_ :: _) (_ :: _) |- _ =>
             let Hf := fresh "Hf" in
             apply Forall2_cons_1 in Hx; destruct Hx as [[? Hf] Hx];
             apply List.Forall2_cons;
               [ split; [assumption|]; rewrite Hf;
                 destruct (decide _); [contradiction | reflexivity] | ]
         end.
  apply List.Forall2_nil.
Qed.

Lemma second_stage_dead_silent (chain : FilterChain_t) (x : float) :
  second_stage_dead chain ->
  snd (ProcessFilterChain chain x) = lit 0 /\
  second_stage_dead (fst (ProcessFilterChain chain x)).
Proof.
  intros (Hc & f0 & f1 & rest & Hf & B0 & B1 & B2).
  destruct chain as [fl cnt]. cbn [filters filterCount] in *. subst fl cnt.
  unfold ProcessFilterChain. cbn [filterCount].
  change (Z.to_nat 2) with 2%nat. cbn [for_loop].
  unfold update_filter, ProcessBiquad. cbn.
  rewrite B0, B1, B2. split.
  - unfold lit. change (Q2Qc 0%Q) with 0. ring.
  - split; [reflexivity|]. do 3 eexists. split; [reflexivity|].
    cbn. auto.
Qed.

Lemma mute_or_scale_zero (mute : Z) (gain : float) :
  (if truthy mute then lit 0 else lit 0 * gain) = lit 0.
Proof.
  destruct (truthy mute); [reflexivity|].
  unfold lit. change (Q2Qc 0%Q) with 0. ring.
Qed.

Lemma crossover_silent_sample (input : list float) (i : nat)
    (st : CrossoverState) (outs : CrossoverOutputs) :
  crossover_silent st ->
  crossover_silent (fst (Crossover_Process_sample input i (st, outs))).
Proof.
  intros (Hch & Hs & Hl & Hm & Hh). unfold crossover_chains in Hch.
  rewrite !Forall_cons_iff in Hch.
  destruct Hch as (DsubLP & DlowLP & DlowHP & DmidLP & DmidHP & DhighHP & _).
  unfold Crossover_Process_sample.
  destruct (second_stage_dead_silent (subLowPass (crossoverFilters st)) (input !!! i) DsubLP)
    as [E1 D1].
  destruct (ProcessFilterChain (subLowPass (crossoverFilters st)) (input !!! i))
    as [c1 o1]. cbn [fst snd] in E1, D1. subst o1.
  destruct (second_stage_dead_silent (lowHighPass (crossoverFilters st)) (input !!! i) DlowHP)
    as [E2 D2].
  destruct (ProcessFilterChain (lowHighPass (crossoverFilters st)) (input !!! i))
    as [c2 o2]. cbn [fst snd] in E2, D2. subst o2.
  destruct (second_stage_dead_silent (lowLowPass (crossoverFilters st)) (lit 0) DlowLP)
    as [E3 D3].
  destruct (ProcessFilterChain (lowLowPass (crossoverFilters st)) (lit 0))
    as [c3 o3]. cbn [fst snd] in E3, D3. subst o3.
  destruct (second_stage_dead_silent (midHighPass (crossoverFilters st)) (input !!! i) DmidHP)
    as [E4 D4].
  destruct (ProcessFilterChain (midHighPass (crossoverFilters st)) (input !!! i))
    as [c4 o4]. cbn [fst snd] in E4, D4. subst o4.
  destruct (second_stage_dead_silent (midLowPass (crossoverFilters st)) (lit 0) DmidLP)
    as [E5 D5].
  destruct (ProcessFilterChain (midLowPass (crossoverFilters st)) (lit 0))
    as [c5 o5]. cbn [fst snd] in E5, D5. subst o5.
  destruct (second_stage_dead_silent (highHighPass (crossoverFilters st)) (input !!! i) DhighHP)
    as [E6 D6].
  destruct (ProcessFilterChain (highHighPass (crossoverFilters st)) (input !!! i))
    as [c6 o6]. cbn [fst snd] in E6, D6. subst o6.
  rewrite !mute_or_scale_zero.
  unfold crossover_silent, crossover_chains.
  cbn [fst crossoverFilters set_chains subLowPass lowLowPass lowHighPass
       midLowPass midHighPass highHighPass subBuffer lowBuffer midBuffer highBuffer].
  rewrite Hs, Hl, Hm, Hh, !insert_replicate.
  split; [|repeat split].
  repeat (apply List.Forall_cons; [assumption|]). apply List.Forall_nil.
Qed.

Lemma crossover_silent_block (input : list float) (st : CrossoverState)
    (outs : CrossoverOutputs) (size : nat) :
  crossover_silent st ->
  crossover_silent (fst (Crossover_Process st input outs size)).
Proof.
  intros Hs. unfold Crossover_Process.
  apply (for_loop_inv (fun _ s => crossover_silent (fst s)));
    [exact Hs|].
  intros i [st1 outs1] _ Hinv. now apply crossover_silent_sample.
Qed.

Ltac chain_shape :=
  split;
  [ reflexivity
  | do 3 eexists; split;
    [ cbv -[CalculateLinkwitzRileyCoefficients DB_TO_LINEAR LINEAR_TO_DB lit];
      reflexivity
    | repeat split; reflexivity ] ].

(** After start-up, and after any later update that selects the
    Linkwitz-Riley type with order 4, every chain runs two stages and the
    second one still has the zero coefficients of static storage. *)
Lemma Crossover_Init_silent : crossover_silent (Crossover_Init Crossover_static_init).
Proof.
  unfold crossover_silent, crossover_chains.
  split; [|repeat split].
  repeat (apply List.Forall_cons; [chain_shape|]). apply List.Forall_nil.
Qed.

Lemma Crossover_SetSettings_lr4_silent (settings : CrossoverSettings_t) :
  crossover_silent
    (Crossover_SetSettings (Crossover_Init Crossover_static_init)
       (with_filter settings 1 4)).
Proof.
  unfold crossover_silent, crossover_chains.
  split; [|repeat split].
  repeat (apply List.Forall_cons; [chain_shape|]). apply List.Forall_nil.
Qed.

Lemma second_stage_dead_coefficients (chain : FilterChain_t) :
  filterCount chain = 2%Z ->
  (exists f0 rest, filters chain = f0 :: zero_biquad :: rest) ->
  filterCount chain = 2%Z /\
  coefficients (filters chain !!! 1%nat) = (lit 0, lit 0, lit 0, lit 0, lit 0).
Proof.
  intros Hc (f0 & rest & Hf). split; [exact Hc|]. rewrite Hf. reflexivity.
Qed.

Ltac stale_shape :=
  apply second_stage_dead_coefficients;
  [ reflexivity
  | do 2 eexists;
    cbv -[CalculateLinkwitzRileyCoefficients DB_TO_LINEAR LINEAR_TO_DB lit];
    reflexivity ].

(** C1 on the Linkwitz-Riley path.  At start-up the crossover selects the
    Linkwitz-Riley type with order 4; each of the six chains then runs
    order/2 = 2 stages, but only stage 0 is designed.  Stage 1 keeps the
    coefficients it had before the call (the zeros of static storage),
    also after a settings update with any cutoffs, gains and mutes, and
    every band output of [Crossover_Process] is zero for every input. *)
Theorem C1_linkwitz_riley_second_stage_stale (settings : CrossoverSettings_t)
    (input : list float) (outs : CrossoverOutputs) (size : nat) :
  let st0 := Crossover_Init Crossover_static_init in
  let st1 := Crossover_SetSettings st0 (with_filter settings 1 4) in
  let r := Crossover_Process st1 input outs size in
  let stale chain :=
    filterCount chain = 2%Z /\
    coefficients (filters chain !!! 1%nat) = (lit 0, lit 0, lit 0, lit 0, lit 0) in
  cf_filterType (crossoverFilters st0) = 1%Z /\
  cf_filterOrder (crossoverFilters st0) = 4%Z /\
  Forall stale (crossover_chains (crossoverFilters st0)) /\
  Forall stale (crossover_chains (crossoverFilters st1)) /\
  Forall (fun band =>
            Crossover_GetBandOutput (fst r) band
            = Some (replicate AUDIO_BUFFER_SIZE (lit 0)))
         [0; 1; 2; 3]%Z.
Proof.
  intros st0 st1 r stale.
  split; [reflexivity|]. split; [reflexivity|].
  split.
  { unfold stale, crossover_chains, st0.
    repeat (apply List.Forall_cons; [stale_shape|]). apply List.Forall_nil. }
  split.
  { unfold stale, crossover_chains, st1, st0.
    repeat (apply List.Forall_cons; [stale_shape|]). apply List.Forall_nil. }
  destruct (crossover_silent_block input st1 outs size
              (Crossover_SetSettings_lr4_silent settings))
    as (_ & Hs & Hl & Hm & Hh).
  fold r in Hs, Hl, Hm, Hh.
  repeat (apply List.Forall_cons;
          [unfold Crossover_GetBandOutput; cbn [Z.eqb Pos.eqb]; congruence|]).
  apply List.Forall_nil.
Qed.

(** C8, as the code has it.  [Crossover_SetSettings] stores the three
    requested cutoff frequencies and the settings record exactly as given,
    without clamping them to [20 Hz, Nyquist]; the sections it designs are
    computed from the stored, unclamped values; and it returns the new state
    only, so that no request is reported as an error. *)
Theorem C8_cutoffs_stored_as_requested (st : CrossoverState)
    (settings : CrossoverSettings_t) :
  let st' := Crossover_SetSettings st settings in
  let cf' := crossoverFilters st' in
  cf_lowCutoff cf' = lowCutoff settings /\
  cf_midCutoff cf' = midCutoff settings /\
  cf_highCutoff cf' = highCutoff settings /\
  Crossover_GetSettings st' = settings /\
  (Forall (fun chain => length (filters chain) = 4%nat)
          (crossover_chains (crossoverFilters st)) ->
   (0 < designed_stages cf')%nat ->
   Forall2
     (fun chain' '(chain, (cutoff, type)) =>
        filters chain' !!! 0%nat
        = CalculateButterworthCoefficients (cf_sampleRate cf') cutoff
            (stage_q cf' 0) type (ResetFilter (filters chain !!! 0%nat)))
     (crossover_chains cf')
     (zip (crossover_chains (crossoverFilters st))
        [(lowCutoff settings, 0%Z); (midCutoff settings, 0%Z);
         (lowCutoff settings, 1%Z); (highCutoff settings, 0%Z);
         (midCutoff settings, 1%Z); (highCutoff settings, 1%Z)])).
Proof.
  cbv zeta.
  destruct (Crossover_SetSettings_fields st settings) as (E1 & E2 & E3 & _ & _ & _ & Es).
  cbv zeta in E1, E2, E3, Es.
  split; [exact E1|]. split; [exact E2|]. split; [exact E3|]. split; [exact Es|].
  intros Hlen Hd.
  pose proof (Crossover_SetSettings_stage st settings 0 Hlen ltac:(lia)) as Hst.
  cbv zeta in Hst. revert Hst. apply Forall2_impl.
  intros chain' [chain [cutoff type]] [_ Hf].
  rewrite Hf. destruct (decide _); [reflexivity | contradiction].
Qed.

End CrossoverDesign.

(** ** Crossover network: muted bands *)

(** For one band, seen through its mute flag, its internal buffer and its
    output pointer: if every pass of the sample loop writes [0.0] for the
    band when it is muted, the whole block is zero. *)
Section MutedBand.
Context `{Libm}.
Variable mute : CrossoverFilters_t -> Z.
Variable buf : CrossoverState -> list float.
Variable out : CrossoverOutputs -> option (list float).
Variable input : list float.

Hypothesis sample_muted : forall i st outs,
  truthy (mute (crossoverFilters st)) = true ->
  mute (crossoverFilters (fst (Crossover_Process_sample input i (st, outs))))
  = mute (crossoverFilters st) /\
  buf (fst (Crossover_Process_sample input i (st, outs))) = <[i := lit 0]> (buf st) /\
  out (snd (Crossover_Process_sample input i (st, outs)))
  = store_if_present (out outs) i (lit 0).

Lemma muted_band_block (st : CrossoverState) (outs : CrossoverOutputs) (size : nat) :
  truthy (mute (crossoverFilters st)) = true ->
  let r := Crossover_Process st input outs size in
  mute (crossoverFilters (fst r)) = mute (crossoverFilters st) /\
  length (buf (fst r)) = length (buf st) /\
  (forall i, (i < size)%nat -> (i < length (buf st))%nat ->
     buf (fst r) !!! i = lit 0) /\
  match out outs with
  | None => out (snd r) = None
  | Some l =>
      exists l', out (snd r) = Some l' /\ length l' = length l /\
        forall i, (i < size)%nat -> (i < length l)%nat -> l' !!! i = lit 0
  end.
Proof.
  intros Hm. unfold Crossover_Process. induction size as [|n IH]; cbv zeta.
  - cbn [for_loop fst snd]. split; [reflexivity|]. split; [reflexivity|].
    split; [intros; lia|].
    destruct (out outs) as [l|]; [|reflexivity].
    exists l. repeat split. intros; lia.
  - cbv zeta in IH. destruct IH as (IHm & IHl & IHb & IHo). cbn [for_loop].
    destruct (for_loop n (Crossover_Process_sample input) (st, outs)) as [st1 outs1].
    cbn [fst snd] in IHm, IHl, IHb, IHo.
    assert (Hm1 : truthy (mute (crossoverFilters st1)) = true) by now rewrite IHm.
    destruct (sample_muted n st1 outs1 Hm1) as (Sm & Sb & So).
    split; [now rewrite Sm|]. split; [rewrite Sb, length_insert; exact IHl|].
    split.
    + intros i Hi Hlen. rewrite Sb. destruct (Nat.eq_dec i n) as [->|Hne].
      * apply list_lookup_total_insert_eq. lia.
      * rewrite list_lookup_total_insert_ne by lia. apply IHb; lia.
    + rewrite So. destruct (out outs) as [l|].
      * destruct IHo as (l1 & E1 & Hl1 & Hz). rewrite E1. cbn [store_if_present].
        exists (<[n := lit 0]> l1). split; [reflexivity|].
        split; [now rewrite length_insert|].
        intros i Hi Hlen. destruct (Nat.eq_dec i n) as [->|Hne].
        -- apply list_lookup_total_insert_eq. lia.
        -- rewrite list_lookup_total_insert_ne by lia. apply Hz; lia.
      * rewrite IHo. reflexivity.
Qed.

End MutedBand.

Section CrossoverMute.
Context `{Libm}.

Ltac sample_step :=
  intros i st outs Hm; unfold Crossover_Process_sample;
  repeat match goal with
         | |- context [ProcessFilterChain ?c ?x] =>
             destruct (ProcessFilterChain c x) as [? ?]
         end;
  cbn [fst snd crossoverFilters subBuffer lowBuffer midBuffer highBuffer
       subOut lowOut midOut highOut set_chains
       cf_subMute cf_lowMute cf_midMute cf_highMute] in *;
  rewrite Hm; repeat split.

Lemma sub_sample_muted (input : list float) : forall i st outs,
  truthy (cf_subMute (crossoverFilters st)) = true ->
  cf_subMute (crossoverFilters (fst (Crossover_Process_sample input i (st, outs))))
  = cf_subMute (crossoverFilters st) /\
  subBuffer (fst (Crossover_Process_sample input i (st, outs)))
  = <[i := lit 0]> (subBuffer st) /\
  subOut (snd (Crossover_Process_sample input i (st, outs)))
  = store_if_present (subOut outs) i (lit 0).
Proof. sample_step. Qed.

Lemma low_sample_muted (input : list float) : forall i st outs,
  truthy (cf_lowMute (crossoverFilters st)) = true ->
  cf_lowMute (crossoverFilters (fst (Crossover_Process_sample input i (st, outs))))
  = cf_lowMute (crossoverFilters st) /\
  lowBuffer (fst (Crossover_Process_sample input i (st, outs)))
  = <[i := lit 0]> (lowBuffer st) /\
  lowOut (snd (Crossover_Process_sample input i (st, outs)))
  = store_if_present (lowOut outs) i (lit 0).
Proof. sample_step. Qed.

Lemma mid_sample_muted (input : list float) : forall i st outs,
  truthy (cf_midMute (crossoverFilters st)) = true ->
  cf_midMute (crossoverFilters (fst (Crossover_Process_sample input i (st, outs))))
  = cf_midMute (crossoverFilters st) /\
  midBuffer (fst (Crossover_Process_sample input i (st, outs)))
  = <[i := lit 0]> (midBuffer st) /\
  midOut (snd (Crossover_Process_sample input i (st, outs)))
  = store_if_present (midOut outs) i (lit 0).
Proof. sample_step. Qed.

Lemma high_sample_muted (input : list float) : forall i st outs,
  truthy (cf_highMute (crossoverFilters st)) = true ->
  cf_highMute (crossoverFilters (fst (Crossover_Process_sample input i (st, outs))))
  = cf_highMute (crossoverFilters st) /\
  highBuffer (fst (Crossover_Process_sample input i (st, outs)))
  = <[i := lit 0]> (highBuffer st) /\
  highOut (snd (Crossover_Process_sample input i (st, outs)))
  = store_if_present (highOut outs) i (lit 0).
Proof. sample_step. Qed.

End CrossoverMute.

(** ** Conversion to 16-bit samples *)

Section AudioProcessingProperties.
Context `{Libm} {M : Type} `{!ExternalModules M}.

Lemma to_uint32_succ (x : Z) : to_uint32 (to_uint32 x + 1) = to_uint32 (x + 1).
Proof. unfold to_uint32. now rewrite Zplus_mod_idemp_l. Qed.

(** The value written for a scaled sample [v]: the nearer bound when [v]
    is out of range, and [v] truncated otherwise. *)
Lemma clip_check_value (v : float) (c : Z) :
  let out := int_of_float (fst (clip_check v c)) in
  ((float_of_int MAX_SAMPLE_VALUE < v)%Qc -> out = MAX_SAMPLE_VALUE) /\
  ((v < float_of_int MIN_SAMPLE_VALUE)%Qc -> out = MIN_SAMPLE_VALUE) /\
  ((float_of_int MIN_SAMPLE_VALUE <= v <= float_of_int MAX_SAMPLE_VALUE)%Qc ->
   out = int_of_float v).
Proof.
  cbv zeta. unfold clip_check, sample_out_of_range, CLAMP.
  assert (Hlt : (float_of_int MIN_SAMPLE_VALUE < float_of_int MAX_SAMPLE_VALUE)%Qc)
    by qc_decide.
  split; [|split].
  - intros Hhi. apply fgt_true in Hhi. rewrite Hhi. reflexivity.
  - intros Hlo.
    assert (Hhi : fgt v (float_of_int MAX_SAMPLE_VALUE) = false).
    { apply fgt_false. apply Qclt_le_weak. eapply Qclt_trans; eassumption. }
    apply flt_true in Hlo. rewrite Hhi, Hlo. reflexivity.
  - intros [Hlo Hhi]. apply fgt_false in Hhi. apply flt_false in Hlo.
    rewrite Hhi, Hlo. reflexivity.
Qed.

Lemma clip_check_count (v : float) (c : Z) :
  snd (clip_check v c)
  = if sample_out_of_range v then to_uint32 (c + 1) else c.
Proof. unfold clip_check. now destruct (sample_out_of_range v). Qed.

Lemma clip_check_fst (v : float) (c c' : Z) :
  fst (clip_check v c) = fst (clip_check v c').
Proof. unfold clip_check. now destruct (sample_out_of_range v). Qed.

Lemma sample_out_of_range_spec (v : float) :
  sample_out_of_range v = true
  <-> (float_of_int MAX_SAMPLE_VALUE < v \/ v < float_of_int MIN_SAMPLE_VALUE)%Qc.
Proof.
  unfold sample_out_of_range. rewrite orb_true_iff, fgt_true, flt_true. tauto.
Qed.

Lemma ConvertToInt16_loop (inputL inputR : list float) (output : list Z) (n : nat) :
  let r := for_loop n (ConvertToInt16_frame inputL inputR) (output, 0) in
  snd r = to_uint32 (clipped_samples inputL inputR n) /\
  length (fst r) = length output /\
  forall j, (j < n)%nat -> (2 * j + 1 < length output)%nat ->
    fst r !!! (2 * j)%nat
    = int_of_float (fst (clip_check (inputL !!! j * float_of_int MAX_SAMPLE_VALUE)%Qc 0)) /\
    fst r !!! (2 * j + 1)%nat
    = int_of_float (fst (clip_check (inputR !!! j * float_of_int MAX_SAMPLE_VALUE)%Qc 0)).
Proof.
  induction n as [|n IH]; cbv zeta.
  - cbn [for_loop fst snd clipped_samples]. repeat split; intros; lia.
  - cbv zeta in IH. destruct IH as (Hc & Hl & Hout). cbn [for_loop].
    destruct (for_loop n (ConvertToInt16_frame inputL inputR) (output, 0))
      as [out c]. cbn [fst snd] in Hc, Hl, Hout.
    unfold ConvertToInt16_frame.
    pose proof (clip_check_count (inputL !!! n * float_of_int MAX_SAMPLE_VALUE)%Qc c) as HcL.
    assert (Hl0 : fst (clip_check (inputL !!! n * float_of_int MAX_SAMPLE_VALUE)%Qc c)
                  = fst (clip_check (inputL !!! n * float_of_int MAX_SAMPLE_VALUE)%Qc 0)).
    { apply clip_check_fst. }
    destruct (clip_check (inputL !!! n * float_of_int MAX_SAMPLE_VALUE)%Qc c)
      as [l cl].
    pose proof (clip_check_count (inputR !!! n * float_of_int MAX_SAMPLE_VALUE)%Qc cl) as HcR.
    assert (Hr0 : fst (clip_check (inputR !!! n * float_of_int MAX_SAMPLE_VALUE)%Qc cl)
                  = fst (clip_check (inputR !!! n * float_of_int MAX_SAMPLE_VALUE)%Qc 0)).
    { apply clip_check_fst. }
    destruct (clip_check (inputR !!! n * float_of_int MAX_SAMPLE_VALUE)%Qc cl)
      as [r cr].
    cbn [fst snd] in *. subst l r.
    split; [|split].
    + rewrite HcR, HcL, Hc. cbn [clipped_samples].
      unfold to_uint32.
      destruct (sample_out_of_range (inputL !!! n * _)%Qc),
               (sample_out_of_range (inputR !!! n * _)%Qc);
        repeat (rewrite Zplus_mod_idemp_l || rewrite <- Z.add_assoc);
        rewrite ?Z.mod_mod by lia; f_equal; lia.
    + rewrite !length_insert. exact Hl.
    + intros j Hj Hlen. destruct (Nat.eq_dec j n) as [->|Hne].
      * split.
        -- rewrite list_lookup_total_insert_ne by lia.
           rewrite list_lookup_total_insert_eq by lia. reflexivity.
        -- rewrite list_lookup_total_insert_eq by (rewrite length_insert; lia).
           reflexivity.
      * rewrite !list_lookup_total_insert_ne by lia. apply Hout; lia.
Qed.

(** C6.  [ConvertToInt16] writes, for every frame, the nearer bound of the
    [int16_t] range when the scaled sample is out of range and the
    truncated sample otherwise; one check adds exactly 1 to the clip count
    for an out-of-range sample and leaves it alone for an in-range one, so
    that the counter in the statistics grows by the number of out-of-range
    samples (as a [uint32_t]). *)
Theorem C6_clamp_and_clip_count (inputL inputR : list float) (output : list Z)
    (length : nat) (clippingCount0 : Z) (i : nat) (v : float) (c : Z) :
  let r := ConvertToInt16 inputL inputR output length clippingCount0 in
  let scaledL := (inputL !!! i * float_of_int MAX_SAMPLE_VALUE)%Qc in
  let scaledR := (inputR !!! i * float_of_int MAX_SAMPLE_VALUE)%Qc in
  let converted s :=
    if fgt s (float_of_int MAX_SAMPLE_VALUE) then MAX_SAMPLE_VALUE
    else if flt s (float_of_int MIN_SAMPLE_VALUE) then MIN_SAMPLE_VALUE
    else int_of_float s in
  (* one sample *)
  (sample_out_of_range v = true
   <-> (float_of_int MAX_SAMPLE_VALUE < v \/ v < float_of_int MIN_SAMPLE_VALUE)%Qc) /\
  snd (clip_check v c) = (if sample_out_of_range v then to_uint32 (c + 1) else c) /\
  (0 <= c < 4294967295 -> sample_out_of_range v = true -> snd (clip_check v c) = c + 1) /\
  (* the block *)
  snd r = to_uint32 (clippingCount0 + clipped_samples inputL inputR length) /\
  (0 <= clippingCount0 ->
   clippingCount0 + clipped_samples inputL inputR length < 4294967296 ->
   snd r = clippingCount0 + clipped_samples inputL inputR length) /\
  ((i < length)%nat -> (2 * i + 1 < List.length output)%nat ->
   fst r !!! (2 * i)%nat = converted scaledL /\
   fst r !!! (2 * i + 1)%nat = converted scaledR /\
   MIN_SAMPLE_VALUE <= fst r !!! (2 * i)%nat <= MAX_SAMPLE_VALUE /\
   MIN_SAMPLE_VALUE <= fst r !!! (2 * i + 1)%nat <= MAX_SAMPLE_VALUE).
Proof.
  intros r scaledL scaledR converted.
  assert (Hconv : forall s, int_of_float (fst (clip_check s 0)) = converted s).
  { intros s. unfold converted, clip_check, sample_out_of_range, CLAMP.
    destruct (fgt s (float_of_int MAX_SAMPLE_VALUE)) eqn:Ehi; [reflexivity|].
    destruct (flt s (float_of_int MIN_SAMPLE_VALUE)) eqn:Elo; reflexivity. }
  assert (Hrange : forall s, MIN_SAMPLE_VALUE <= converted s <= MAX_SAMPLE_VALUE).
  { intros s. unfold converted.
    destruct (fgt s (float_of_int MAX_SAMPLE_VALUE)) eqn:Ehi;
      [unfold MIN_SAMPLE_VALUE, MAX_SAMPLE_VALUE; lia|].
    destruct (flt s (float_of_int MIN_SAMPLE_VALUE)) eqn:Elo;
      [unfold MIN_SAMPLE_VALUE, MAX_SAMPLE_VALUE; lia|].
    apply int_of_float_range.
    - unfold MIN_SAMPLE_VALUE, MAX_SAMPLE_VALUE; lia.
    - split; [now apply flt_false | now apply fgt_false]. }
  destruct (ConvertToInt16_loop inputL inputR output length) as (Hc & Hl & Hout).
  unfold r, ConvertToInt16.
  destruct (for_loop length (ConvertToInt16_frame inputL inputR) (output, 0))
    as [out cnt]. cbn [fst snd] in *.
  split; [apply sample_out_of_range_spec|].
  split; [apply clip_check_count|].
  split.
  { intros Hcr Hv. rewrite clip_check_count, Hv. unfold to_uint32.
    apply Z.mod_small. lia. }
  split.
  { rewrite Hc. unfold to_uint32. now rewrite Zplus_mod_idemp_r. }
  split.
  { intros H0 Hlt. rewrite Hc. unfold to_uint32. rewrite Zplus_mod_idemp_r.
    apply Z.mod_small. split; [|exact Hlt].
    assert (0 <= clipped_samples inputL inputR length); [|lia].
    clear. induction length as [|n IH]; cbn [clipped_samples]; [lia|].
    destruct (sample_out_of_range _), (sample_out_of_range _); lia. }
  intros Hi Hlen. destruct (Hout i Hi Hlen) as [HL HR].
  rewrite HL, HR, !Hconv. repeat split; apply Hrange.
Qed.

(** ** Bypass *)



(** ** Pipeline: muted bands *)

Lemma memset_zero_lookup (buffer : list float) (n i : nat) :
  (i < n)%nat -> memset_zero buffer n !!! i = lit 0.
Proof.
  intros Hi. unfold memset_zero.
  rewrite lookup_total_app_l by (rewrite length_replicate; lia).
  now apply lookup_total_replicate_2.
Qed.

(** A loop that fills two buffers element by element. *)
Lemma fill_loop_lookup {A B : Type} `{!Inhabited A, !Inhabited B}
    (f : nat -> A) (g : nat -> B) (a0 : list A) (b0 : list B) (n : nat) :
  let r := for_loop n
             (fun i '(a, b) => (<[i := f i]> a, <[i := g i]> b)) (a0, b0) in
  length (fst r) = length a0 /\ length (snd r) = length b0 /\
  forall i, (i < n)%nat ->
    ((i < length a0)%nat -> fst r !!! i = f i) /\
    ((i < length b0)%nat -> snd r !!! i = g i).
Proof.
  induction n as [|n IH]; cbv zeta.
  - cbn [for_loop fst snd]. repeat split; intros; lia.
  - cbv zeta in IH. destruct IH as (Ha & Hb & Hi). cbn [for_loop].
    destruct (for_loop n _ (a0, b0)) as [a b]. cbn [fst snd] in *.
    rewrite !length_insert. split; [exact Ha|]. split; [exact Hb|].
    intros i Hlt. destruct (Nat.eq_dec i n) as [->|Hne].
    + split; intros Hlen; apply list_lookup_total_insert_eq; lia.
    + rewrite !list_lookup_total_insert_ne by lia. apply Hi. lia.
Qed.

Lemma MixBands_lookup (subL lowL midL highL subR lowR midR highR : list float)
    (outputL outputR : list float) (length i : nat) :
  (i < length)%nat ->
  ((i < List.length outputL)%nat ->
   fst (MixBands subL lowL midL highL subR lowR midR highR outputL outputR length) !!! i
   = (subL !!! i + lowL !!! i + midL !!! i + highL !!! i)%Qc) /\
  ((i < List.length outputR)%nat ->
   snd (MixBands subL lowL midL highL subR lowR midR highR outputL outputR length) !!! i
   = (subR !!! i + lowR !!! i + midR !!! i + highR !!! i)%Qc).
Proof.
  intros Hi. unfold MixBands.
  destruct (fill_loop_lookup
              (fun i => (subL !!! i + lowL !!! i + midL !!! i + highL !!! i)%Qc)
              (fun i => (subR !!! i + lowR !!! i + midR !!! i + highR !!! i)%Qc)
              outputL outputR length) as (_ & _ & Hfill).
  apply Hfill, Hi.
Qed.

Lemma ConvertToFloat_length (input : list Z) (outputL outputR : list float) (n : nat) :
  length (fst (ConvertToFloat input outputL outputR n)) = length outputL /\
  length (snd (ConvertToFloat input outputL outputR n)) = length outputR.
Proof.
  unfold ConvertToFloat. cbv zeta.
  destruct (fill_loop_lookup
              (fun i => (float_of_int (input !!! (2 * i)%nat)
                         * (lit 1 / float_of_int MAX_SAMPLE_VALUE))%Qc)
              (fun i => (float_of_int (input !!! (2 * i + 1)%nat)
                         * (lit 1 / float_of_int MAX_SAMPLE_VALUE))%Qc)
              outputL outputR n) as (Ha & Hb & _).
  split; assumption.
Qed.

(** One pass of the band loop leaves the buffers of the other bands and
    the scratch buffers alone. *)
Lemma AudioProcessing_band_frame (pSettings : SystemSettings_t) (n band : nat)
    (st : AudioState) :
  let st' := AudioProcessing_band pSettings n band st in
  length (bandBufferL st') = length (bandBufferL st) /\
  length (bandBufferR st') = length (bandBufferR st) /\
  tempBufferL st' = tempBufferL st /\ tempBufferR st' = tempBufferR st /\
  forall b, b <> band ->
    bandBufferL st' !!! b = bandBufferL st !!! b /\
    bandBufferR st' !!! b = bandBufferR st !!! b.
Proof.
  cbv zeta. unfold AudioProcessing_band.
  destruct (truthy (select_band band _ _ _ _ _)).
  - cbn. rewrite !length_insert. repeat split;
      rewrite list_lookup_total_insert_ne by congruence; reflexivity.
  - cbv zeta.
    destruct (if truthy (bc_enabled _) then _ else _) as [[[m1 l1] r1] amount].
    destruct (if truthy (bl_enabled _) then _ else _) as [[[m2 l2] r2] reduction].
    destruct (ext_Delay_Process _ _ _ _ _ _ _) as [[m3 l3] r3].
    cbn. rewrite !length_insert. repeat split;
      rewrite list_lookup_total_insert_ne by congruence; reflexivity.
Qed.

Lemma AudioProcessing_band_muted (pSettings : SystemSettings_t) (n band : nat)
    (st : AudioState) :
  band_muted pSettings band = true ->
  (band < length (bandBufferL st))%nat ->
  (band < length (bandBufferR st))%nat ->
  let st' := AudioProcessing_band pSettings n band st in
  bandBufferL st' !!! band = memset_zero (bandBufferL st !!! band) n /\
  bandBufferR st' !!! band = memset_zero (bandBufferR st !!! band) n.
Proof.
  unfold band_muted. intros Hm HL HR. cbv zeta. unfold AudioProcessing_band.
  rewrite Hm. cbn. split; now apply list_lookup_total_insert_eq.
Qed.

Lemma band_loop_muted (pSettings : SystemSettings_t) (n band i : nat)
    (st : AudioState) :
  (band < NUM_BANDS)%nat ->
  length (bandBufferL st) = NUM_BANDS -> length (bandBufferR st) = NUM_BANDS ->
  band_muted pSettings band = true ->
  (i < n)%nat ->
  let st' := for_loop NUM_BANDS (AudioProcessing_band pSettings n) st in
  (bandBufferL st' !!! band) !!! i = lit 0 /\
  (bandBufferR st' !!! band) !!! i = lit 0 /\
  tempBufferL st' = tempBufferL st /\ tempBufferR st' = tempBufferR st.
Proof.
  unfold NUM_BANDS. intros Hb HL HR Hm Hi. cbv zeta. cbn [for_loop].
  set (s0 := AudioProcessing_band pSettings n 0 st).
  set (s1 := AudioProcessing_band pSettings n 1 s0).
  set (s2 := AudioProcessing_band pSettings n 2 s1).
  set (s3 := AudioProcessing_band pSettings n 3 s2).
  destruct (AudioProcessing_band_frame pSettings n 0 st) as (L0 & R0 & TL0 & TR0 & O0).
  destruct (AudioProcessing_band_frame pSettings n 1 s0) as (L1 & R1 & TL1 & TR1 & O1).
  destruct (AudioProcessing_band_frame pSettings n 2 s1) as (L2 & R2 & TL2 & TR2 & O2).
  destruct (AudioProcessing_band_frame pSettings n 3 s2) as (L3 & R3 & TL3 & TR3 & O3).
  fold s0 in L0, R0, TL0, TR0, O0, L1, R1, TL1, TR1, O1.
  fold s1 in L1, R1, TL1, TR1, O1, L2, R2, TL2, TR2, O2.
  fold s2 in L2, R2, TL2, TR2, O2, L3, R3, TL3, TR3, O3.
  fold s3 in L3, R3, TL3, TR3, O3.
  assert (HT : tempBufferL s3 = tempBufferL st /\ tempBufferR s3 = tempBufferR st).
  { split; congruence. }
  destruct HT as [HTL HTR].
  destruct band as [|[|[|[|]]]]; try lia.
  - destruct (AudioProcessing_band_muted pSettings n 0 st Hm) as [ML MR]; try lia.
    fold s0 in ML, MR.
    destruct (O3 0%nat) as [A3 B3]; [lia|]. destruct (O2 0%nat) as [A2 B2]; [lia|].
    destruct (O1 0%nat) as [A1 B1]; [lia|].
    rewrite A3, A2, A1, ML, B3, B2, B1, MR.
    repeat split; try assumption; now apply memset_zero_lookup.
  - destruct (AudioProcessing_band_muted pSettings n 1 s0 Hm) as [ML MR]; try lia.
    fold s1 in ML, MR.
    destruct (O3 1%nat) as [A3 B3]; [lia|]. destruct (O2 1%nat) as [A2 B2]; [lia|].
    rewrite A3, A2, ML, B3, B2, MR.
    repeat split; try assumption; now apply memset_zero_lookup.
  - destruct (AudioProcessing_band_muted pSettings n 2 s1 Hm) as [ML MR]; try lia.
    fold s2 in ML, MR.
    destruct (O3 2%nat) as [A3 B3]; [lia|].
    rewrite A3, ML, B3, MR.
    repeat split; try assumption; now apply memset_zero_lookup.
  - destruct (AudioProcessing_band_muted pSettings n 3 s2 Hm) as [ML MR]; try lia.
    fold s3 in ML, MR.
    rewrite ML, MR.
    repeat split; try assumption; now apply memset_zero_lookup.
Qed.

(** C2.  A band whose mute flag is set is silent over the whole block.
    In [Crossover_Process] the band's sample is [0.0] in the internal band
    buffer and behind the band's output pointer, whatever the gain.  In
    [AudioProcessing_Process] the band's left and right buffers are zero
    after the band loop, whatever the gain, compressor, limiter and delay
    settings and whatever those stages do, and the mix is the sum of the
    four band buffers, to which the muted band therefore adds zero. *)
Theorem C2_muted_band_is_silent
    (xst : CrossoverState) (input : list float) (outs : CrossoverOutputs)
    (size : nat)
    (st : AudioState) (pInputBuffer pOutputBuffer : list Z)
    (pSettings : SystemSettings_t)
    (band i : nat) :
  (band < NUM_BANDS)%nat ->
  (let cf := crossoverFilters xst in
   let r := Crossover_Process xst input outs size in
   let buffer_of s :=
     select_band band (subBuffer s) (lowBuffer s) (midBuffer s) (highBuffer s) [] in
   let pointer_of o :=
     select_band band (subOut o) (lowOut o) (midOut o) (highOut o) None in
   truthy (select_band band (cf_subMute cf) (cf_lowMute cf)
             (cf_midMute cf) (cf_highMute cf) 0) = true ->
   (i < size)%nat ->
   ((i < length (buffer_of xst))%nat -> buffer_of (fst r) !!! i = lit 0) /\
   (forall l, pointer_of outs = Some l -> (i < length l)%nat ->
      exists l', pointer_of (snd r) = Some l' /\ l' !!! i = lit 0)) /\
  (let st' := fst (AudioProcessing_Process st pInputBuffer pOutputBuffer pSettings) in
   truthy (bypassEnabled st) = false ->
   band_muted pSettings band = true ->
   (i < AUDIO_BUFFER_SIZE / 2)%nat ->
   (bandBufferL st' !!! band) !!! i = lit 0 /\
   (bandBufferR st' !!! band) !!! i = lit 0 /\
   ((i < length (tempBufferL st))%nat ->
    tempBufferL st' !!! i
    = ((bandBufferL st' !!! 0%nat) !!! i + (bandBufferL st' !!! 1%nat) !!! i
       + (bandBufferL st' !!! 2%nat) !!! i + (bandBufferL st' !!! 3%nat) !!! i)%Qc) /\
   ((i < length (tempBufferR st))%nat ->
    tempBufferR st' !!! i
    = ((bandBufferR st' !!! 0%nat) !!! i + (bandBufferR st' !!! 1%nat) !!! i
       + (bandBufferR st' !!! 2%nat) !!! i + (bandBufferR st' !!! 3%nat) !!! i)%Qc)).
Proof.
  intros Hband. split.
  - intros cf r buffer_of pointer_of Hm Hi. subst cf r buffer_of pointer_of.
    unfold NUM_BANDS in Hband.
    destruct band as [|[|[|[|]]]]; try lia; cbn [select_band] in *.
    + destruct (muted_band_block cf_subMute subBuffer subOut input
                  (sub_sample_muted input) xst outs size Hm) as (_ & _ & Hb & Ho).
      split; [intros Hlen; now apply Hb|].
      intros l El Hlen. rewrite El in Ho. destruct Ho as (l' & E' & _ & Hz).
      exists l'. split; [exact E' | now apply Hz].
    + destruct (muted_band_block cf_lowMute lowBuffer lowOut input
                  (low_sample_muted input) xst outs size Hm) as (_ & _ & Hb & Ho).
      split; [intros Hlen; now apply Hb|].
      intros l El Hlen. rewrite El in Ho. destruct Ho as (l' & E' & _ & Hz).
      exists l'. split; [exact E' | now apply Hz].
    + destruct (muted_band_block cf_midMute midBuffer midOut input
                  (mid_sample_muted input) xst outs size Hm) as (_ & _ & Hb & Ho).
      split; [intros Hlen; now apply Hb|].
      intros l El Hlen. rewrite El in Ho. destruct Ho as (l' & E' & _ & Hz).
      exists l'. split; [exact E' | now apply Hz].
    + destruct (muted_band_block cf_highMute highBuffer highOut input
                  (high_sample_muted input) xst outs size Hm) as (_ & _ & Hb & Ho).
      split; [intros Hlen; now apply Hb|].
      intros l El Hlen. rewrite El in Ho. destruct Ho as (l' & E' & _ & Hz).
      exists l'. split; [exact E' | now apply Hz].
  - intros st' Hby Hm Hi. subst st'. unfold AudioProcessing_Process.
    destruct (HAL_GetTick (modules st)) as [m start]. rewrite Hby.
    pose proof (ConvertToFloat_length pInputBuffer (tempBufferL st) (tempBufferR st)
                  (AUDIO_BUFFER_SIZE / 2)) as [HlenL HlenR].
    destruct (ConvertToFloat pInputBuffer (tempBufferL st) (tempBufferR st)
                (AUDIO_BUFFER_SIZE / 2)) as [tempL tempR].
    cbn [fst snd] in HlenL, HlenR.
    destruct (ext_Crossover_Process _ _ _ _ _ _ _ _ _ _ _ _ _)
      as [m1 [[[[[[[subL subR] lowL] lowR] midL] midR] highL] highR]].
    match goal with
    | |- context [for_loop NUM_BANDS _ ?s] => set (st1 := s)
    end.
    destruct (band_loop_muted pSettings (AUDIO_BUFFER_SIZE / 2) band i st1
                Hband eq_refl eq_refl Hm Hi) as (ZL & ZR & TL & TR).
    set (st2 := for_loop NUM_BANDS
                  (AudioProcessing_band pSettings (AUDIO_BUFFER_SIZE / 2)) st1) in *.
    pose proof (MixBands_lookup
                  (bandBufferL st2 !!! 0%nat) (bandBufferL st2 !!! 1%nat)
                  (bandBufferL st2 !!! 2%nat) (bandBufferL st2 !!! 3%nat)
                  (bandBufferR st2 !!! 0%nat) (bandBufferR st2 !!! 1%nat)
                  (bandBufferR st2 !!! 2%nat) (bandBufferR st2 !!! 3%nat)
                  (tempBufferL st2) (tempBufferR st2) (AUDIO_BUFFER_SIZE / 2) i Hi)
      as [MixL MixR].
    destruct (MixBands _ _ _ _ _ _ _ _ _ _ _) as [mixL mixR].
    destruct (ConvertToInt16 _ _ _ _ _) as [output clips].
    destruct (HAL_GetTick (modules st2)) as [m2 stop].
    cbn [fst snd bandBufferL bandBufferR tempBufferL tempBufferR] in *.
    split; [exact ZL|]. split; [exact ZR|].
    rewrite TL in MixL. rewrite TR in MixR. subst st1.
    cbn [tempBufferL tempBufferR] in MixL, MixR.
    split; intros Hlen; [apply MixL | apply MixR]; lia.
Qed.

End AudioProcessingProperties.

(** Two clipped samples, one truncated and one exact, on top of a count of
    seven. *)
Lemma C6_clamp_and_clip_count_witness :
  snd (ConvertToInt16 [lit 2; lit 0.5] [lit (-3); lit (-1)] [0; 0; 0; 0] 2 7) = 9 /\
  fst (ConvertToInt16 [lit 2; lit 0.5] [lit (-3); lit (-1)] [0; 0; 0; 0] 2 7) !!! 2%nat
  = 16383 /\
  snd (clip_check (lit 40000) 7) = 8.
Proof.
  destruct (C6_clamp_and_clip_count [lit 2; lit 0.5] [lit (-3); lit (-1)]
              [0; 0; 0; 0] 2 7 1 (lit 40000) 7)
    as (_ & _ & Hone & _ & Hcnt & Hblk).
  split; [|split].
  - rewrite Hcnt; [reflexivity | lia | vm_compute; reflexivity].
  - destruct Hblk as (HL & _); [lia | simpl; lia |].
    etransitivity; [exact HL | reflexivity].
  - apply Hone; [lia | reflexivity].
Defined.


(** A request of 5 Hz and 30 kHz at 48 kHz is stored as it is, not as the
    nearest values inside [20 Hz, 24 kHz]. *)
Lemma C8_cutoff_clamped_counterexample :
  let cf := crossoverFilters
              (@Crossover_SetSettings libm_rational sample_crossover
                 out_of_range_settings) in
  cf_lowCutoff cf
  <> CLAMP (lowCutoff out_of_range_settings) (lit 20) (cf_sampleRate cf / lit 2)%Qc /\
  cf_highCutoff cf
  <> CLAMP (highCutoff out_of_range_settings) (lit 20) (cf_sampleRate cf / lit 2)%Qc.
Proof. cbv zeta. split; qc_decide. Qed.

(** The out-of-range request, on the crossover after start-up. *)
Lemma C8_cutoffs_stored_as_requested_witness :
  cf_lowCutoff (crossoverFilters
                  (@Crossover_SetSettings libm_rational sample_crossover
                     out_of_range_settings)) = lit 5 /\
  filters (subLowPass (crossoverFilters
                         (@Crossover_SetSettings libm_rational sample_crossover
                            out_of_range_settings))) !!! 0%nat
  = @CalculateButterworthCoefficients libm_rational (lit 48000) (lit 5) (lit 0.7071) 0
      (ResetFilter (filters (subLowPass (crossoverFilters sample_crossover)) !!! 0%nat)).
Proof.
  destruct (@C8_cutoffs_stored_as_requested libm_rational sample_crossover
              out_of_range_settings) as (Hlow & _ & _ & _ & Hdesign).
  split; [exact Hlow|].
  assert (Hlen : Forall (fun chain => length (filters chain) = 4%nat)
                   (crossover_chains (crossoverFilters sample_crossover))).
  { repeat (apply List.Forall_cons; [reflexivity|]). apply List.Forall_nil. }
  assert (Hd : (0 < @designed_stages
                       (crossoverFilters
                          (@Crossover_SetSettings libm_rational sample_crossover
                             out_of_range_settings)))%nat).
  { vm_compute. lia. }
  specialize (Hdesign Hlen Hd).
  apply Forall2_cons_1 in Hdesign. destruct Hdesign as [Hsub _].
  exact Hsub.
Defined.

Lemma select_band_1 {A : Type} (sub low mid high dflt : A) :
  select_band 1 sub low mid high dflt = low.
Proof. reflexivity. Qed.

(** The low band muted, in the crossover and in the pipeline. *)
Lemma C2_muted_band_is_silent_witness :
  lowBuffer (fst (Crossover_Process muted_crossover
                    [lit 1; lit 0.5] sample_outputs 2)) !!! 0%nat = lit 0 /\
  (bandBufferL (fst (@AudioProcessing_Process libm_rational Z passthrough_modules
                       sample_pipeline full_scale_block (replicate 256 0)
                       silent_settings)) !!! 1%nat) !!! 0%nat = lit 0.
Proof.
  assert (Hband : (1 < NUM_BANDS)%nat) by (unfold NUM_BANDS; lia).
  pose proof (@C2_muted_band_is_silent libm_rational Z passthrough_modules
                muted_crossover [lit 1; lit 0.5] sample_outputs 2
                sample_pipeline full_scale_block (replicate 256 0) silent_settings
                1 0 Hband) as HC.
  destruct HC as [Hx Hp]. split.
  - cbv zeta in Hx.
    assert (Hm : truthy (select_band 1
                           (cf_subMute (crossoverFilters muted_crossover))
                           (cf_lowMute (crossoverFilters muted_crossover))
                           (cf_midMute (crossoverFilters muted_crossover))
                           (cf_highMute (crossoverFilters muted_crossover)) 0) = true)
      by (vm_compute; reflexivity).
    destruct (Hx Hm ltac:(lia)) as [Hbuf _].
    rewrite !(select_band_1 (A := list float)) in Hbuf.
    apply Hbuf. vm_compute. lia.
  - cbv zeta in Hp.
    assert (Hb : truthy (bypassEnabled sample_pipeline) = false)
      by (vm_compute; reflexivity).
    assert (Hm : band_muted silent_settings 1 = true) by (vm_compute; reflexivity).
    assert (Hi : (0 < AUDIO_BUFFER_SIZE / 2)%nat) by (vm_compute; lia).
    destruct (Hp Hb Hm Hi) as (HL & _).
    exact HL.
Defined.

(** * Further properties of the code *)

(** ** Delay line: indices, whole-sample delays, settings *)

Lemma Delay_Process_frame_channel (d : Delay_t) (input out : list Z) (i ch : nat) :
  Delay_wf d -> (ch < DELAY_NUM_CHANNELS)%nat ->
  let r := Delay_Process_frame input i (d, out) in
  let x := input !!! (i * DELAY_NUM_CHANNELS + ch)%nat in
  let row := <[Z.to_nat (writeIndex d) := x]> (buffer d !!! ch) in
  let o := Delay_GetSample (set_buffer d (<[ch := row]> (buffer d))) ch (readIndex d !!! ch) in
  Delay_wf (fst r) /\
  writeIndex (fst r) = (writeIndex d + 1) mod DELAY_BUFFER_SIZE /\
  readIndex (fst r) !!! ch = (readIndex d !!! ch + 1) mod DELAY_BUFFER_SIZE /\
  buffer (fst r) !!! ch = row /\
  delaySamples (fst r) = delaySamples d /\
  phaseInvert (fst r) = phaseInvert d /\
  needsUpdate (fst r) = needsUpdate d /\
  length (snd r) = length out /\
  (forall k, (k < i * DELAY_NUM_CHANNELS \/ (i + 1) * DELAY_NUM_CHANNELS <= k)%nat ->
     snd r !!! k = out !!! k) /\
  ((i * DELAY_NUM_CHANNELS + ch < length out)%nat ->
   snd r !!! (i * DELAY_NUM_CHANNELS + ch)%nat
   = if truthy (phaseInvert d !!! ch) then to_int16 (- o) else o).
Proof.
  intros Hwf Hch r x row o.
  destruct Hwf as (Hw & Hlb & Hrows & Hlr & Hr & Hlp & Hls).
  destruct d as [b w rd p s u].
  cbn [writeIndex buffer readIndex phaseInvert delaySamples needsUpdate] in *.
  unfold DELAY_NUM_CHANNELS in *.
  destruct b as [|b0 [|b1 [|b2 [|b3 [|]]]]]; try discriminate.
  destruct rd as [|r0 [|r1 [|r2 [|r3 [|]]]]]; try discriminate.
  destruct p as [|p0 [|p1 [|p2 [|p3 [|]]]]]; try discriminate.
  destruct s as [|s0 [|s1 [|s2 [|s3 [|]]]]]; try discriminate.
  subst r.
  unfold Delay_Process_frame, DELAY_NUM_CHANNELS, Delay_Process_channel.
  cbn -[Delay_GetSample Z.rem Z.modulo to_int16 truthy Z.add Z.to_nat Nat.mul Nat.add Z.opp].
  assert (Hrem : forall z, 0 <= z < DELAY_BUFFER_SIZE ->
            Z.rem (z + 1) DELAY_BUFFER_SIZE = (z + 1) mod DELAY_BUFFER_SIZE).
  { intros z Hz. apply Z.rem_mod_nonneg; unfold DELAY_BUFFER_SIZE in *; lia. }
  assert (Hmod : forall z, 0 <= (z + 1) mod DELAY_BUFFER_SIZE < DELAY_BUFFER_SIZE).
  { intros z. apply Z.mod_pos_bound. unfold DELAY_BUFFER_SIZE. lia. }
  apply Forall_cons_iff in Hr as (Hr0 & Hr). apply Forall_cons_iff in Hr as (Hr1 & Hr).
  apply Forall_cons_iff in Hr as (Hr2 & Hr). apply Forall_cons_iff in Hr as (Hr3 & _).
  apply Forall_cons_iff in Hrows as (Hb0 & Hrows). apply Forall_cons_iff in Hrows as (Hb1 & Hrows).
  apply Forall_cons_iff in Hrows as (Hb2 & Hrows). apply Forall_cons_iff in Hrows as (Hb3 & _).
  rewrite !Hrem by assumption.
  split.
  { unfold Delay_wf. cbn -[Z.modulo Z.add Z.to_nat].
    split; [apply Hmod|]. split; [reflexivity|].
    split; [repeat (apply List.Forall_cons; [rewrite length_insert; assumption|]);
            apply List.Forall_nil|].
    split; [reflexivity|].
    split; [repeat (apply List.Forall_cons; [apply Hmod|]); apply List.Forall_nil|].
    split; reflexivity. }
  split; [reflexivity|].
  split; [destruct ch as [|[|[|[|]]]]; try lia; reflexivity|].
  split; [destruct ch as [|[|[|[|]]]]; try lia; reflexivity|].
  split; [reflexivity|]. split; [reflexivity|]. split; [reflexivity|].
  split; [now rewrite !length_insert|].
  split.
  { intros k Hk. unfold DELAY_NUM_CHANNELS in *.
    rewrite !list_lookup_total_insert_ne by lia. reflexivity. }
  intros Hlt. unfold DELAY_NUM_CHANNELS in *.
  destruct ch as [|[|[|[|]]]]; try lia.
  - rewrite !list_lookup_total_insert_ne by lia.
    rewrite list_lookup_total_insert_eq by lia. reflexivity.
  - rewrite !list_lookup_total_insert_ne by lia.
    rewrite list_lookup_total_insert_eq by (rewrite ?length_insert; lia). reflexivity.
  - rewrite !list_lookup_total_insert_ne by lia.
    rewrite list_lookup_total_insert_eq by (rewrite ?length_insert; lia). reflexivity.
  - rewrite list_lookup_total_insert_eq by (rewrite ?length_insert; lia). reflexivity.
Qed.

Lemma int_of_float_of_int (n : Z) : int_of_float (float_of_int n) = n.
Proof.
  unfold int_of_float, float_of_int. cbn.
  rewrite Qred_identity by (cbn; apply Z.gcd_1_r).
  cbn. apply Z.quot_1_r.
Qed.

Lemma Delay_GetSample_integer (d : Delay_t) (ch : nat) (n idx : Z) :
  delaySamples d !!! ch = float_of_int n ->
  Delay_GetSample d ch idx = buffer_at d ch idx.
Proof.
  intros Hs. unfold Delay_GetSample. rewrite Hs, int_of_float_of_int.
  replace (float_of_int n - float_of_int n)%Qc with (lit 0)
    by (symmetry; apply Qcplus_opp_r).
  reflexivity.
Qed.

Section IntegerDelay.
Variables (d : Delay_t) (ch : nat) (n a : Z) (input output : list Z).
Hypothesis Hwf : Delay_wf d.
Hypothesis Hch : (ch < DELAY_NUM_CHANNELS)%nat.
Hypothesis Hsamples : delaySamples d !!! ch = float_of_int n.
Hypothesis Haligned :
  readIndex d !!! ch = (writeIndex d - a) mod DELAY_BUFFER_SIZE.

Let w0 := writeIndex d.
Let row0 := buffer d !!! ch.
Let n' := a mod DELAY_BUFFER_SIZE.

(* the sample the line holds for frame [i] *)
Let val (i : nat) : Z :=
  if bool_decide (n' <= Z.of_nat i)
  then input !!! ((i - Z.to_nat n') * DELAY_NUM_CHANNELS + ch)%nat
  else row0 !!! Z.to_nat ((w0 + Z.of_nat i - n') mod DELAY_BUFFER_SIZE).

Let phase (v : Z) : Z :=
  if truthy (phaseInvert d !!! ch) then to_int16 (- v) else v.

Lemma Delay_Process_samples_integer (k : nat) :
  let r := Delay_Process_samples d input output k in
  Delay_wf (fst r) /\
  delaySamples (fst r) = delaySamples d /\
  phaseInvert (fst r) = phaseInvert d /\
  needsUpdate (fst r) = needsUpdate d /\
  writeIndex (fst r) = (w0 + Z.of_nat k) mod DELAY_BUFFER_SIZE /\
  readIndex (fst r) !!! ch = (w0 + Z.of_nat k - n') mod DELAY_BUFFER_SIZE /\
  (forall m, 1 <= m <= DELAY_BUFFER_SIZE ->
     (buffer (fst r) !!! ch) !!! Z.to_nat ((w0 + Z.of_nat k - m) mod DELAY_BUFFER_SIZE)
     = if bool_decide (m <= Z.of_nat k)
       then input !!! (Z.to_nat (Z.of_nat k - m) * DELAY_NUM_CHANNELS + ch)%nat
       else row0 !!! Z.to_nat ((w0 + Z.of_nat k - m) mod DELAY_BUFFER_SIZE)) /\
  length (snd r) = length output /\
  (forall j, (k * DELAY_NUM_CHANNELS <= j)%nat -> snd r !!! j = output !!! j) /\
  (forall i, (i < k)%nat -> (i * DELAY_NUM_CHANNELS + ch < length output)%nat ->
     snd r !!! (i * DELAY_NUM_CHANNELS + ch)%nat = phase (val i)).
Proof.
  pose proof Hwf as (Hw & Hlb & Hrows & Hlr & Hr & Hlp & Hls).
  unfold Delay_Process_samples. cbv zeta.
  induction k as [|k IH].
  - cbn [for_loop fst snd].
    split; [exact Hwf|]. repeat (split; [reflexivity|]).
    split. { fold w0. rewrite Z.add_0_r. symmetry. apply Z.mod_small. exact Hw. }
    split. { rewrite Haligned. fold w0. unfold n', DELAY_BUFFER_SIZE.
             rewrite Z.add_0_r. now rewrite Zminus_mod_idemp_r. }
    split. { intros m Hm. rewrite bool_decide_eq_false_2 by lia. reflexivity. }
    split; [reflexivity|]. split; [reflexivity|]. intros i Hi. lia.
  - cbn [for_loop].
    destruct (for_loop k (Delay_Process_frame input) (d, output)) as [dk outk] eqn:Ek.
    cbn [fst snd] in IH.
    destruct IH as (Hwfk & Hsk & Hpk & Huk & Hwk & Hrk & Hbuf & Hlen & Hout & Hval).
    destruct (Delay_Process_frame_channel dk input outk k ch Hwfk Hch)
      as (Hwf' & Hw' & Hr' & Hb' & Hs' & Hp' & Hu' & Hlen' & Hout' & Hval').
    destruct (Delay_Process_frame input k (dk, outk)) as [d' out'] eqn:E'.
    cbn [fst snd] in *.
    assert (Hcell : forall z, 0 <= z mod DELAY_BUFFER_SIZE < DELAY_BUFFER_SIZE).
    { intros z. apply Z.mod_pos_bound. unfold DELAY_BUFFER_SIZE. lia. }
    assert (Hrowlen : length (buffer dk !!! ch) = Z.to_nat DELAY_BUFFER_SIZE).
    { destruct Hwfk as (_ & Hlbk & Hrowsk & _).
      rewrite Forall_lookup in Hrowsk.
      destruct (lookup_lt_is_Some_2 (buffer dk) ch) as [rw Hrw]; [lia|].
      rewrite (list_lookup_total_correct _ _ _ Hrw). exact (Hrowsk _ _ Hrw). }
    assert (Hbuf' : forall m, 1 <= m <= DELAY_BUFFER_SIZE ->
      (buffer d' !!! ch) !!! Z.to_nat ((w0 + Z.of_nat (S k) - m) mod DELAY_BUFFER_SIZE)
      = if bool_decide (m <= Z.of_nat (S k))
        then input !!! (Z.to_nat (Z.of_nat (S k) - m) * DELAY_NUM_CHANNELS + ch)%nat
        else row0 !!! Z.to_nat ((w0 + Z.of_nat (S k) - m) mod DELAY_BUFFER_SIZE)).
    { intros m Hm. rewrite Hb', Hwk.
      destruct (decide (m = 1)) as [->|Hm1].
      - replace (w0 + Z.of_nat (S k) - 1) with (w0 + Z.of_nat k) by lia.
        rewrite list_lookup_total_insert_eq
          by (rewrite Hrowlen; pose proof (Hcell (w0 + Z.of_nat k)); lia).
        rewrite bool_decide_eq_true_2 by lia.
        f_equal. lia.
      - rewrite list_lookup_total_insert_ne.
        + replace (w0 + Z.of_nat (S k) - m) with (w0 + Z.of_nat k - (m - 1)) by lia.
          rewrite Hbuf by lia.
          destruct (decide (m - 1 <= Z.of_nat k)).
          * rewrite !bool_decide_eq_true_2 by lia. f_equal. lia.
          * rewrite !bool_decide_eq_false_2 by lia. reflexivity.
        + intros Heq. apply Z2Nat.inj in Heq; [| apply Hcell | apply Hcell].
          unfold DELAY_BUFFER_SIZE in *. revert Heq. clear -Hm Hm1.
          intros Heq. Z.div_mod_to_equations. lia. }
    split; [exact Hwf'|]. split; [congruence|]. split; [congruence|]. split; [congruence|].
    split. { rewrite Hw', Hwk. unfold DELAY_BUFFER_SIZE.
             rewrite Zplus_mod_idemp_l. f_equal. lia. }
    split. { rewrite Hr', Hrk. unfold DELAY_BUFFER_SIZE.
             rewrite Zplus_mod_idemp_l. f_equal. lia. }
    split; [exact Hbuf'|].
    split; [congruence|].
    split. { intros j Hj. rewrite Hout' by (unfold DELAY_NUM_CHANNELS in *; lia).
             apply Hout. unfold DELAY_NUM_CHANNELS in *; lia. }
    intros i Hi Hlt.
    destruct (decide (i = k)) as [->|Hik].
    + rewrite Hval' by lia.
      rewrite Delay_GetSample_integer with (n := n) by (cbn; congruence).
      unfold buffer_at. cbn [buffer set_buffer].
      rewrite list_lookup_total_insert_eq by (destruct Hwfk as (_ & Hlbk & _); lia).
      rewrite <- Hb'. rewrite Hrk.
      replace (w0 + Z.of_nat k - n') with (w0 + Z.of_nat (S k) - (n' + 1)) by lia.
      assert (Hn' : 0 <= n' < DELAY_BUFFER_SIZE) by apply Hcell.
      rewrite Hbuf' by lia.
      unfold phase, val. rewrite Hpk.
      replace (w0 + Z.of_nat (S k) - (n' + 1)) with (w0 + Z.of_nat k - n') by lia.
      destruct (decide (n' <= Z.of_nat k)).
      * rewrite !bool_decide_eq_true_2 by lia.
        replace (Z.to_nat (Z.of_nat (S k) - (n' + 1))) with (k - Z.to_nat n')%nat by lia.
        reflexivity.
      * rewrite !bool_decide_eq_false_2 by lia. reflexivity.
    + rewrite Hout' by (unfold DELAY_NUM_CHANNELS in *; lia).
      apply Hval; lia.
Qed.

End IntegerDelay.

Lemma updated_readIndex_range (w : Z) (samples : float) :
  0 <= updated_readIndex w samples < DELAY_BUFFER_SIZE.
Proof.
  unfold updated_readIndex. cbv zeta.
  set (r := w - int_of_float samples).
  destruct (wrap_readPos_spec (Z.to_nat (- r)) r) as (H0 & _ & _); [lia|].
  rewrite Z.rem_mod_nonneg by (unfold DELAY_BUFFER_SIZE; lia).
  pose proof (Z.mod_pos_bound (wrap_readPos (Z.to_nat (- r)) r) DELAY_BUFFER_SIZE) as Hb.
  unfold to_uint16. unfold DELAY_BUFFER_SIZE in *.
  rewrite Z.mod_small; lia.
Qed.

Lemma Delay_UpdateParameters_wf (d : Delay_t) :
  Delay_wf d -> Delay_wf (Delay_UpdateParameters d).
Proof.
  intros (Hw & Hlb & Hrows & Hlr & Hr & Hlp & Hls).
  destruct d as [b w rd p s u].
  cbn [writeIndex buffer readIndex phaseInvert delaySamples needsUpdate] in *.
  unfold DELAY_NUM_CHANNELS in *.
  destruct rd as [|r0 [|r1 [|r2 [|r3 [|]]]]]; try discriminate.
  unfold Delay_wf, Delay_UpdateParameters, DELAY_NUM_CHANNELS.
  cbn -[updated_readIndex].
  split; [assumption|]. split; [assumption|]. split; [assumption|].
  split; [reflexivity|].
  split; [|split; assumption].
  repeat (apply List.Forall_cons; [apply updated_readIndex_range|]). apply List.Forall_nil.
Qed.

Lemma Delay_Process_update_wf (d : Delay_t) :
  Delay_wf d -> Delay_wf (Delay_Process_update d).
Proof.
  intros Hwf. unfold Delay_Process_update.
  destruct (truthy (needsUpdate d)); [|exact Hwf].
  apply Delay_UpdateParameters_wf in Hwf. exact Hwf.
Qed.

Lemma Delay_SetDelayTime_wf (d : Delay_t) (ch : nat) (ms : float) :
  Delay_wf d -> Delay_wf (Delay_SetDelayTime d ch ms).
Proof.
  intros Hwf. unfold Delay_SetDelayTime.
  destruct (bool_decide _); [exact Hwf|].
  destruct Hwf as (Hw & Hlb & Hrows & Hlr & Hr & Hlp & Hls).
  unfold Delay_wf. cbn. rewrite length_insert. auto 10.
Qed.

Lemma Delay_SetPhaseInvert_wf (d : Delay_t) (ch : nat) (invert : Z) :
  Delay_wf d -> Delay_wf (Delay_SetPhaseInvert d ch invert).
Proof.
  intros Hwf. unfold Delay_SetPhaseInvert.
  destruct (bool_decide _); [exact Hwf|].
  destruct Hwf as (Hw & Hlb & Hrows & Hlr & Hr & Hlp & Hls).
  unfold Delay_wf. cbn. rewrite length_insert. auto 10.
Qed.

Lemma Delay_Reset_fields (d : Delay_t) :
  length (buffer d) = DELAY_NUM_CHANNELS ->
  length (readIndex d) = DELAY_NUM_CHANNELS ->
  buffer (Delay_Reset d)
  = replicate DELAY_NUM_CHANNELS (replicate (Z.to_nat DELAY_BUFFER_SIZE) 0) /\
  writeIndex (Delay_Reset d) = 0 /\
  readIndex (Delay_Reset d) = replicate DELAY_NUM_CHANNELS 0 /\
  phaseInvert (Delay_Reset d) = phaseInvert d /\
  delaySamples (Delay_Reset d) = delaySamples d /\
  needsUpdate (Delay_Reset d) = needsUpdate d.
Proof.
  intros Hlb Hlr. destruct d as [b w rd p s u].
  cbn [writeIndex buffer readIndex phaseInvert delaySamples needsUpdate] in *.
  unfold DELAY_NUM_CHANNELS in *.
  destruct b as [|b0 [|b1 [|b2 [|b3 [|]]]]]; try discriminate.
  destruct rd as [|r0 [|r1 [|r2 [|r3 [|]]]]]; try discriminate.
  unfold Delay_Reset, DELAY_NUM_CHANNELS.
  cbn -[replicate Z.to_nat]. repeat split; reflexivity.
Qed.

Lemma Delay_Reset_wf (d : Delay_t) : Delay_wf d -> Delay_wf (Delay_Reset d).
Proof.
  intros (Hw & Hlb & Hrows & Hlr & Hr & Hlp & Hls).
  destruct (Delay_Reset_fields d Hlb Hlr) as (Eb & Ew & Er & Ep & Es & Eu).
  unfold Delay_wf. rewrite Eb, Ew, Er, Ep, Es.
  unfold DELAY_NUM_CHANNELS, DELAY_BUFFER_SIZE in *.
  split; [lia|]. split; [reflexivity|].
  split. { apply Forall_replicate. apply length_replicate. }
  split; [reflexivity|].
  split. { apply Forall_replicate. lia. }
  split; assumption.
Qed.

Lemma Delay_Init_wf : Delay_wf Delay_Init.
Proof.
  unfold Delay_Init. apply Delay_Reset_wf.
  unfold Delay_wf, DELAY_NUM_CHANNELS, DELAY_BUFFER_SIZE. cbn -[replicate Z.to_nat].
  split; [lia|]. split; [reflexivity|].
  split. { repeat (apply List.Forall_cons; [apply length_replicate|]). apply List.Forall_nil. }
  split; [reflexivity|].
  split. { repeat (apply List.Forall_cons; [lia|]). apply List.Forall_nil. }
  split; reflexivity.
Qed.

Lemma Delay_Process_samples_wf (d : Delay_t) (input output : list Z) (size : nat) :
  Delay_wf d ->
  Delay_wf (fst (Delay_Process_samples d input output size)) /\
  length (snd (Delay_Process_samples d input output size)) = length output /\
  (forall j, (size * DELAY_NUM_CHANNELS <= j)%nat ->
     snd (Delay_Process_samples d input output size) !!! j = output !!! j).
Proof.
  intros Hwf. unfold Delay_Process_samples.
  induction size as [|k IH]; cbn [for_loop].
  - auto.
  - destruct (for_loop k _ _) as [dk outk]. cbn [fst snd] in IH.
    destruct IH as (Hwfk & Hlen & Hout).
    destruct (Delay_Process_frame_channel dk input outk k 0 Hwfk)
      as (Hwf' & _ & _ & _ & _ & _ & _ & Hlen' & Hout' & _);
      [unfold DELAY_NUM_CHANNELS; lia|].
    split; [exact Hwf'|]. split; [congruence|].
    intros j Hj. rewrite Hout' by (unfold DELAY_NUM_CHANNELS in *; lia).
    apply Hout. unfold DELAY_NUM_CHANNELS in *; lia.
Qed.

Lemma Delay_SetSettings_wf (d : Delay_t) (settings : option DelaySettings_t) :
  Delay_wf d -> Delay_wf (Delay_SetSettings d settings).
Proof.
  intros Hwf. destruct settings as [s|]; [|exact Hwf]. unfold Delay_SetSettings.
  apply Delay_UpdateParameters_wf.
  repeat apply Delay_SetPhaseInvert_wf. repeat apply Delay_SetDelayTime_wf. exact Hwf.
Qed.

(** X1.  The delay line never leaves its buffers.  After [Delay_Init] the write
    index and the four read indices lie in [0, DELAY_BUFFER_SIZE) and the
    four lines hold DELAY_BUFFER_SIZE samples each; [Delay_SetDelayTime],
    [Delay_SetPhaseInvert], [Delay_SetSettings], [Delay_Reset] and
    [Delay_Process] keep it so, and [Delay_Process] keeps the length of the
    output block and writes nothing at or beyond index [size * 4]. *)
Theorem Delay_indices_stay_in_range (d : Delay_t) :
  Delay_wf Delay_Init /\
  (Delay_wf d ->
   (forall ch ms, Delay_wf (Delay_SetDelayTime d ch ms)) /\
   (forall ch invert, Delay_wf (Delay_SetPhaseInvert d ch invert)) /\
   (forall settings, Delay_wf (Delay_SetSettings d settings)) /\
   Delay_wf (Delay_Reset d) /\
   (forall input output size,
      Delay_wf (fst (Delay_Process d input output size)) /\
      length (snd (Delay_Process d input output size)) = length output /\
      (forall j, (size * DELAY_NUM_CHANNELS <= j)%nat ->
         snd (Delay_Process d input output size) !!! j = output !!! j))).
Proof.
  split; [apply Delay_Init_wf|]. intros Hwf.
  split; [intros; now apply Delay_SetDelayTime_wf|].
  split; [intros; now apply Delay_SetPhaseInvert_wf|].
  split; [intros; now apply Delay_SetSettings_wf|].
  split; [now apply Delay_Reset_wf|].
  intros input output size. unfold Delay_Process.
  apply Delay_Process_samples_wf, Delay_Process_update_wf, Hwf.
Qed.

Lemma Qfloor_float_of_int (n : Z) : Qfloor (this (float_of_int n)) = n.
Proof.
  unfold float_of_int. cbn. rewrite Qred_identity by (cbn; apply Z.gcd_1_r).
  apply Qfloor_Z.
Qed.

Lemma float_of_int_nonneg (n : Z) : 0 <= n -> (0 <= float_of_int n)%Qc.
Proof.
  intros Hn. unfold float_of_int, Qcle. cbn.
  rewrite (Qred_identity (inject_Z n)) by (cbn; apply Z.gcd_1_r).
  unfold Qle. cbn. change (Qred 0) with 0%Q. cbn. lia.
Qed.

Lemma Delay_SetDelayTime_then_update (d : Delay_t) (ch : nat) (ms : float) (n : Z) :
  Delay_wf d -> (ch < DELAY_NUM_CHANNELS)%nat -> 0 <= n ->
  MS_TO_SAMPLES (CLAMP ms (lit 0) MAX_DELAY_MS) = float_of_int n ->
  let d2 := Delay_Process_update (Delay_SetDelayTime d ch ms) in
  Delay_wf d2 /\
  delaySamples d2 !!! ch = float_of_int n /\
  readIndex d2 !!! ch = (writeIndex d2 - n) mod DELAY_BUFFER_SIZE /\
  buffer d2 = buffer d /\ writeIndex d2 = writeIndex d /\
  phaseInvert d2 = phaseInvert d.
Proof.
  intros Hwf Hch Hn Hms d2.
  pose proof Hwf as (Hw & Hlb & Hrows & Hlr & Hr & Hlp & Hls).
  assert (Hd1 : Delay_SetDelayTime d ch ms
                = set_needsUpdate
                    (set_delaySamples d (<[ch := float_of_int n]> (delaySamples d))) 1).
  { unfold Delay_SetDelayTime. rewrite bool_decide_eq_false_2 by lia. now rewrite Hms. }
  assert (Hd2 : d2 = set_needsUpdate (Delay_UpdateParameters (Delay_SetDelayTime d ch ms)) 0).
  { unfold d2, Delay_Process_update. rewrite Hd1. reflexivity. }
  destruct (Delay_UpdateParameters_fields (Delay_SetDelayTime d ch ms)) as (Eb & Ew & Es & Ep).
  assert (Hs1 : delaySamples (Delay_SetDelayTime d ch ms) !!! ch = float_of_int n).
  { rewrite Hd1. cbn. apply list_lookup_total_insert_eq. lia. }
  split.
  { unfold d2. apply Delay_Process_update_wf, Delay_SetDelayTime_wf, Hwf. }
  rewrite Hd2. cbn [delaySamples readIndex writeIndex buffer phaseInvert set_needsUpdate].
  rewrite Eb, Ew, Es, Ep.
  split; [exact Hs1|].
  split.
  { rewrite Delay_UpdateParameters_readIndex; [| exact Hch | rewrite Hd1; exact Hlr].
    rewrite Hs1. rewrite updated_readIndex_formula by now apply float_of_int_nonneg.
    rewrite Qfloor_float_of_int. unfold DELAY_BUFFER_SIZE.
    replace (writeIndex (Delay_SetDelayTime d ch ms) - n + 4800)
      with (writeIndex (Delay_SetDelayTime d ch ms) - n + 1 * 4800) by lia.
    apply Z_mod_plus_full. }
  rewrite Hd1. cbn. auto.
Qed.

(** X2.  A whole number of samples of delay.  After [Delay_SetDelayTime] with a
    delay of [n] samples ([0 <= n < 4800]), the channel's output at frame
    [i] is its input of [n] frames earlier, and for the first [n] frames
    what the line held [n - i] samples behind the write index; with the
    phase flag set the value is negated in 16 bits. *)
Theorem Delay_line_delays_by_whole_samples
    (d : Delay_t) (ch : nat) (delayMs : float) (n : Z)
    (input output : list Z) (size i : nat) :
  Delay_wf d -> (ch < DELAY_NUM_CHANNELS)%nat ->
  0 <= n < DELAY_BUFFER_SIZE ->
  MS_TO_SAMPLES (CLAMP delayMs (lit 0) MAX_DELAY_MS) = float_of_int n ->
  (i < size)%nat -> (i * DELAY_NUM_CHANNELS + ch < length output)%nat ->
  let out := snd (Delay_Process (Delay_SetDelayTime d ch delayMs) input output size) in
  let v :=
    if bool_decide (n <= Z.of_nat i)
    then input !!! ((i - Z.to_nat n) * DELAY_NUM_CHANNELS + ch)%nat
    else buffer_at d ch ((writeIndex d + Z.of_nat i - n) mod DELAY_BUFFER_SIZE) in
  out !!! (i * DELAY_NUM_CHANNELS + ch)%nat
  = if truthy (phaseInvert d !!! ch) then to_int16 (- v) else v.
Proof.
  intros Hwf Hch Hn Hms Hi Hlen out v.
  destruct (Delay_SetDelayTime_then_update d ch delayMs n Hwf Hch ltac:(lia) Hms)
    as (Hwf2 & Hs2 & Hr2 & Hb2 & Hw2 & Hp2).
  destruct (Delay_Process_samples_integer _ ch n n input output Hwf2 Hch Hs2 Hr2 size)
    as (_ & _ & _ & _ & _ & _ & _ & _ & _ & Hval).
  unfold out, Delay_Process. rewrite (Hval i Hi Hlen).
  rewrite Hp2, Hb2, Hw2. rewrite (Z.mod_small n) by exact Hn. reflexivity.
Qed.

(** X3.  The largest delay is no delay.  A request of 100 ms or more is stored
    as 4800 samples, the length of the line; the read index then coincides
    with the write index and the channel's output is its current input
    (negated in 16 bits if the phase flag is set). *)
Theorem Delay_of_100_ms_is_no_delay
    (d : Delay_t) (ch : nat) (delayMs : float)
    (input output : list Z) (size i : nat) :
  Delay_wf d -> (ch < DELAY_NUM_CHANNELS)%nat ->
  (MAX_DELAY_MS <= delayMs)%Qc ->
  (i < size)%nat -> (i * DELAY_NUM_CHANNELS + ch < length output)%nat ->
  let d1 := Delay_SetDelayTime d ch delayMs in
  let v := input !!! (i * DELAY_NUM_CHANNELS + ch)%nat in
  delaySamples d1 !!! ch = float_of_int DELAY_BUFFER_SIZE /\
  snd (Delay_Process d1 input output size) !!! (i * DELAY_NUM_CHANNELS + ch)%nat
  = if truthy (phaseInvert d !!! ch) then to_int16 (- v) else v.
Proof.
  intros Hwf Hch Hms Hi Hlen d1 v.
  assert (Hclamp : CLAMP delayMs (lit 0) MAX_DELAY_MS = MAX_DELAY_MS).
  { unfold CLAMP, fgt, flt.
    destruct (bool_decide_reflect (MAX_DELAY_MS < delayMs)%Qc) as [Hgt|Hle]; [reflexivity|].
    assert (delayMs = MAX_DELAY_MS) as ->.
    { apply Qcle_antisym; [now apply Qcnot_lt_le | exact Hms]. }
    rewrite bool_decide_eq_false_2; [reflexivity|]. vm_compute. discriminate. }
  assert (Hsamp : MS_TO_SAMPLES (CLAMP delayMs (lit 0) MAX_DELAY_MS)
                  = float_of_int DELAY_BUFFER_SIZE).
  { rewrite Hclamp. vm_compute. reflexivity. }
  destruct (Delay_SetDelayTime_then_update d ch delayMs DELAY_BUFFER_SIZE Hwf Hch
              ltac:(unfold DELAY_BUFFER_SIZE; lia) Hsamp)
    as (Hwf2 & Hs2 & Hr2 & Hb2 & Hw2 & Hp2).
  split.
  { unfold d1, Delay_SetDelayTime. rewrite bool_decide_eq_false_2 by lia.
    rewrite Hsamp. cbn. apply list_lookup_total_insert_eq.
    destruct Hwf as (_ & _ & _ & _ & _ & _ & Hls). lia. }
  destruct (Delay_Process_samples_integer _ ch DELAY_BUFFER_SIZE DELAY_BUFFER_SIZE
              input output Hwf2 Hch Hs2 Hr2 size)
    as (_ & _ & _ & _ & _ & _ & _ & _ & _ & Hval).
  unfold d1, Delay_Process. rewrite (Hval i Hi Hlen). rewrite Hp2.
  rewrite Z.mod_same by (unfold DELAY_BUFFER_SIZE; lia).
  rewrite bool_decide_eq_true_2 by lia.
  replace (i - Z.to_nat 0)%nat with i by lia. reflexivity.
Qed.




Ltac wf_decide := unfold Delay_wf; apply (bool_decide_unpack _); vm_compute; exact I.

Lemma Delay_indices_stay_in_range_witness :
  Delay_wf (fst (Delay_Process Delay_Init [1; 2; 3; 4] [0; 0; 0; 0] 1)).
Proof.
  destruct (Delay_indices_stay_in_range Delay_Init) as (_ & H).
  assert (H0 : Delay_wf Delay_Init) by wf_decide.
  destruct (H H0) as (_ & _ & _ & _ & HP).
  exact (proj1 (HP [1; 2; 3; 4] [0; 0; 0; 0] 1%nat)).
Defined.

Lemma Delay_line_delays_by_whole_samples_witness :
  snd (Delay_Process (Delay_SetDelayTime Delay_Init 1 (lit (1 # 48)))
         [10; 11; 12; 13; 20; 21; 22; 23] [0; 0; 0; 0; 0; 0; 0; 0] 2) !!! 5%nat = 11.
Proof.
  assert (H0 : Delay_wf Delay_Init) by wf_decide.
  assert (H1 : (1 < DELAY_NUM_CHANNELS)%nat) by (unfold DELAY_NUM_CHANNELS; lia).
  assert (H2 : 0 <= 1 < DELAY_BUFFER_SIZE) by (unfold DELAY_BUFFER_SIZE; lia).
  assert (H3 : MS_TO_SAMPLES (CLAMP (lit (1 # 48)) (lit 0) MAX_DELAY_MS) = float_of_int 1)
    by (apply Qc_is_canon; vm_compute; reflexivity).
  assert (H4 : (1 < 2)%nat) by lia.
  assert (H5 : (1 * DELAY_NUM_CHANNELS + 1
                < length [0; 0; 0; 0; 0; 0; 0; 0])%nat) by (vm_compute; lia).
  exact (Delay_line_delays_by_whole_samples Delay_Init 1 (lit (1 # 48)) 1
           [10; 11; 12; 13; 20; 21; 22; 23] [0; 0; 0; 0; 0; 0; 0; 0] 2 1
           H0 H1 H2 H3 H4 H5).
Defined.

Lemma Delay_of_100_ms_is_no_delay_witness :
  snd (Delay_Process (Delay_SetDelayTime Delay_Init 2 (lit 250))
         [10; 11; 12; 13] [0; 0; 0; 0] 1) !!! 2%nat = 12.
Proof.
  assert (H0 : Delay_wf Delay_Init) by wf_decide.
  assert (H1 : (2 < DELAY_NUM_CHANNELS)%nat) by (unfold DELAY_NUM_CHANNELS; lia).
  assert (H2 : (MAX_DELAY_MS <= lit 250)%Qc) by (vm_compute; discriminate).
  assert (H3 : (0 < 1)%nat) by lia.
  assert (H4 : (0 * DELAY_NUM_CHANNELS + 2 < length [0; 0; 0; 0])%nat) by (vm_compute; lia).
  exact (proj2 (Delay_of_100_ms_is_no_delay Delay_Init 2 (lit 250)
                  [10; 11; 12; 13] [0; 0; 0; 0] 1 0 H0 H1 H2 H3 H4)).
Defined.



(** ** Crossover network: processing *)

Section CrossoverRunsProperties.
Context `{Libm}.
Local Open Scope Qc_scope.










Lemma ProcessFilterChain_same_design (c : FilterChain_t) (x : float) :
  same_design (fst (ProcessFilterChain c x)) c.
Proof.
  unfold ProcessFilterChain.
  induction (Z.to_nat (filterCount c)) as [|n IH]; cbn [for_loop].
  - cbn [fst]. repeat split.
  - destruct (for_loop n _ (c, x)) as [k o]. cbn [fst] in IH.
    destruct IH as (Hc & Hl & Hco).
    destruct (ProcessBiquad (filters k !!! n) o) as [g r] eqn:Eg.
    cbn [fst]. unfold same_design, update_filter. cbn [filters filterCount].
    rewrite length_insert. split; [exact Hc|]. split; [exact Hl|].
    intros j. destruct (decide (j = n)) as [->|Hne].
    + destruct (decide (n < length (filters k))%nat).
      * rewrite list_lookup_total_insert_eq by lia. rewrite <- Hco.
        unfold ProcessBiquad in Eg. injection Eg as <- _. reflexivity.
      * rewrite list_insert_ge by lia. apply Hco.
    + rewrite list_lookup_total_insert_ne by congruence. apply Hco.
Qed.

Lemma same_design_trans (c1 c2 c3 : FilterChain_t) :
  same_design c1 c2 -> same_design c2 c3 -> same_design c1 c3.
Proof.
  intros (A1 & A2 & A3) (B1 & B2 & B3). split; [congruence|]. split; [congruence|].
  intros j. now rewrite A3.
Qed.

Lemma ProcessFilterChain_passthrough (c : FilterChain_t) (x : float) :
  filterCount c = 0%Z -> ProcessFilterChain c x = (c, x).
Proof. intros Hc. unfold ProcessFilterChain. rewrite Hc. reflexivity. Qed.

Lemma Forall2_compose {A : Type} (R1 R2 R3 : A -> A -> Prop) (l1 l2 l3 : list A) :
  (forall x y z, R1 x y -> R2 y z -> R3 x z) ->
  Forall2 R1 l1 l2 -> Forall2 R2 l2 l3 -> Forall2 R3 l1 l3.
Proof.
  intros HR H12. revert l3. induction H12 as [|x y l1 l2 Hxy _ IH]; intros l3 H23.
  - inversion H23. constructor.
  - inversion H23 as [|y' z l2' l3' Hyz Hrest]; subst. constructor; eauto.
Qed.

Lemma buffer_kept_insert (i : nat) (x : float) (b0 : list float) :
  buffer_kept (S i) (<[i := x]> b0) b0.
Proof.
  split; [apply length_insert|]. intros j Hj. apply list_lookup_total_insert_ne. lia.
Qed.

Lemma buffer_kept_step (k : nat) (b2 b1 b0 : list float) :
  buffer_kept (S k) b2 b1 -> buffer_kept k b1 b0 -> buffer_kept (S k) b2 b0.
Proof.
  intros (L2 & H2) (L1 & H1). split; [congruence|].
  intros j Hj. rewrite H2 by lia. apply H1. lia.
Qed.

Lemma pointer_kept_step (k : nat) (p2 p1 p0 : option (list float)) :
  pointer_kept (S k) p2 p1 -> pointer_kept k p1 p0 -> pointer_kept (S k) p2 p0.
Proof.
  destruct p2, p1, p0; cbn; try tauto. apply buffer_kept_step.
Qed.

Lemma Crossover_Process_sample_kept (input : list float) (i : nat)
    (s : CrossoverState * CrossoverOutputs) :
  process_kept (S i) (Crossover_Process_sample input i s) s.
Proof.
  destruct s as [st outs]. unfold Crossover_Process_sample.
  set (cf := crossoverFilters st).
  pose proof (ProcessFilterChain_same_design (subLowPass cf) (input !!! i)) as D1.
  destruct (ProcessFilterChain (subLowPass cf) (input !!! i)) as [c1 q1].
  pose proof (ProcessFilterChain_same_design (lowHighPass cf) (input !!! i)) as D2.
  destruct (ProcessFilterChain (lowHighPass cf) (input !!! i)) as [c2 q2].
  pose proof (ProcessFilterChain_same_design (lowLowPass cf) q2) as D3.
  destruct (ProcessFilterChain (lowLowPass cf) q2) as [c3 q3].
  pose proof (ProcessFilterChain_same_design (midHighPass cf) (input !!! i)) as D4.
  destruct (ProcessFilterChain (midHighPass cf) (input !!! i)) as [c4 q4].
  pose proof (ProcessFilterChain_same_design (midLowPass cf) q4) as D5.
  destruct (ProcessFilterChain (midLowPass cf) q4) as [c5 q5].
  pose proof (ProcessFilterChain_same_design (highHighPass cf) (input !!! i)) as D6.
  destruct (ProcessFilterChain (highHighPass cf) (input !!! i)) as [c6 q6].
  cbn [fst snd] in *. unfold process_kept. cbn [fst snd].
  split; [reflexivity|]. split; [reflexivity|]. split; [reflexivity|].
  split.
  { unfold crossover_chains.
    cbn [crossoverFilters set_chains subLowPass lowLowPass lowHighPass midLowPass
         midHighPass highHighPass].
    repeat (apply List.Forall2_cons; [assumption|]). apply List.Forall2_nil. }
  split.
  { unfold band_buffers. cbn [subBuffer lowBuffer midBuffer highBuffer].
    repeat (apply List.Forall2_cons; [apply buffer_kept_insert|]).
    apply List.Forall2_nil. }
  unfold output_pointers. cbn [subOut lowOut midOut highOut mixOut].
  repeat (apply List.Forall2_cons;
          [match goal with
           | |- context [store_if_present ?p _ _] =>
               destruct p; cbn [store_if_present pointer_kept];
               [apply buffer_kept_insert | exact I]
           end|]).
  apply List.Forall2_nil.
Qed.

Lemma process_kept_refl (s : CrossoverState * CrossoverOutputs) : process_kept 0 s s.
Proof.
  unfold process_kept. repeat (split; [reflexivity|]).
  split; [|split].
  - unfold crossover_chains.
    repeat (apply List.Forall2_cons; [repeat split|]). apply List.Forall2_nil.
  - unfold band_buffers.
    repeat (apply List.Forall2_cons; [split; [reflexivity | intros; reflexivity]|]).
    apply List.Forall2_nil.
  - unfold output_pointers.
    repeat (apply List.Forall2_cons;
            [match goal with
             | |- pointer_kept _ ?p ?p =>
                 destruct p; cbn; [split; [reflexivity | intros; reflexivity] | exact I]
             end|]).
    apply List.Forall2_nil.
Qed.

(** X7.  Processing a block changes only filter memories and the first [size]
    entries of the buffers.  [Crossover_Process] leaves the stored settings,
    the gains and mute flags, the cutoffs, filter type, order and sample
    rate, and the stage count and coefficients of all six chains as they
    were; every band buffer and every output buffer keeps its length and its
    entries from index [size] on; a null output pointer stays null. *)
Theorem Crossover_Process_keeps_configuration (st : CrossoverState)
    (input : list float) (outs : CrossoverOutputs) (size : nat) :
  let st' := fst (Crossover_Process st input outs size) in
  let outs' := snd (Crossover_Process st input outs size) in
  currentSettings st' = currentSettings st /\
  band_controls (crossoverFilters st') = band_controls (crossoverFilters st) /\
  bank_design (crossoverFilters st') = bank_design (crossoverFilters st) /\
  Forall2 same_design (crossover_chains (crossoverFilters st'))
    (crossover_chains (crossoverFilters st)) /\
  Forall2 (buffer_kept size) (band_buffers st') (band_buffers st) /\
  Forall2 (pointer_kept size) (output_pointers outs') (output_pointers outs).
Proof.
  cbv zeta.
  change (process_kept size (Crossover_Process st input outs size) (st, outs)).
  unfold Crossover_Process.
  apply (for_loop_inv (fun k s => process_kept k s (st, outs))).
  - apply process_kept_refl.
  - intros i s _ (K1 & K2 & K3 & K4 & K5 & K6).
    destruct (Crossover_Process_sample_kept input i s) as (S1 & S2 & S3 & S4 & S5 & S6).
    unfold process_kept.
    split; [congruence|]. split; [congruence|]. split; [congruence|].
    split; [exact (Forall2_compose _ _ _ _ _ _ same_design_trans S4 K4)|].
    split; [exact (Forall2_compose _ _ _ _ _ _ (buffer_kept_step i) S5 K5)|].
    exact (Forall2_compose _ _ _ _ _ _ (pointer_kept_step i) S6 K6).
Qed.

Lemma Butterworth_keeps_memory (fs cutoff q : float) (type : Z) (f : BiquadFilter_t) :
  let f' := CalculateButterworthCoefficients fs cutoff q type f in
  x1 f' = x1 f /\ x2 f' = x2 f /\ y1 f' = y1 f /\ y2 f' = y2 f /\ a0 f' = a0 f.
Proof.
  cbv zeta. unfold CalculateButterworthCoefficients.
  destruct (type =? 0)%Z; cbn; repeat split.
Qed.

Lemma designed_chain_at_rest (n : nat) (fs cutoff : float) (q : nat -> float) (type : Z)
    (chain : FilterChain_t) (i : nat) :
  length (filters chain) = 4%nat ->
  let chain' :=
    design_chain n (fun j => CalculateButterworthCoefficients fs cutoff (q j) type)
      (design_chain 4 (fun _ => ResetFilter) chain) in
  length (filters chain') = 4%nat /\
  x1 (filters chain' !!! i) = lit 0 /\ x2 (filters chain' !!! i) = lit 0 /\
  y1 (filters chain' !!! i) = lit 0 /\ y2 (filters chain' !!! i) = lit 0.
Proof.
  intros Hlen chain'.
  assert (Hl' : length (filters chain') = 4%nat).
  { unfold chain'.
    destruct (design_chain_stage n
                (fun j => CalculateButterworthCoefficients fs cutoff (q j) type)
                (design_chain 4 (fun _ => ResetFilter) chain)) as (_ & -> & _).
    destruct (design_chain_stage 4 (fun _ => ResetFilter) chain) as (_ & -> & _).
    exact Hlen. }
  split; [exact Hl'|].
  destruct (decide (i < 4)%nat) as [Hi|Hi].
  - unfold chain'. rewrite designed_stage by assumption.
    destruct (decide (i < n)%nat).
    + destruct (Butterworth_keeps_memory fs cutoff (q i) type
                  (ResetFilter (filters chain !!! i))) as (-> & -> & -> & -> & _).
      repeat split.
    + repeat split.
  - rewrite list_lookup_total_alt, lookup_ge_None_2 by lia. repeat split.
Qed.

Lemma CalculateFilterCoefficients_at_rest (st : CrossoverState) :
  Forall (fun chain => length (filters chain) = 4%nat)
         (crossover_chains (crossoverFilters st)) ->
  let st' := CalculateFilterCoefficients st in
  filters_at_rest (crossoverFilters st') /\
  Forall (fun chain => length (filters chain) = 4%nat)
         (crossover_chains (crossoverFilters st')) /\
  band_buffers st' = replicate 4 (replicate AUDIO_BUFFER_SIZE (lit 0)) /\
  band_controls (crossoverFilters st') = band_controls (crossoverFilters st) /\
  bank_design (crossoverFilters st') = bank_design (crossoverFilters st) /\
  Forall2 (fun c' c => filterCount c' = filterCount c)
    (crossover_chains (crossoverFilters st')) (crossover_chains (crossoverFilters st)).
Proof.
  intros Hlen st'. unfold crossover_chains in Hlen.
  rewrite !Forall_cons_iff in Hlen.
  destruct Hlen as (L1 & L2 & L3 & L4 & L5 & L6 & _).
  destruct (CalculateFilterCoefficients_chains st) as [E _]. cbv zeta in E.
  fold st' in E.
  assert (Hbuf : band_buffers st' = replicate 4 (replicate AUDIO_BUFFER_SIZE (lit 0))).
  { unfold st', CalculateFilterCoefficients, band_buffers. cbv zeta.
    unfold set_crossoverFilters, ResetAllFilters.
    cbn [subBuffer lowBuffer midBuffer highBuffer]. reflexivity. }
  unfold filters_at_rest, crossover_chains. rewrite E.
  cbn [set_chains subLowPass lowLowPass lowHighPass midLowPass midHighPass highHighPass].
  split.
  { repeat (apply List.Forall_cons;
            [intros i; apply designed_chain_at_rest; assumption|]).
    apply List.Forall_nil. }
  split.
  { repeat (apply List.Forall_cons;
            [apply (designed_chain_at_rest _ _ _ _ _ _ 0%nat); assumption|]).
    apply List.Forall_nil. }
  split; [exact Hbuf|]. split; [reflexivity|]. split; [reflexivity|].
  repeat (apply List.Forall2_cons; [now rewrite !design_chain_count|]).
  apply List.Forall2_nil.
Qed.

Lemma ResetAllFilters_lengths (st : CrossoverState) :
  Forall (fun chain => length (filters chain) = 4%nat)
         (crossover_chains (crossoverFilters st)) ->
  Forall (fun chain => length (filters chain) = 4%nat)
         (crossover_chains (crossoverFilters (ResetAllFilters st))).
Proof.
  intros Hlen. unfold crossover_chains in *. rewrite !Forall_cons_iff in Hlen.
  destruct Hlen as (L1 & L2 & L3 & L4 & L5 & L6 & _).
  rewrite ResetAllFilters_chains. cbv zeta.
  cbn [set_chains subLowPass lowLowPass lowHighPass midLowPass midHighPass highHighPass].
  repeat (apply List.Forall_cons;
          [match goal with
           | |- length (filters (design_chain ?n ?d ?c)) = _ =>
               destruct (design_chain_stage n d c) as (_ & -> & _); assumption
           end|]).
  apply List.Forall_nil.
Qed.

Lemma CalculateFilterCoefficients_cleared (s : CrossoverState) :
  Forall (fun chain => length (filters chain) = 4%nat)
         (crossover_chains (crossoverFilters s)) ->
  filters_at_rest (crossoverFilters (CalculateFilterCoefficients s)) /\
  band_buffers (CalculateFilterCoefficients s)
  = replicate 4 (replicate AUDIO_BUFFER_SIZE (lit 0)) /\
  Forall (fun chain => length (filters chain) = 4%nat)
         (crossover_chains (crossoverFilters (CalculateFilterCoefficients s))).
Proof.
  intros Hs. destruct (CalculateFilterCoefficients_at_rest s Hs) as (R & Ls & B & _).
  auto.
Qed.

Lemma Crossover_Init_cleared (st : CrossoverState) :
  Forall (fun chain => length (filters chain) = 4%nat)
         (crossover_chains (crossoverFilters st)) ->
  filters_at_rest (crossoverFilters (Crossover_Init st)) /\
  band_buffers (Crossover_Init st) = replicate 4 (replicate AUDIO_BUFFER_SIZE (lit 0)) /\
  Forall (fun chain => length (filters chain) = 4%nat)
         (crossover_chains (crossoverFilters (Crossover_Init st))).
Proof.
  intros Hlen.
  assert (Hlen' := Hlen). unfold crossover_chains in Hlen'.
  rewrite !Forall_cons_iff in Hlen'.
  destruct Hlen' as (L1 & L2 & L3 & L4 & L5 & L6 & _).
  unfold Crossover_Init. cbv zeta.
  match goal with
  | |- context [CalculateFilterCoefficients ?s] => set (s0 := s)
  end.
  destruct (CalculateFilterCoefficients_cleared s0) as (R & B & Ls).
  { apply ResetAllFilters_lengths. unfold crossover_chains.
    cbn [crossoverFilters set_crossoverFilters subLowPass lowLowPass lowHighPass
         midLowPass midHighPass highHighPass set_filterCount filters].
    repeat (apply List.Forall_cons; [assumption|]). apply List.Forall_nil. }
  set (s1 := CalculateFilterCoefficients s0) in *.
  cbn [crossoverFilters]. unfold band_buffers in *.
  cbn [subBuffer lowBuffer midBuffer highBuffer].
  split; [exact R|]. split; [exact B | exact Ls].
Qed.

(** X8.  Every reconfiguration empties the filter memories.  After
    [Crossover_SetSettings], [Crossover_SetSampleRate] or [Crossover_Init]
    (on chains of four sections, as declared), every section of every chain
    has all four delay elements at zero, the four band buffers hold zeros,
    and the chains still have four sections. *)
Theorem Crossover_reconfiguration_clears_memory (st : CrossoverState)
    (settings : CrossoverSettings_t) (sampleRate : float) :
  Forall (fun chain => length (filters chain) = 4%nat)
         (crossover_chains (crossoverFilters st)) ->
  Forall (fun st' =>
            filters_at_rest (crossoverFilters st') /\
            band_buffers st' = replicate 4 (replicate AUDIO_BUFFER_SIZE (lit 0)) /\
            Forall (fun chain => length (filters chain) = 4%nat)
                   (crossover_chains (crossoverFilters st')))
    [Crossover_SetSettings st settings; Crossover_SetSampleRate st sampleRate;
     Crossover_Init st].
Proof.
  intros Hlen.
  assert (Hlen' := Hlen). unfold crossover_chains in Hlen'.
  rewrite !Forall_cons_iff in Hlen'.
  destruct Hlen' as (L1 & L2 & L3 & L4 & L5 & L6 & _).
  apply List.Forall_cons; [|apply List.Forall_cons; [|apply List.Forall_cons; [|apply List.Forall_nil]]].
  - unfold Crossover_SetSettings. cbv zeta. apply CalculateFilterCoefficients_cleared.
    unfold crossover_chains.
    cbn [crossoverFilters set_crossoverFilters subLowPass lowLowPass lowHighPass
         midLowPass midHighPass highHighPass set_filterCount filters].
    repeat (apply List.Forall_cons; [assumption|]). apply List.Forall_nil.
  - unfold Crossover_SetSampleRate. cbv zeta. apply CalculateFilterCoefficients_cleared.
    unfold crossover_chains.
    cbn [crossoverFilters set_crossoverFilters subLowPass lowLowPass lowHighPass
         midLowPass midHighPass highHighPass set_filterCount filters].
    repeat (apply List.Forall_cons; [assumption|]). apply List.Forall_nil.
  - now apply Crossover_Init_cleared.
Qed.

Lemma Crossover_SetSettings_controls (st : CrossoverState) (settings : CrossoverSettings_t) :
  let st' := Crossover_SetSettings st settings in
  band_controls (crossoverFilters st')
  = ([DB_TO_LINEAR (subGain settings); DB_TO_LINEAR (lowGain settings);
      DB_TO_LINEAR (midGain settings); DB_TO_LINEAR (highGain settings)],
     [subMute settings; lowMute settings; midMute settings; highMute settings]) /\
  Forall (fun chain => filterCount chain = Z.quot (filterOrder settings) 2)
         (crossover_chains (crossoverFilters st')) /\
  Forall (fun buf => buf = replicate AUDIO_BUFFER_SIZE (lit 0)) (band_buffers st').
Proof.
  cbv zeta. unfold Crossover_SetSettings. cbv zeta.
  match goal with
  | |- context [CalculateFilterCoefficients ?s] =>
      set (s0 := s); destruct (CalculateFilterCoefficients_chains s0) as [E _]
  end.
  cbv zeta in E.
  split; [|split].
  - unfold band_controls. rewrite E. reflexivity.
  - unfold crossover_chains. rewrite E.
    cbn [set_chains subLowPass lowLowPass lowHighPass midLowPass midHighPass highHighPass].
    repeat (apply List.Forall_cons; [rewrite !design_chain_count; reflexivity|]).
    apply List.Forall_nil.
  - unfold CalculateFilterCoefficients, band_buffers. cbv zeta.
    unfold set_crossoverFilters, ResetAllFilters.
    cbn [subBuffer lowBuffer midBuffer highBuffer].
    repeat (apply List.Forall_cons; [reflexivity|]). apply List.Forall_nil.
Qed.

Lemma Crossover_Process_sample_unfiltered (input : list float) (i : nat)
    (st : CrossoverState) (outs : CrossoverOutputs) :
  Forall (fun chain => filterCount chain = 0%Z) (crossover_chains (crossoverFilters st)) ->
  let st' := fst (Crossover_Process_sample input i (st, outs)) in
  let cf := crossoverFilters st in
  let x := input !!! i in
  crossoverFilters st' = cf /\
  subBuffer st' = <[i := if truthy (cf_subMute cf) then lit 0 else x * cf_subGain cf]> (subBuffer st) /\
  lowBuffer st' = <[i := if truthy (cf_lowMute cf) then lit 0 else x * cf_lowGain cf]> (lowBuffer st) /\
  midBuffer st' = <[i := if truthy (cf_midMute cf) then lit 0 else x * cf_midGain cf]> (midBuffer st) /\
  highBuffer st' = <[i := if truthy (cf_highMute cf) then lit 0 else x * cf_highGain cf]> (highBuffer st).
Proof.
  intros Hc. unfold crossover_chains in Hc. rewrite !Forall_cons_iff in Hc.
  destruct Hc as (C1 & C2 & C3 & C4 & C5 & C6 & _).
  cbv zeta. unfold Crossover_Process_sample.
  rewrite !ProcessFilterChain_passthrough by assumption.
  cbn [fst crossoverFilters subBuffer lowBuffer midBuffer highBuffer].
  destruct (crossoverFilters st). cbn. repeat split.
Qed.

(** X9.  With a filter order of 0 or 1 the crossover does not filter.  After
    [Crossover_SetSettings] with such an order no chain runs a section, so
    every band buffer holds, at each processed index, the input sample times
    the band's linear gain, or 0 if the band is muted. *)
Theorem Crossover_order_below_two_does_not_filter (st : CrossoverState)
    (settings : CrossoverSettings_t) (input : list float) (outs : CrossoverOutputs)
    (size i : nat) :
  (filterOrder settings = 0 \/ filterOrder settings = 1)%Z ->
  (i < size)%nat -> (i < AUDIO_BUFFER_SIZE)%nat ->
  let st' := fst (Crossover_Process (Crossover_SetSettings st settings) input outs size) in
  let band mute gain :=
    if truthy mute then lit 0 else input !!! i * DB_TO_LINEAR gain in
  subBuffer st' !!! i = band (subMute settings) (subGain settings) /\
  lowBuffer st' !!! i = band (lowMute settings) (lowGain settings) /\
  midBuffer st' !!! i = band (midMute settings) (midGain settings) /\
  highBuffer st' !!! i = band (highMute settings) (highGain settings).
Proof.
  intros Hord Hi Hi' st' band.
  destruct (Crossover_SetSettings_controls st settings) as (Hctl & Hcnt & Hbuf).
  cbv zeta in Hctl, Hcnt, Hbuf. subst st'.
  remember (Crossover_SetSettings st settings) as s0 eqn:Es0. clear Es0.
  assert (Hq : Z.quot (filterOrder settings) 2 = 0%Z).
  { destruct Hord as [-> | ->]; reflexivity. }
  rewrite Hq in Hcnt.
  unfold band_controls in Hctl. injection Hctl as Gs Gl Gm Gh Ms Ml Mm Mh.
  unfold band_buffers in Hbuf. rewrite !Forall_cons_iff in Hbuf.
  destruct Hbuf as (Bs & Bl & Bm & Bh & _).
  set (P := fun (k : nat) (s : CrossoverState * CrossoverOutputs) =>
    crossoverFilters (fst s) = crossoverFilters s0 /\
    (length (subBuffer (fst s)) = AUDIO_BUFFER_SIZE /\
     length (lowBuffer (fst s)) = AUDIO_BUFFER_SIZE /\
     length (midBuffer (fst s)) = AUDIO_BUFFER_SIZE /\
     length (highBuffer (fst s)) = AUDIO_BUFFER_SIZE) /\
    forall j, (j < k)%nat -> (j < AUDIO_BUFFER_SIZE)%nat ->
      subBuffer (fst s) !!! j
      = (if truthy (subMute settings) then lit 0
         else input !!! j * DB_TO_LINEAR (subGain settings)) /\
      lowBuffer (fst s) !!! j
      = (if truthy (lowMute settings) then lit 0
         else input !!! j * DB_TO_LINEAR (lowGain settings)) /\
      midBuffer (fst s) !!! j
      = (if truthy (midMute settings) then lit 0
         else input !!! j * DB_TO_LINEAR (midGain settings)) /\
      highBuffer (fst s) !!! j
      = (if truthy (highMute settings) then lit 0
         else input !!! j * DB_TO_LINEAR (highGain settings))).
  assert (HP : P size (Crossover_Process s0 input outs size)).
  { unfold Crossover_Process. apply (for_loop_inv P).
    - unfold P. cbn [fst]. split; [reflexivity|].
      split; [rewrite Bs, Bl, Bm, Bh, !length_replicate; auto|].
      intros j Hj. lia.
    - intros k [sk ok] _ (Ecf & (Ls & Ll & Lm & Lh) & Hval). cbn [fst] in *.
      destruct (Crossover_Process_sample_unfiltered input k sk ok)
        as (Ecf' & Es & El & Em & Eh); [rewrite Ecf; exact Hcnt|].
      cbv zeta in Ecf', Es, El, Em, Eh. unfold P.
      rewrite Ecf', Es, El, Em, Eh, Ecf, !length_insert.
      split; [reflexivity|]. split; [auto|].
      intros j Hj Hj'. destruct (decide (j = k)) as [->|Hne].
      + rewrite !list_lookup_total_insert_eq by lia.
        rewrite Gs, Gl, Gm, Gh, Ms, Ml, Mm, Mh. auto.
      + rewrite !list_lookup_total_insert_ne by congruence. apply Hval; lia. }
  destruct HP as (_ & _ & Hval). exact (Hval i Hi Hi').
Qed.

Lemma float_of_int_lt_l (z : Z) (x : float) :
  (float_of_int z < x)%Qc <-> (z * Z.pos (Qden (this x)) < Qnum (this x))%Z.
Proof.
  unfold Qclt, float_of_int, Q2Qc. cbn [this]. rewrite Qred_correct.
  unfold Qlt, inject_Z. cbn [Qnum Qden]. lia.
Qed.

Lemma float_of_int_lt_r (z : Z) (x : float) :
  (x < float_of_int z)%Qc <-> (Qnum (this x) < z * Z.pos (Qden (this x)))%Z.
Proof.
  unfold Qclt, float_of_int, Q2Qc. cbn [this]. rewrite Qred_correct.
  unfold Qlt, inject_Z. cbn [Qnum Qden]. lia.
Qed.

(** Truncation toward zero of a value strictly between two integers. *)
Lemma int_of_float_between (x : float) (lo hi : Z) :
  (lo <= 0 <= hi)%Z ->
  float_of_int (lo - 1) < x -> x < float_of_int (hi + 1) ->
  (lo <= int_of_float x <= hi)%Z.
Proof.
  intros Hz Hlo Hhi.
  apply float_of_int_lt_l in Hlo. apply float_of_int_lt_r in Hhi.
  unfold int_of_float.
  set (n := Qnum (this x)) in *. set (d := Z.pos (Qden (this x))) in *.
  assert (Hd : (0 < d)%Z) by (unfold d; lia).
  destruct (Z.le_gt_cases 0 n) as [Hn|Hn].
  - rewrite Z.quot_div_nonneg by lia. split.
    + pose proof (Z.div_pos n d Hn Hd). lia.
    + enough (n / d < hi + 1)%Z by lia. apply Z.div_lt_upper_bound; lia.
  - replace n with (- (- n))%Z by lia. rewrite Z.quot_opp_l by lia.
    rewrite Z.quot_div_nonneg by lia. split.
    + enough ((- n) / d < - lo + 1)%Z by lia. apply Z.div_lt_upper_bound; lia.
    + pose proof (Z.div_pos (- n) d ltac:(lia) Hd). lia.
Qed.

Lemma limited_sample_range (v : float) :
  let limitedSample := if fgt v (lit 0.99) then lit 0.99 else v in
  let limitedSample :=
    if flt limitedSample (lit (-0.99)) then lit (-0.99) else limitedSample in
  (-32439 <= int_of_float (limitedSample * lit 32767) <= 32439)%Z.
Proof.
  cbv zeta.
  set (l := if flt (if fgt v (lit 0.99) then lit 0.99 else v) (lit (-0.99))
            then lit (-0.99) else if fgt v (lit 0.99) then lit 0.99 else v).
  assert (Hl : lit (-0.99) <= l /\ l <= lit 0.99).
  { unfold l. destruct (fgt v (lit 0.99)) eqn:Hhi.
    - rewrite (proj2 (flt_false _ _)) by qc_decide. split; [qc_decide | apply Qcle_refl].
    - destruct (flt v (lit (-0.99))) eqn:Hlo.
      + split; [apply Qcle_refl | qc_decide].
      + split; [now apply flt_false | now apply fgt_false]. }
  destruct Hl as [Hlo Hhi].
  assert (H32 : 0 <= lit 32767) by qc_decide.
  apply int_of_float_between; [lia | |].
  - apply Qclt_le_trans with (lit (-0.99) * lit 32767); [qc_decide|].
    now apply Qcmult_le_compat_r.
  - apply Qcle_lt_trans with (lit 0.99 * lit 32767); [|qc_decide].
    now apply Qcmult_le_compat_r.
Qed.

(** X10.  The 16-bit entry point never reaches full scale.
    [Crossover_ProcessI16] keeps the length of the output block, leaves the
    entries from index [size] on alone, and every entry it writes lies in
    [-32439, 32439], that is 0.99 * 32767 truncated. *)
Theorem Crossover_ProcessI16_output_range (st : CrossoverState)
    (floatInput floatOutput : list float) (input output : list Z) (size i : nat) :
  let out := snd (Crossover_ProcessI16 st floatInput floatOutput input output size) in
  length out = length output /\
  ((size <= i)%nat -> out !!! i = output !!! i) /\
  ((i < size)%nat -> (i < length output)%nat -> (-32439 <= out !!! i <= 32439)%Z).
Proof.
  cbv zeta. unfold Crossover_ProcessI16.
  destruct (Crossover_Process st _ _ size) as [st' outs'].
  cbn [snd].
  set (fo := default floatOutput (mixOut outs')).
  set (body := fun (i : nat) (output : list Z) => _).
  assert (HP : forall n,
            length (for_loop n body output) = length output /\
            (forall j, (n <= j)%nat -> for_loop n body output !!! j = output !!! j) /\
            (forall j, (j < n)%nat -> (j < length output)%nat ->
               (-32439 <= for_loop n body output !!! j <= 32439)%Z)).
  { induction n as [|n (IHl & IHk & IHr)]; cbn [for_loop].
    - split; [reflexivity|]. split; [reflexivity|]. intros j Hj. lia.
    - set (prev := for_loop n body output) in *. unfold body. cbv zeta.
      rewrite length_insert.
      split; [exact IHl|]. split.
      + intros j Hj. rewrite list_lookup_total_insert_ne by lia. apply IHk. lia.
      + intros j Hj Hlen. destruct (decide (j = n)) as [->|Hne].
        * rewrite list_lookup_total_insert_eq by lia. apply limited_sample_range.
        * rewrite list_lookup_total_insert_ne by congruence. apply IHr; lia. }
  destruct (HP size) as (Hl & Hk & Hr). auto.
Qed.

End CrossoverRunsProperties.
Lemma sample_crossover_lengths :
  Forall (fun chain => length (filters chain) = 4%nat)
    (crossover_chains (crossoverFilters Crossover_static_init)).
Proof. repeat (apply List.Forall_cons; [reflexivity|]). apply List.Forall_nil. Qed.



Lemma Crossover_reconfiguration_clears_memory_witness :
  @band_buffers (@Crossover_SetSettings libm_rational Crossover_static_init
                   out_of_range_settings)
  = replicate 4 (replicate AUDIO_BUFFER_SIZE (lit 0)).
Proof.
  pose proof (@Crossover_reconfiguration_clears_memory libm_rational Crossover_static_init
                out_of_range_settings (lit 44100) sample_crossover_lengths) as K.
  apply Forall_cons_iff in K. destruct K as ((_ & B & _) & _). exact B.
Defined.

Lemma Crossover_order_below_two_does_not_filter_witness :
  lowBuffer (fst (@Crossover_Process
                    (@Crossover_SetSettings libm_rational sample_crossover
                       first_order_settings)
                    [lit 1; lit 0.5] sample_outputs 2)) !!! 1%nat = lit 0 /\
  midBuffer (fst (@Crossover_Process
                    (@Crossover_SetSettings libm_rational sample_crossover
                       first_order_settings)
                    [lit 1; lit 0.5] sample_outputs 2)) !!! 1%nat
  = (lit 0.5 * @DB_TO_LINEAR libm_rational (lit 0))%Qc.
Proof.
  assert (H1 : filterOrder first_order_settings = 0 \/ filterOrder first_order_settings = 1)
    by (right; reflexivity).
  assert (H2 : (1 < 2)%nat) by lia.
  assert (H3 : (1 < AUDIO_BUFFER_SIZE)%nat) by (unfold AUDIO_BUFFER_SIZE; lia).
  destruct (@Crossover_order_below_two_does_not_filter libm_rational sample_crossover
              first_order_settings [lit 1; lit 0.5] sample_outputs 2 1 H1 H2 H3)
    as (_ & L & M & _).
  split; [exact L | exact M].
Defined.

Lemma Crossover_ProcessI16_output_range_witness :
  -32439 <= snd (@Crossover_ProcessI16 sample_crossover [lit 0; lit 0] [lit 0; lit 0]
                   [32767; -32768] [0; 0] 2) !!! 0%nat <= 32439.
Proof.
  destruct (@Crossover_ProcessI16_output_range sample_crossover
              [lit 0; lit 0] [lit 0; lit 0] [32767; -32768] [0; 0] 2 0)
    as (_ & _ & R).
  apply R; [lia | cbn; lia].
Defined.


(** ** Dynamics: transparency and gain bounds *)

Section DynamicsTransparency.
Context `{Libm}.
Local Open Scope Qc_scope.


Lemma copy_loop_lookup (input output : list float) (n i : nat) :
  length (for_loop n (fun i output => <[i := input !!! i]> output) output) = length output /\
  ((i < n)%nat -> (i < length output)%nat ->
   for_loop n (fun i output => <[i := input !!! i]> output) output !!! i = input !!! i) /\
  ((n <= i)%nat ->
   for_loop n (fun i output => <[i := input !!! i]> output) output !!! i = output !!! i).
Proof.
  induction n as [|n (IHl & IHc & IHk)]; cbn [for_loop].
  - split; [reflexivity|]. split; [lia | reflexivity].
  - rewrite length_insert. split; [exact IHl|]. split.
    + intros Hi Hlen. destruct (decide (i = n)) as [->|Hne].
      * apply list_lookup_total_insert_eq. lia.
      * rewrite list_lookup_total_insert_ne by congruence. apply IHc; lia.
    + intros Hi. rewrite list_lookup_total_insert_ne by lia. apply IHk. lia.
Qed.

(** X12.  A compressor or a limiter that is switched off is transparent.  The
    sample functions return the sample and leave the state alone; the block
    functions copy the first [size] input samples to the output, leave the
    rest of the output alone, and leave the state alone. *)
Theorem Dynamics_disabled_is_transparent (comp : Compressor_t) (lim : Limiter_t)
    (x : float) (input output : list float) (size i : nat) :
  (truthy (enabled (params comp)) = false ->
   Dynamics_CompressorProcessSample comp x = (comp, x) /\
   fst (Dynamics_CompressorProcess comp input output size) = comp /\
   ((i < size)%nat -> (i < length output)%nat ->
    snd (Dynamics_CompressorProcess comp input output size) !!! i = input !!! i) /\
   ((size <= i)%nat ->
    snd (Dynamics_CompressorProcess comp input output size) !!! i = output !!! i)) /\
  (truthy (lim_enabled (lim_params lim)) = false ->
   Dynamics_LimiterProcessSample lim x = (lim, x) /\
   fst (Dynamics_LimiterProcess lim input output size) = lim /\
   ((i < size)%nat -> (i < length output)%nat ->
    snd (Dynamics_LimiterProcess lim input output size) !!! i = input !!! i) /\
   ((size <= i)%nat ->
    snd (Dynamics_LimiterProcess lim input output size) !!! i = output !!! i)).
Proof.
  destruct (copy_loop_lookup input output size i) as (_ & Hc & Hk).
  split; intros Hd.
  - unfold Dynamics_CompressorProcessSample, Dynamics_CompressorProcess.
    rewrite Hd. cbn [negb fst snd]. auto.
  - unfold Dynamics_LimiterProcessSample, Dynamics_LimiterProcess.
    rewrite Hd. cbn [negb fst snd]. auto.
Qed.



End DynamicsTransparency.

Lemma Dynamics_disabled_is_transparent_witness :
  @Dynamics_CompressorProcessSample libm_rational disabled_compressor (lit 0.5)
  = (disabled_compressor, lit 0.5) /\
  @Dynamics_LimiterProcessSample libm_rational disabled_limiter (lit 0.5)
  = (disabled_limiter, lit 0.5).
Proof.
  destruct (@Dynamics_disabled_is_transparent libm_rational disabled_compressor
              disabled_limiter (lit 0.5) [lit 0.5] [lit 0] 1 0) as (HC & HL).
  split; [exact (proj1 (HC eq_refl)) | exact (proj1 (HL eq_refl))].
Defined.



(** ** Delay line: fractional delays *)






(** ** Audio pipeline: meters *)

Section MeterProperties.
Context `{Libm} {M : Type} `{!ExternalModules M}.
Local Open Scope Qc_scope.

Lemma AudioProcessing_band_meters (pSettings : SystemSettings_t) (n band b : nat)
    (st : AudioState) :
  b <> band \/ band_muted pSettings band = true ->
  band_meters (audioStats (AudioProcessing_band pSettings n band st)) b
  = band_meters (audioStats st) b.
Proof.
  intros Hb. unfold AudioProcessing_band, band_muted in *.
  destruct (truthy (select_band band _ _ _ _ _)) eqn:Hm.
  - reflexivity.
  - destruct Hb as [Hb|Hb]; [|discriminate].
    cbv zeta.
    destruct (if truthy (bc_enabled _) then _ else _) as [[[m1 l1] r1] amount].
    destruct (if truthy (bl_enabled _) then _ else _) as [[[m2 l2] r2] reduction].
    destruct (ext_Delay_Process _ _ _ _ _ _ _) as [[m3 l3] r3].
    unfold band_meters. cbn.
    rewrite !list_lookup_total_insert_ne by congruence. reflexivity.
Qed.

(** X15.  The meters of a muted band freeze.  With bypass off,
    [AudioProcessing_Process] leaves the peak level, the compression amount
    and the limiter activity of a muted band as they were before the block:
    the peak does not decay and the amounts are not reset. *)
Theorem Muted_band_meters_freeze (st : AudioState) (pInputBuffer pOutputBuffer : list Z)
    (pSettings : SystemSettings_t) (band : nat) :
  truthy (bypassEnabled st) = false ->
  band_muted pSettings band = true ->
  let stats' :=
    audioStats (fst (AudioProcessing_Process st pInputBuffer pOutputBuffer pSettings)) in
  bandPeakLevel stats' !!! band = bandPeakLevel (audioStats st) !!! band /\
  compressionAmount stats' !!! band = compressionAmount (audioStats st) !!! band /\
  limiterActivity stats' !!! band = limiterActivity (audioStats st) !!! band.
Proof.
  intros Hby Hm stats'. subst stats'. unfold AudioProcessing_Process. cbv zeta.
  destruct (HAL_GetTick (modules st)) as [m0 start]. rewrite Hby.
  destruct (ConvertToFloat _ _ _ _) as [tL tR].
  destruct (ext_Crossover_Process _ _ _ _ _ _ _ _ _ _ _ _ _)
    as [m1 [[[[[[[sL sR] lL] lR] mL] mR] hL] hR]].
  set (s0 := mkAudioState _ _ _ _ _ _ _ _ _).
  unfold NUM_BANDS. cbn [for_loop].
  set (b0 := AudioProcessing_band pSettings _ 0 s0).
  set (b1 := AudioProcessing_band pSettings _ 1 b0).
  set (b2 := AudioProcessing_band pSettings _ 2 b1).
  set (b3 := AudioProcessing_band pSettings _ 3 b2).
  assert (Hmeters : band_meters (audioStats b3) band = band_meters (audioStats st) band).
  { transitivity (band_meters (audioStats s0) band); [|reflexivity].
    assert (Hside : forall k, band <> k \/ band_muted pSettings k = true).
    { intros k. destruct (decide (band = k)) as [<-|Hne]; [now right | now left]. }
    unfold b3, b2, b1, b0.
    rewrite (AudioProcessing_band_meters pSettings _ 3 band _ (Hside 3%nat)).
    rewrite (AudioProcessing_band_meters pSettings _ 2 band _ (Hside 2%nat)).
    rewrite (AudioProcessing_band_meters pSettings _ 1 band _ (Hside 1%nat)).
    rewrite (AudioProcessing_band_meters pSettings _ 0 band _ (Hside 0%nat)).
    reflexivity. }
  destruct (MixBands _ _ _ _ _ _ _ _ _ _ _) as [oL oR].
  destruct (ConvertToInt16 _ _ _ _ _) as [out clips].
  destruct (HAL_GetTick (modules b3)) as [m2 stop].
  cbn [fst audioStats bandPeakLevel compressionAmount limiterActivity].
  unfold band_meters in Hmeters. injection Hmeters as E1 E2 E3.
  split; [exact E1|]. split; [exact E2 | exact E3].
Qed.

Lemma peak_loop (buffer : list float) (f : nat -> float * float -> float * float)
    (sel : float * float -> float) (n : nat) :
  (forall i s, sel (f i s)
               = if fgt (fabsf (buffer !!! i)) (sel s) then fabsf (buffer !!! i) else sel s) ->
  let m := sel (for_loop n f (lit 0, lit 0)) in
  sel (lit 0, lit 0) = lit 0 ->
  0 <= m /\
  (forall i, (i < n)%nat -> fabsf (buffer !!! i) <= m) /\
  (m = lit 0 \/ exists i, (i < n)%nat /\ m = fabsf (buffer !!! i)).
Proof.
  intros Hf m H0. subst m.
  induction n as [|n (IH0 & IHle & IHex)]; cbn [for_loop].
  - rewrite H0. split; [apply Qcle_refl|]. split; [intros i Hi; lia | now left].
  - rewrite Hf. set (prev := sel (for_loop n f (lit 0, lit 0))) in *.
    destruct (fgt (fabsf (buffer !!! n)) prev) eqn:E.
    + apply fgt_true in E. split; [eapply Qcle_trans; [exact IH0 | now apply Qclt_le_weak]|].
      split.
      * intros i Hi. destruct (decide (i = n)) as [->|Hne]; [apply Qcle_refl|].
        eapply Qcle_trans; [apply IHle; lia | now apply Qclt_le_weak].
      * right. exists n. split; [lia | reflexivity].
    + apply fgt_false in E. split; [exact IH0|]. split.
      * intros i Hi. destruct (decide (i = n)) as [->|Hne]; [exact E | apply IHle; lia].
      * destruct IHex as [Hz | (i & Hi & Hm)]; [now left|].
        right. exists i. split; [lia | exact Hm].
Qed.

(** X16.  The peak meter, per channel.  If some sample of the block is larger in
    magnitude than the held peak, the new peak is the magnitude of one of
    the samples and bounds them all; if the held peak is not negative and no
    sample exceeds it, the new peak is the held peak times 0.8. *)
Theorem UpdatePeakLevels_meter (bufferL bufferR : list float) (length : nat)
    (peakL peakR : float) :
  let peaks := UpdatePeakLevels bufferL bufferR length peakL peakR in
  let reading (buffer : list float) (peak peak' : float) :=
    ((exists i, (i < length)%nat /\ peak < fabsf (buffer !!! i)) ->
     (forall j, (j < length)%nat -> fabsf (buffer !!! j) <= peak') /\
     exists i, (i < length)%nat /\ peak' = fabsf (buffer !!! i)) /\
    (0 <= peak -> (forall i, (i < length)%nat -> fabsf (buffer !!! i) <= peak) ->
     peak' = peak * lit 0.8) in
  reading bufferL peakL (fst peaks) /\ reading bufferR peakR (snd peaks).
Proof.
  cbv zeta. unfold UpdatePeakLevels.
  set (f := fun (i : nat) '(maxL, maxR) => _).
  pose proof (peak_loop bufferL f fst length) as HL.
  pose proof (peak_loop bufferR f snd length) as HR.
  cbv zeta in HL, HR.
  destruct HL as (L0 & Lle & Lex); [intros i [a b]; reflexivity | reflexivity |].
  destruct HR as (R0 & Rle & Rex); [intros i [a b]; reflexivity | reflexivity |].
  destruct (for_loop length f (lit 0, lit 0)) as [maxL maxR]. cbn [fst snd] in *.
  assert (Hread : forall (buffer : list float) (peak m : float),
            0 <= m ->
            (forall i, (i < length)%nat -> fabsf (buffer !!! i) <= m) ->
            (m = lit 0 \/ exists i, (i < length)%nat /\ m = fabsf (buffer !!! i)) ->
            ((exists i, (i < length)%nat /\ peak < fabsf (buffer !!! i)) ->
             (forall j, (j < length)%nat ->
                fabsf (buffer !!! j) <= (if fgt m peak then m else peak * lit 0.8)) /\
             exists i, (i < length)%nat /\
               (if fgt m peak then m else peak * lit 0.8) = fabsf (buffer !!! i)) /\
            (0 <= peak -> (forall i, (i < length)%nat -> fabsf (buffer !!! i) <= peak) ->
             (if fgt m peak then m else peak * lit 0.8) = peak * lit 0.8)).
  { intros buffer peak m Hm0 Hle Hex. split.
    - intros (i & Hi & Hgt).
      assert (Hmp : fgt m peak = true).
      { apply fgt_true. eapply Qclt_le_trans; [exact Hgt | now apply Hle]. }
      rewrite Hmp. split; [exact Hle|].
      destruct Hex as [Hz | Hex]; [|exact Hex].
      exists i. split; [exact Hi|]. apply Qcle_antisym; [|now apply Hle].
      rewrite Hz. unfold fabsf. change (lit 0) with 0. apply Qcabs_nonneg.
    - intros Hp Hall.
      assert (Hmp : fgt m peak = false).
      { apply fgt_false. destruct Hex as [-> | (i & Hi & ->)]; [exact Hp | now apply Hall]. }
      now rewrite Hmp. }
  split; now apply Hread.
Qed.

Lemma AudioProcessing_band_lengths (pSettings : SystemSettings_t) (n band : nat)
    (st : AudioState) :
  let stats' := audioStats (AudioProcessing_band pSettings n band st) in
  List.length (compressionAmount stats') = List.length (compressionAmount (audioStats st)) /\
  List.length (limiterActivity stats') = List.length (limiterActivity (audioStats st)).
Proof.
  cbv zeta. unfold AudioProcessing_band.
  destruct (truthy (select_band band _ _ _ _ _)); [split; reflexivity|].
  cbv zeta.
  destruct (if truthy (bc_enabled _) then _ else _) as [[[m1 l1] r1] amount].
  destruct (if truthy (bl_enabled _) then _ else _) as [[[m2 l2] r2] reduction].
  destruct (ext_Delay_Process _ _ _ _ _ _ _) as [[m3 l3] r3].
  cbn. now rewrite !length_insert.
Qed.

Lemma AudioProcessing_band_disabled (pSettings : SystemSettings_t) (n band : nat)
    (st : AudioState) :
  band_muted pSettings band = false ->
  let stats' := audioStats (AudioProcessing_band pSettings n band st) in
  let comp := compressor pSettings in
  let lim := limiter pSettings in
  ((band < List.length (compressionAmount (audioStats st)))%nat ->
   truthy (bc_enabled (select_band band (comp_sub comp) (comp_low comp)
                         (comp_mid comp) (comp_high comp) (comp_sub comp))) = false ->
   compressionAmount stats' !!! band = lit 0) /\
  ((band < List.length (limiterActivity (audioStats st)))%nat ->
   truthy (bl_enabled (select_band band (lim_sub lim) (lim_low lim)
                         (lim_mid lim) (lim_high lim) (lim_sub lim))) = false ->
   limiterActivity stats' !!! band = lit 0).
Proof.
  intros Hm. cbv zeta. unfold AudioProcessing_band, band_muted in *. rewrite Hm. cbv zeta.
  split.
  - intros Hlen Hdis. rewrite Hdis.
    destruct (if truthy (bl_enabled _) then _ else _) as [[[m2 l2] r2] reduction].
    destruct (ext_Delay_Process _ _ _ _ _ _ _) as [[m3 l3] r3].
    cbn. now apply list_lookup_total_insert_eq.
  - intros Hlen Hdis. rewrite Hdis.
    destruct (if truthy (bc_enabled _) then _ else _) as [[[m1 l1] r1] amount].
    destruct (ext_Delay_Process _ _ _ _ _ _ _) as [[m3 l3] r3].
    cbn. now apply list_lookup_total_insert_eq.
Qed.

(** X17.  A band whose compressor (limiter) is switched off reads zero on the
    compression (limiter) meter.  With bypass off, for a band that is not
    muted, [AudioProcessing_Process] leaves 0 in [compressionAmount[band]]
    when the band's compressor is disabled, and 0 in [limiterActivity[band]]
    when its limiter is disabled. *)
Theorem Disabled_stage_reads_zero (st : AudioState) (pInputBuffer pOutputBuffer : list Z)
    (pSettings : SystemSettings_t) (band : nat) :
  truthy (bypassEnabled st) = false ->
  band_muted pSettings band = false ->
  (band < NUM_BANDS)%nat ->
  let stats' :=
    audioStats (fst (AudioProcessing_Process st pInputBuffer pOutputBuffer pSettings)) in
  let comp := compressor pSettings in
  let lim := limiter pSettings in
  ((band < List.length (compressionAmount (audioStats st)))%nat ->
   truthy (bc_enabled (select_band band (comp_sub comp) (comp_low comp)
                         (comp_mid comp) (comp_high comp) (comp_sub comp))) = false ->
   compressionAmount stats' !!! band = lit 0) /\
  ((band < List.length (limiterActivity (audioStats st)))%nat ->
   truthy (bl_enabled (select_band band (lim_sub lim) (lim_low lim)
                         (lim_mid lim) (lim_high lim) (lim_sub lim))) = false ->
   limiterActivity stats' !!! band = lit 0).
Proof.
  intros Hby Hm Hband stats' comp lim. subst stats'.
  unfold AudioProcessing_Process. cbv zeta.
  destruct (HAL_GetTick (modules st)) as [m0 start]. rewrite Hby.
  destruct (ConvertToFloat _ _ _ _) as [tL tR].
  destruct (ext_Crossover_Process _ _ _ _ _ _ _ _ _ _ _ _ _)
    as [m1 [[[[[[[sL sR] lL] lR] mL] mR] hL] hR]].
  set (s0 := mkAudioState _ _ _ _ _ _ _ _ _).
  unfold NUM_BANDS in *. cbn [for_loop].
  set (n := (AUDIO_BUFFER_SIZE / 2)%nat).
  set (b0 := AudioProcessing_band pSettings n 0 s0).
  set (b1 := AudioProcessing_band pSettings n 1 b0).
  set (b2 := AudioProcessing_band pSettings n 2 b1).
  set (b3 := AudioProcessing_band pSettings n 3 b2).
  assert (Hfin : (band < List.length (compressionAmount (audioStats st)) ->
                  truthy (bc_enabled (select_band band (comp_sub comp) (comp_low comp)
                            (comp_mid comp) (comp_high comp) (comp_sub comp))) = false ->
                  compressionAmount (audioStats b3) !!! band = lit 0)%nat /\
                 ((band < List.length (limiterActivity (audioStats st)))%nat ->
                  truthy (bl_enabled (select_band band (lim_sub lim) (lim_low lim)
                            (lim_mid lim) (lim_high lim) (lim_sub lim))) = false ->
                  limiterActivity (audioStats b3) !!! band = lit 0)).
  { destruct (AudioProcessing_band_lengths pSettings n 0 s0) as [LC0 LL0].
    destruct (AudioProcessing_band_lengths pSettings n 1 b0) as [LC1 LL1].
    destruct (AudioProcessing_band_lengths pSettings n 2 b1) as [LC2 LL2].
    fold b0 in LC0, LL0, LC1, LL1. fold b1 in LC1, LL1, LC2, LL2. fold b2 in LC2, LL2.
    change (compressionAmount (audioStats s0)) with (compressionAmount (audioStats st)) in LC0.
    change (limiterActivity (audioStats s0)) with (limiterActivity (audioStats st)) in LL0.
    pose proof (AudioProcessing_band_meters pSettings n 1 band b0) as K1.
    pose proof (AudioProcessing_band_meters pSettings n 2 band b1) as K2.
    pose proof (AudioProcessing_band_meters pSettings n 3 band b2) as K3.
    fold b1 in K1. fold b2 in K2. fold b3 in K3. unfold band_meters in K1, K2, K3.
    destruct band as [|[|[|[|]]]]; try lia.
    - destruct (AudioProcessing_band_disabled pSettings n 0 s0 Hm) as [DC DL].
      fold b0 in DC, DL.
      injection (K1 ltac:(left; lia)) as _ C1 L1.
      injection (K2 ltac:(left; lia)) as _ C2 L2.
      injection (K3 ltac:(left; lia)) as _ C3 L3.
      split; intros Hlen Hdis.
      + rewrite C3, C2, C1. apply DC; assumption.
      + rewrite L3, L2, L1. apply DL; assumption.
    - destruct (AudioProcessing_band_disabled pSettings n 1 b0 Hm) as [DC DL].
      fold b1 in DC, DL.
      injection (K2 ltac:(left; lia)) as _ C2 L2.
      injection (K3 ltac:(left; lia)) as _ C3 L3.
      split; intros Hlen Hdis.
      + rewrite C3, C2. apply DC; [lia | assumption].
      + rewrite L3, L2. apply DL; [lia | assumption].
    - destruct (AudioProcessing_band_disabled pSettings n 2 b1 Hm) as [DC DL].
      fold b2 in DC, DL.
      injection (K3 ltac:(left; lia)) as _ C3 L3.
      split; intros Hlen Hdis.
      + rewrite C3. apply DC; [lia | assumption].
      + rewrite L3. apply DL; [lia | assumption].
    - destruct (AudioProcessing_band_disabled pSettings n 3 b2 Hm) as [DC DL].
      fold b3 in DC, DL.
      split; intros Hlen Hdis.
      + apply DC; [lia | assumption].
      + apply DL; [lia | assumption]. }
  destruct (MixBands _ _ _ _ _ _ _ _ _ _ _) as [oL oR].
  destruct (ConvertToInt16 _ _ _ _ _) as [out clips].
  destruct (HAL_GetTick (modules b3)) as [m2 stop].
  cbn [fst audioStats compressionAmount limiterActivity].
  exact Hfin.
Qed.

End MeterProperties.

Lemma Muted_band_meters_freeze_witness :
  compressionAmount
    (audioStats (fst (@AudioProcessing_Process libm_rational Z busy_modules
                        metered_pipeline full_scale_block (replicate 256 0)
                        silent_settings))) !!! 1%nat = lit 0.5.
Proof.
  assert (H1 : truthy (bypassEnabled metered_pipeline) = false) by reflexivity.
  assert (H2 : band_muted silent_settings 1 = true) by reflexivity.
  exact (proj1 (proj2 (@Muted_band_meters_freeze libm_rational Z busy_modules
                         metered_pipeline full_scale_block (replicate 256 0)
                         silent_settings 1 H1 H2))).
Defined.

Lemma UpdatePeakLevels_meter_witness :
  fst (UpdatePeakLevels [lit 0.1; lit (-0.2)] [lit 0; lit 0] 2 (lit 0.5) (lit 0.5))
  = (lit 0.5 * lit 0.8)%Qc /\
  (forall j, (j < 2)%nat ->
     (fabsf ([lit 0.1; lit (-0.75)] !!! j)
      <= fst (UpdatePeakLevels [lit 0.1; lit (-0.75)] [lit 0; lit 0] 2 (lit 0.5) (lit 0.5)))%Qc).
Proof.
  split.
  - destruct (UpdatePeakLevels_meter [lit 0.1; lit (-0.2)] [lit 0; lit 0] 2
                (lit 0.5) (lit 0.5)) as ((_ & Hquiet) & _).
    apply Hquiet; [qc_decide|].
    intros [|[|i]] Hi; [qc_decide | qc_decide | lia].
  - destruct (UpdatePeakLevels_meter [lit 0.1; lit (-0.75)] [lit 0; lit 0] 2
                (lit 0.5) (lit 0.5)) as ((Hloud & _) & _).
    apply Hloud. exists 1%nat. split; [lia | qc_decide].
Defined.

Lemma Disabled_stage_reads_zero_witness :
  compressionAmount
    (audioStats (fst (@AudioProcessing_Process libm_rational Z busy_modules
                        metered_pipeline full_scale_block (replicate 256 0)
                        dynamics_off_settings))) !!! 0%nat = lit 0.
Proof.
  assert (H1 : truthy (bypassEnabled metered_pipeline) = false) by reflexivity.
  assert (H2 : band_muted dynamics_off_settings 0 = false) by reflexivity.
  assert (H3 : (0 < NUM_BANDS)%nat) by (unfold NUM_BANDS; lia).
  destruct (@Disabled_stage_reads_zero libm_rational Z busy_modules
              metered_pipeline full_scale_block (replicate 256 0)
              dynamics_off_settings 0 H1 H2 H3) as (HC & _).
  apply HC; [cbn; lia | reflexivity].
Defined.

(** ** Button handler *)

Section ButtonProperties.
Import Button.

Lemma queue_cases (q : ButtonEventQueue_t) :
  queue_wf q ->
  exists e0 e1 e2 e3 e4 e5 e6 e7 t c,
    q = mkButtonEventQueue [e0; e1; e2; e3; e4; e5; e6; e7] (Z.rem (t + c) 8) t c /\
    (t = 0 \/ t = 1 \/ t = 2 \/ t = 3 \/ t = 4 \/ t = 5 \/ t = 6 \/ t = 7) /\
    (c = 0 \/ c = 1 \/ c = 2 \/ c = 3 \/ c = 4 \/ c = 5 \/ c = 6 \/ c = 7 \/ c = 8).
Proof.
  destruct q as [ev h t c]. unfold queue_wf, BUTTON_QUEUE_SIZE. cbn.
  intros (Hlen & Ht & Hc & Hh).
  destruct ev as [|e0 [|e1 [|e2 [|e3 [|e4 [|e5 [|e6 [|e7 [|]]]]]]]]]; try discriminate.
  exists e0, e1, e2, e3, e4, e5, e6, e7, t, c. subst h.
  split; [reflexivity|]. split; lia.
Qed.

Lemma PushEvent_pending (q : ButtonEventQueue_t) (b : nat) (s : ButtonState_t) (h : Z) :
  queue_wf q ->
  queue_wf (PushEvent q b s h) /\
  pending (PushEvent q b s h)
  = (if IS_QUEUE_FULL q then drop 1 (pending q) else pending q) ++ [mkButtonEvent b s h].
Proof.
  intros Hwf.
  destruct (queue_cases q Hwf) as (e0 & e1 & e2 & e3 & e4 & e5 & e6 & e7 & t & c & -> & Ht & Hc).
  destruct Ht as [->|[->|[->|[->|[->|[->|[->| ->]]]]]]];
    destruct Hc as [->|[->|[->|[->|[->|[->|[->|[->| ->]]]]]]]];
    (split; [unfold queue_wf; vm_compute; intuition congruence | reflexivity]).
Qed.

Lemma GetEvent_pending (st : ButtonHandler) (event : ButtonEvent_t) :
  queue_wf (eventQueue st) ->
  match pending (eventQueue st) with
  | [] => ButtonHandler_GetEvent st event = (0, st, event)
  | e :: rest =>
      exists q', ButtonHandler_GetEvent st event = (1, set_eventQueue st q', e) /\
                 queue_wf q' /\ pending q' = rest
  end.
Proof.
  intros Hwf. destruct st as [bs q tk]. cbn [eventQueue] in *.
  destruct (queue_cases q Hwf) as (e0 & e1 & e2 & e3 & e4 & e5 & e6 & e7 & t & c & -> & Ht & Hc).
  destruct Ht as [->|[->|[->|[->|[->|[->|[->| ->]]]]]]];
    destruct Hc as [->|[->|[->|[->|[->|[->|[->|[->| ->]]]]]]]];
    first [ reflexivity
          | eexists; split; [reflexivity|];
            split; [unfold queue_wf; vm_compute; intuition congruence | reflexivity] ].
Qed.

Lemma buttons_push (st : ButtonHandler) (b : nat) (s : ButtonState_t) (h : Z) :
  buttons (push st b s h) = buttons st.
Proof. reflexivity. Qed.

Lemma tick_push (st : ButtonHandler) (b : nat) (s : ButtonState_t) (h : Z) :
  buttonTick (push st b s h) = buttonTick st.
Proof. reflexivity. Qed.

Lemma queue_push (st : ButtonHandler) (b : nat) (s : ButtonState_t) (h : Z) :
  eventQueue (push st b s h) = PushEvent (eventQueue st) b s h.
Proof. reflexivity. Qed.

Lemma tick_update (st : ButtonHandler) (i : nat) (f : ButtonConfig_t -> ButtonConfig_t) :
  buttonTick (update_button st i f) = buttonTick st.
Proof. reflexivity. Qed.

Lemma queue_update (st : ButtonHandler) (i : nat) (f : ButtonConfig_t -> ButtonConfig_t) :
  eventQueue (update_button st i f) = eventQueue st.
Proof. reflexivity. Qed.

Lemma length_update (st : ButtonHandler) (i : nat) (f : ButtonConfig_t -> ButtonConfig_t) :
  List.length (buttons (update_button st i f)) = List.length (buttons st).
Proof. unfold update_button. cbn. apply length_insert. Qed.

Lemma lookup_update_eq (st : ButtonHandler) (i : nat) (f : ButtonConfig_t -> ButtonConfig_t) :
  (i < List.length (buttons st))%nat ->
  buttons (update_button st i f) !!! i = f (buttons st !!! i).
Proof. intros Hi. unfold update_button. cbn. now apply list_lookup_total_insert_eq. Qed.

Lemma lookup_update_ne (st : ButtonHandler) (i j : nat) (f : ButtonConfig_t -> ButtonConfig_t) :
  i <> j ->
  buttons (update_button st j f) !!! i = buttons st !!! i.
Proof. intros Hi. unfold update_button. cbn. apply list_lookup_total_insert_ne. congruence. Qed.

Ltac btn_len :=
  repeat first [ rewrite length_update | rewrite buttons_push ]; assumption.

Ltac btn_simpl :=
  repeat first
    [ rewrite buttons_push | rewrite tick_push | rewrite tick_update
    | rewrite queue_update | rewrite length_update
    | rewrite lookup_update_eq by btn_len
    | rewrite lookup_update_ne by assumption ].

Ltac btn_ifs :=
  repeat match goal with
         | |- context [if ?c then _ else _] => destruct c eqn:?
         end.

(** What one pass of the loop body leaves of another button. *)
Lemma ProcessButtonState_other (st : ButtonHandler) (i j : nat) :
  i <> j ->
  buttons (ProcessButtonState st j) !!! i = buttons st !!! i /\
  List.length (buttons (ProcessButtonState st j)) = List.length (buttons st) /\
  buttonTick (ProcessButtonState st j) = buttonTick st.
Proof.
  intros Hij. unfold ProcessButtonState. cbv zeta.
  btn_ifs; btn_simpl; auto.
Qed.

Lemma Sample_button_other (pins : nat -> Z) (st : ButtonHandler) (i j : nat) :
  i <> j ->
  buttons (ButtonHandler_Sample_button pins j st) !!! i = buttons st !!! i /\
  List.length (buttons (ButtonHandler_Sample_button pins j st)) = List.length (buttons st) /\
  buttonTick (ButtonHandler_Sample_button pins j st) = buttonTick st.
Proof.
  intros Hij. unfold ButtonHandler_Sample_button. cbv zeta.
  btn_ifs;
    repeat first
      [ progress btn_simpl
      | match goal with
        | |- context [ProcessButtonState ?s j] =>
            let E1 := fresh in let E2 := fresh in let E3 := fresh in
            destruct (ProcessButtonState_other s i j Hij) as (E1 & E2 & E3);
            progress rewrite ?E1, ?E2, ?E3; clear E1 E2 E3
        end ];
    auto.
Qed.

(** What it leaves of its own button: the debounce step. *)
Lemma ProcessButtonState_self (st : ButtonHandler) (i : nat) :
  (i < List.length (buttons st))%nat ->
  let b := buttons st !!! i in
  let b' := buttons (ProcessButtonState st i) !!! i in
  activeState b' = activeState b /\ stableState b' = stableState b /\
  debounceCounter b' = debounceCounter b /\ previousState b' = previousState b.
Proof.
  intros Hi. cbv zeta. unfold ProcessButtonState. cbv zeta.
  btn_ifs; btn_simpl; auto.
Qed.

Lemma Sample_button_self (pins : nat -> Z) (st : ButtonHandler) (i : nat) :
  (i < List.length (buttons st))%nat ->
  let b := buttons st !!! i in
  let b' := buttons (ButtonHandler_Sample_button pins i st) !!! i in
  activeState b' = activeState b /\
  (level pins st i = stableState b ->
   stableState b' = stableState b /\ debounceCounter b' = 0) /\
  (level pins st i <> stableState b ->
   to_uint32 (debounceCounter b + 1) < BUTTON_DEBOUNCE_TIME ->
   stableState b' = stableState b /\
   debounceCounter b' = to_uint32 (debounceCounter b + 1)) /\
  (level pins st i <> stableState b ->
   BUTTON_DEBOUNCE_TIME <= to_uint32 (debounceCounter b + 1) ->
   stableState b' = level pins st i /\ debounceCounter b' = 0).
Proof.
  intros Hi. cbv zeta. unfold ButtonHandler_Sample_button, level. cbv zeta.
  set (cur := if ReadButtonPin pins i =? activeState (buttons st !!! i) then 1 else 0).
  destruct (negb (cur =? stableState (buttons st !!! i))) eqn:Ecur.
  - apply negb_true_iff, Z.eqb_neq in Ecur.
    rewrite lookup_update_eq by assumption. cbn [debounceCounter set_debounceCounter].
    destruct (BUTTON_DEBOUNCE_TIME <=? _) eqn:Edeb.
    + apply Z.leb_le in Edeb.
      match goal with |- context [ProcessButtonState ?s i] => set (s0 := s) end.
      assert (Hlen0 : (i < List.length (buttons s0))%nat)
        by (subst s0; rewrite !length_update; assumption).
      destruct (ProcessButtonState_self s0 i Hlen0) as (PA & PS & PD & PP).
      assert (Hs0 : buttons s0 !!! i
                    = set_debounceCounter 0
                        (set_stableState cur
                           (set_previousState (stableState (buttons st !!! i))
                              (set_debounceCounter
                                 (to_uint32 (debounceCounter (buttons st !!! i) + 1))
                                 (buttons st !!! i))))).
      { subst s0. btn_simpl. reflexivity. }
      rewrite Hs0 in PA, PS, PD, PP. cbn in PA, PS, PD, PP.
      assert (Hl : (i < List.length (buttons (ProcessButtonState s0 i)))%nat).
      { unfold ProcessButtonState. cbv zeta. btn_ifs; btn_simpl; assumption. }
      remember (ProcessButtonState s0 i) as s1 eqn:Es1. clear Es1.
      btn_ifs; btn_simpl; cbn; rewrite ?PA, ?PS, ?PD;
        (split; [reflexivity|]); (split; [intros; congruence|]);
        (split; [intros; lia | intros; split; reflexivity]).
    + apply Z.leb_gt in Edeb.
      btn_ifs; btn_simpl; cbn;
        (split; [reflexivity|]); (split; [intros; congruence|]);
        (split; [intros; split; reflexivity | intros; lia]).
  - apply negb_false_iff, Z.eqb_eq in Ecur.
    btn_ifs; btn_simpl; cbn;
      (split; [reflexivity|]); (split; [intros; split; [reflexivity|reflexivity]|]);
      (split; intros; congruence).
Qed.

Lemma Sample_loop (pins : nat -> Z) (st : ButtonHandler) (i n : nat) :
  let s := for_loop n (ButtonHandler_Sample_button pins) st in
  List.length (buttons s) = List.length (buttons st) /\
  buttonTick s = buttonTick st /\
  ((n <= i)%nat -> buttons s !!! i = buttons st !!! i) /\
  ((i < n)%nat ->
   buttons s !!! i
   = buttons (ButtonHandler_Sample_button pins i
                (for_loop i (ButtonHandler_Sample_button pins) st)) !!! i).
Proof.
  induction n as [|n IH]; cbv zeta.
  - cbn. repeat split; auto. lia.
  - cbn [for_loop]. cbv zeta in IH. destruct IH as (IL & IT & IA & IB).
    set (s := for_loop n (ButtonHandler_Sample_button pins) st) in *.
    destruct (decide (i = n)) as [->|Hne].
    + destruct (Sample_button_other pins s (S n) n ltac:(lia)) as (_ & OL & OT).
      split; [congruence|]. split; [congruence|]. split; [lia|]. reflexivity.
    + destruct (Sample_button_other pins s i n Hne) as (OB & OL & OT).
      split; [congruence|]. split; [congruence|].
      split; intros Hin; rewrite OB; [apply IA | apply IB]; lia.
Qed.

(** The debounce step of button [i] in one call of [ButtonHandler_Sample]. *)
Lemma Sample_debounce (pins : nat -> Z) (st : ButtonHandler) (i : nat) :
  (i < MAX_BUTTONS)%nat ->
  List.length (buttons st) = MAX_BUTTONS ->
  let b := buttons st !!! i in
  let b' := buttons (ButtonHandler_Sample pins st) !!! i in
  List.length (buttons (ButtonHandler_Sample pins st)) = MAX_BUTTONS /\
  activeState b' = activeState b /\
  (level pins st i = stableState b ->
   stableState b' = stableState b /\ debounceCounter b' = 0) /\
  (level pins st i <> stableState b ->
   to_uint32 (debounceCounter b + 1) < BUTTON_DEBOUNCE_TIME ->
   stableState b' = stableState b /\
   debounceCounter b' = to_uint32 (debounceCounter b + 1)) /\
  (level pins st i <> stableState b ->
   BUTTON_DEBOUNCE_TIME <= to_uint32 (debounceCounter b + 1) ->
   stableState b' = level pins st i /\ debounceCounter b' = 0).
Proof.
  intros Hi Hlen. cbv zeta. unfold ButtonHandler_Sample. cbv zeta.
  set (st0 := set_buttonTick st (to_uint32 (buttonTick st + 1))).
  destruct (Sample_loop pins st0 i MAX_BUTTONS) as (SL & _ & _ & SB).
  destruct (Sample_loop pins st0 i i) as (TL & _ & TA & _).
  rewrite (SB Hi), SL. change (buttons st0) with (buttons st) in *.
  set (si := for_loop i (ButtonHandler_Sample_button pins) st0) in *.
  assert (Hsi : buttons si !!! i = buttons st !!! i) by (apply TA; lia).
  assert (Hlev : level pins si i = level pins st i) by (unfold level; now rewrite Hsi).
  pose proof (Sample_button_self pins si i ltac:(lia)) as K. cbv zeta in K.
  rewrite Hsi, Hlev in K. split; [assumption | exact K].
Qed.

Lemma IsPressed_stable (st : ButtonHandler) (i : nat) :
  (i < MAX_BUTTONS)%nat ->
  ButtonHandler_IsPressed st i = stableState (buttons st !!! i).
Proof.
  intros Hi. unfold ButtonHandler_IsPressed.
  destruct (MAX_BUTTONS <=? i)%nat eqn:E; [apply Nat.leb_le in E; lia | reflexivity].
Qed.

Lemma sampled_cons (pins : nat -> Z) (rest : list (nat -> Z)) (st : ButtonHandler) :
  sampled (pins :: rest) st = sampled rest (ButtonHandler_Sample pins st).
Proof. unfold sampled. lazy beta iota delta [fold_left]. lazy beta. reflexivity. Qed.

(** X19.  Contact bounce is ignored.  As long as the debounce counter of a
    button plus the number of calls of [ButtonHandler_Sample] stays below
    [BUTTON_DEBOUNCE_TIME], [ButtonHandler_IsPressed] reports for the button
    what it reported before, whatever the pins read. *)
Theorem Button_bounce_shorter_than_debounce_is_ignored (st : ButtonHandler)
    (samples : list (nat -> Z)) (i : nat) :
  (i < MAX_BUTTONS)%nat ->
  List.length (buttons st) = MAX_BUTTONS ->
  0 <= debounceCounter (buttons st !!! i) ->
  debounceCounter (buttons st !!! i) + Z.of_nat (List.length samples)
    < BUTTON_DEBOUNCE_TIME ->
  ButtonHandler_IsPressed (sampled samples st) i = ButtonHandler_IsPressed st i.
Proof.
  intros Hi. rewrite !IsPressed_stable by assumption.
  revert st. induction samples as [|pins rest IH]; intros st Hlen H0 Hc.
  - reflexivity.
  - rewrite sampled_cons.
    cbn [List.length] in Hc. unfold BUTTON_DEBOUNCE_TIME in *.
    destruct (Sample_debounce pins st i Hi Hlen) as (SL & _ & Ssame & Sdiff & _).
    assert (Hw : to_uint32 (debounceCounter (buttons st !!! i) + 1)
                 = debounceCounter (buttons st !!! i) + 1)
      by (unfold to_uint32; apply Z.mod_small; lia).
    rewrite Hw in Sdiff. unfold BUTTON_DEBOUNCE_TIME in *.
    destruct (decide (level pins st i = stableState (buttons st !!! i))) as [E|E].
    + destruct (Ssame E) as (ES & EC). rewrite <- ES. apply IH; [assumption | lia | lia].
    + destruct (Sdiff E ltac:(lia)) as (ES & EC). rewrite <- ES.
      apply IH; [assumption | lia | lia].
Qed.

(** X20.  A steady level is accepted.  When the pin of a button reads a level
    different from the debounced state in every one of the
    [BUTTON_DEBOUNCE_TIME - debounceCounter] next calls of
    [ButtonHandler_Sample], [ButtonHandler_IsPressed] reports that level
    after the last of them and the debounce counter is back at 0. *)
Theorem Button_steady_level_is_accepted (st : ButtonHandler)
    (samples : list (nat -> Z)) (i : nat) (v : Z) :
  (i < MAX_BUTTONS)%nat ->
  List.length (buttons st) = MAX_BUTTONS ->
  0 <= debounceCounter (buttons st !!! i) < BUTTON_DEBOUNCE_TIME ->
  v <> stableState (buttons st !!! i) ->
  Z.of_nat (List.length samples)
    = BUTTON_DEBOUNCE_TIME - debounceCounter (buttons st !!! i) ->
  Forall (fun pins => level pins st i = v) samples ->
  ButtonHandler_IsPressed (sampled samples st) i = v /\
  debounceCounter (buttons (sampled samples st) !!! i) = 0.
Proof.
  intros Hi. rewrite !IsPressed_stable by assumption.
  revert st. induction samples as [|pins rest IH]; intros st Hlen Hc Hv Hn Hall.
  - cbn [List.length] in Hn. unfold BUTTON_DEBOUNCE_TIME in *. lia.
  - rewrite sampled_cons.
    cbn [List.length] in Hn. unfold BUTTON_DEBOUNCE_TIME in *.
    apply Forall_cons_iff in Hall. destruct Hall as (Hpins & Hrest).
    destruct (Sample_debounce pins st i Hi Hlen) as (SL & SA & _ & Sdiff & Sflip).
    assert (Hw : to_uint32 (debounceCounter (buttons st !!! i) + 1)
                 = debounceCounter (buttons st !!! i) + 1)
      by (unfold to_uint32; apply Z.mod_small; lia).
    rewrite Hw, Hpins in Sdiff, Sflip. unfold BUTTON_DEBOUNCE_TIME in *.
    destruct (decide (debounceCounter (buttons st !!! i) + 1 < 20)) as [E|E].
    + destruct (Sdiff Hv E) as (ES & EC).
      apply IH; [assumption | lia | congruence | lia |].
      eapply List.Forall_impl; [|exact Hrest]. intros pins' Hp. cbn beta in *.
      unfold level in *. now rewrite SA.
    + destruct (Sflip Hv ltac:(lia)) as (ES & EC).
      destruct rest; [|cbn [List.length] in Hn; lia].
      unfold sampled. cbn [fold_left]. split; assumption.
Qed.

Lemma pending_length (q : ButtonEventQueue_t) :
  List.length (pending q) = Z.to_nat (count q).
Proof. unfold pending. now rewrite length_map, length_seq. Qed.

Lemma ProcessButtonState_release (st : ButtonHandler) (i : nat) :
  (i < List.length (buttons st))%nat ->
  let b := buttons st !!! i in
  stableState b = 0 ->
  previousState b <> ButtonState_value BUTTON_STATE_HELD ->
  let st' := ProcessButtonState st i in
  buttons st' !!! i = set_clickCount 1 (set_releaseTime (buttonTick st) b) /\
  List.length (buttons st') = List.length (buttons st) /\
  buttonTick st' = buttonTick st /\
  eventQueue st'
  = PushEvent (eventQueue st) i BUTTON_STATE_RELEASED
      (to_uint32 (buttonTick st - pressTime b)).
Proof.
  intros Hi b Hs Hp. subst b. cbv zeta. unfold ProcessButtonState. cbv zeta.
  rewrite Hs. change (0 =? 1) with false. cbv iota.
  rewrite lookup_update_eq by assumption. cbn [previousState set_releaseTime].
  apply Z.eqb_neq in Hp. rewrite Hp. cbn [negb].
  btn_simpl. repeat split; reflexivity.
Qed.

Lemma Sample_button_release (pins : nat -> Z)
    (st : ButtonHandler) (i : nat) :
  (i < List.length (buttons st))%nat ->
  let b := buttons st !!! i in
  stableState b = 1 ->
  level pins st i = 0 ->
  BUTTON_DEBOUNCE_TIME <= to_uint32 (debounceCounter b + 1) ->
  let st' := ButtonHandler_Sample_button pins i st in
  let b' := buttons st' !!! i in
  stableState b' = 0 /\ previousState b' = 1 /\ clickCount b' = 1 /\
  releaseTime b' = buttonTick st /\
  eventQueue st'
  = PushEvent (eventQueue st) i BUTTON_STATE_RELEASED
      (to_uint32 (buttonTick st - pressTime b)).
Proof.
  intros Hi b Hs Hlev Hdeb. subst b. cbv zeta.
  unfold ButtonHandler_Sample_button, level in *. cbv zeta.
  rewrite Hlev, Hs. change (negb (0 =? 1)) with true. cbv iota.
  rewrite lookup_update_eq by assumption. cbn [debounceCounter set_debounceCounter].
  apply Z.leb_le in Hdeb. rewrite Hdeb.
  match goal with |- context [ProcessButtonState ?s i] => set (s0 := s) end.
  assert (Hlen0 : (i < List.length (buttons s0))%nat)
    by (subst s0; rewrite !length_update; assumption).
  assert (Hs0 : buttons s0 !!! i
                = set_debounceCounter 0
                    (set_stableState 0
                       (set_previousState 1
                          (set_debounceCounter
                             (to_uint32 (debounceCounter (buttons st !!! i) + 1))
                             (buttons st !!! i))))).
  { subst s0. btn_simpl. cbn [stableState set_debounceCounter]. now rewrite Hs. }
  destruct (ProcessButtonState_release s0 i Hlen0) as (PB & PL & PT & PQ).
  { rewrite Hs0. reflexivity. }
  { rewrite Hs0. cbn. discriminate. }
  rewrite Hs0 in PB, PQ. cbn in PB, PQ.
  change (buttonTick s0) with (buttonTick st) in *.
  change (eventQueue s0) with (eventQueue st) in *.
  assert (Hl1 : (i < List.length (buttons (ProcessButtonState s0 i)))%nat)
    by (rewrite PL; assumption).
  remember (ProcessButtonState s0 i) as s1 eqn:Es1. clear Es1 Hs0 PL.
  rewrite PB.
  cbn [stableState clickCount releaseTime pressTime previousState
       set_clickCount set_releaseTime set_debounceCounter set_stableState
       set_previousState truthy Z.eqb negb andb].
  rewrite PB.
  cbn [stableState clickCount releaseTime pressTime previousState
       set_clickCount set_releaseTime set_debounceCounter set_stableState
       set_previousState truthy Z.eqb Pos.eqb negb andb].
  rewrite PT, Z.sub_diag. change (to_uint32 0) with 0.
  change (BUTTON_DOUBLE_CLICK_TIME <? 0) with false. cbv iota.
  rewrite PB, PQ. repeat split; reflexivity.
Qed.

(** X21.  Every debounced release is reported, also after a hold.  When a call
    of [ButtonHandler_Sample] takes the debounced state of a button from
    pressed to released, the button ends the call with [previousState = 1],
    [clickCount = 1] (double-click detection armed) and [releaseTime] at the
    new tick, and the pass of the loop for the button pushes a RELEASED
    event carrying the time since the press, whatever [previousState] was
    before, also [BUTTON_STATE_HELD]: the loop has overwritten it with the
    old debounced state before [ProcessButtonState] looks at it. *)
Theorem Button_release_is_reported_also_after_hold (pins : nat -> Z)
    (st : ButtonHandler) (i : nat) :
  (i < MAX_BUTTONS)%nat ->
  List.length (buttons st) = MAX_BUTTONS ->
  let b := buttons st !!! i in
  stableState b = 1 ->
  level pins st i = 0 ->
  BUTTON_DEBOUNCE_TIME <= to_uint32 (debounceCounter b + 1) ->
  let b' := buttons (ButtonHandler_Sample pins st) !!! i in
  (stableState b' = 0 /\ previousState b' = 1 /\ clickCount b' = 1 /\
   releaseTime b' = to_uint32 (buttonTick st + 1)) /\
  (forall s : ButtonHandler,
     (i < List.length (buttons s))%nat -> buttons s !!! i = b ->
     eventQueue (ButtonHandler_Sample_button pins i s)
     = PushEvent (eventQueue s) i BUTTON_STATE_RELEASED
         (to_uint32 (buttonTick s - pressTime b))).
Proof.
  intros Hi Hlen b Hs Hlev Hdeb. cbv zeta. split.
  - unfold ButtonHandler_Sample. cbv zeta.
    set (st0 := set_buttonTick st (to_uint32 (buttonTick st + 1))).
    destruct (Sample_loop pins st0 i MAX_BUTTONS) as (_ & _ & _ & SB).
    destruct (Sample_loop pins st0 i i) as (TL & TT & TA & _).
    rewrite (SB Hi). change (buttons st0) with (buttons st) in *.
    set (si := for_loop i (ButtonHandler_Sample_button pins) st0) in *.
    assert (Hsi : buttons si !!! i = buttons st !!! i) by (apply TA; lia).
    assert (Hl : level pins si i = 0) by (unfold level in *; now rewrite Hsi).
    destruct (Sample_button_release pins si i) as (R1 & R2 & R3 & R4 & _);
      [lia | now rewrite Hsi | exact Hl | now rewrite Hsi |].
    rewrite TT in R4. auto.
  - intros s Hl Hb.
    assert (Hlv : level pins s i = 0) by (unfold level in *; now rewrite Hb).
    destruct (Sample_button_release pins s i) as (_ & _ & _ & _ & R5);
      [exact Hl | now rewrite Hb | exact Hlv | now rewrite Hb |].
    now rewrite R5, Hb.
Qed.

(** X18.  The event queue is a first-in first-out buffer of the newest
    [BUTTON_QUEUE_SIZE] events.  On a queue that satisfies its invariant (as
    it does after [ButtonHandler_Init] and [ButtonHandler_ClearEvents], which
    empty it) at most 8 events wait; [PushEvent] keeps the invariant and
    appends the event, dropping the oldest one first if 8 were waiting;
    [ButtonHandler_GetEvent] returns 0 and changes nothing when none waits,
    and otherwise returns 1 with the oldest event, removes it, and touches
    nothing else. *)
Theorem Button_event_queue_is_bounded_fifo (st : ButtonHandler)
    (event : ButtonEvent_t) (b : nat) (s : ButtonState_t) (h : Z) (pins : nat -> Z) :
  queue_wf (eventQueue st) ->
  let q := eventQueue st in
  (List.length (pending q) <= 8)%nat /\
  queue_wf (PushEvent q b s h) /\
  pending (PushEvent q b s h)
  = (if (List.length (pending q) =? 8)%nat then drop 1 (pending q) else pending q)
    ++ [mkButtonEvent b s h] /\
  (pending q = [] -> ButtonHandler_GetEvent st event = (0, st, event)) /\
  (forall e rest, pending q = e :: rest ->
     exists st', ButtonHandler_GetEvent st event = (1, st', e) /\
                 buttons st' = buttons st /\ buttonTick st' = buttonTick st /\
                 queue_wf (eventQueue st') /\ pending (eventQueue st') = rest) /\
  (queue_wf (eventQueue (ButtonHandler_ClearEvents st)) /\
   pending (eventQueue (ButtonHandler_ClearEvents st)) = []) /\
  (queue_wf (eventQueue (ButtonHandler_Init pins st)) /\
   pending (eventQueue (ButtonHandler_Init pins st)) = []).
Proof.
  intros Hwf q. subst q.
  split.
  { rewrite pending_length. destruct Hwf as (_ & _ & Hc & _).
    unfold BUTTON_QUEUE_SIZE in Hc. lia. }
  destruct (PushEvent_pending (eventQueue st) b s h Hwf) as (PW & PP).
  split; [exact PW|]. split.
  { rewrite PP. f_equal. rewrite pending_length. unfold IS_QUEUE_FULL, BUTTON_QUEUE_SIZE.
    destruct Hwf as (_ & _ & Hc & _). unfold BUTTON_QUEUE_SIZE in Hc.
    destruct (8 <=? count (eventQueue st)) eqn:E1;
      destruct (Z.to_nat (count (eventQueue st)) =? 8)%nat eqn:E2; try reflexivity.
    - apply Z.leb_le in E1. apply Nat.eqb_neq in E2. lia.
    - apply Z.leb_gt in E1. apply Nat.eqb_eq in E2. lia. }
  pose proof (GetEvent_pending st event Hwf) as G.
  split.
  { intros E. now rewrite E in G. }
  split.
  { intros e rest E. rewrite E in G. destruct G as (q' & G1 & G2 & G3).
    exists (set_eventQueue st q').
    split; [exact G1|]. split; [reflexivity|]. split; [reflexivity|].
    split; [exact G2 | exact G3]. }
  assert (Hlen : List.length (events (eventQueue st)) = Z.to_nat BUTTON_QUEUE_SIZE)
    by (destruct Hwf as (H & _); exact H).
  split.
  - unfold ButtonHandler_ClearEvents, queue_wf, pending. cbn.
    repeat split; try assumption; unfold BUTTON_QUEUE_SIZE; lia.
  - assert (HI : eventQueue (ButtonHandler_Init pins st)
                 = mkButtonEventQueue (events (eventQueue st)) 0 0 0).
    { unfold ButtonHandler_Init. cbv zeta. unfold MAX_BUTTONS. cbn [for_loop].
      cbn [eventQueue set_buttonTick set_eventQueue]. btn_simpl. reflexivity. }
    rewrite HI. unfold queue_wf, pending. cbn.
    repeat split; try assumption; unfold BUTTON_QUEUE_SIZE; lia.
Qed.

End ButtonProperties.

Lemma Button_bounce_shorter_than_debounce_is_ignored_witness :
  Button.ButtonHandler_IsPressed
    (Button.sampled (replicate 19 (fun _ => Button.GPIO_PIN_RESET)) released_buttons) 0 = 0.
Proof.
  assert (H1 : (0 < Button.MAX_BUTTONS)%nat) by (unfold Button.MAX_BUTTONS; lia).
  assert (H2 : length (Button.buttons released_buttons) = Button.MAX_BUTTONS)
    by (vm_compute; reflexivity).
  assert (H3 : 0 <= Button.debounceCounter (Button.buttons released_buttons !!! 0%nat))
    by (vm_compute; discriminate).
  assert (H4 : Button.debounceCounter (Button.buttons released_buttons !!! 0%nat)
               + Z.of_nat (length (replicate 19 (fun _ : nat => Button.GPIO_PIN_RESET)))
               < Button.BUTTON_DEBOUNCE_TIME) by (vm_compute; reflexivity).
  etransitivity;
    [exact (Button_bounce_shorter_than_debounce_is_ignored released_buttons
              (replicate 19 (fun _ => Button.GPIO_PIN_RESET)) 0 H1 H2 H3 H4)
    | vm_compute; reflexivity].
Defined.

Lemma Button_steady_level_is_accepted_witness :
  Button.ButtonHandler_IsPressed
    (Button.sampled (replicate 20 (fun _ => Button.GPIO_PIN_RESET)) released_buttons) 0 = 1.
Proof.
  assert (H1 : (0 < Button.MAX_BUTTONS)%nat) by (unfold Button.MAX_BUTTONS; lia).
  assert (H2 : length (Button.buttons released_buttons) = Button.MAX_BUTTONS)
    by (vm_compute; reflexivity).
  assert (H3 : 0 <= Button.debounceCounter (Button.buttons released_buttons !!! 0%nat)
               < Button.BUTTON_DEBOUNCE_TIME)
    by (vm_compute; split; [discriminate | reflexivity]).
  assert (H4 : 1 <> Button.stableState (Button.buttons released_buttons !!! 0%nat))
    by (vm_compute; discriminate).
  assert (H5 : Z.of_nat (length (replicate 20 (fun _ : nat => Button.GPIO_PIN_RESET)))
               = Button.BUTTON_DEBOUNCE_TIME
                 - Button.debounceCounter (Button.buttons released_buttons !!! 0%nat))
    by (vm_compute; reflexivity).
  assert (H6 : Forall (fun pins => Button.level pins released_buttons 0 = 1)
                 (replicate 20 (fun _ : nat => Button.GPIO_PIN_RESET)))
    by (apply Forall_replicate; vm_compute; reflexivity).
  exact (proj1 (Button_steady_level_is_accepted released_buttons
                  (replicate 20 (fun _ => Button.GPIO_PIN_RESET)) 0 1
                  H1 H2 H3 H4 H5 H6)).
Defined.

Lemma Button_release_is_reported_also_after_hold_witness :
  Button.clickCount
    (Button.buttons (Button.ButtonHandler_Sample (fun _ => Button.GPIO_PIN_SET) held_button)
       !!! 0%nat) = 1 /\
  Button.eventQueue
    (Button.ButtonHandler_Sample_button (fun _ => Button.GPIO_PIN_SET) 0 held_button)
  = Button.PushEvent (Button.eventQueue held_button) 0 Button.BUTTON_STATE_RELEASED 1400.
Proof.
  assert (H0 : (0 < Button.MAX_BUTTONS)%nat) by (unfold Button.MAX_BUTTONS; lia).
  assert (H1 : length (Button.buttons held_button) = Button.MAX_BUTTONS) by reflexivity.
  assert (H2 : Button.stableState (Button.buttons held_button !!! 0%nat) = 1)
    by reflexivity.
  assert (H3 : Button.level (fun _ => Button.GPIO_PIN_SET) held_button 0 = 0)
    by reflexivity.
  assert (H4 : Button.BUTTON_DEBOUNCE_TIME
               <= to_uint32 (Button.debounceCounter (Button.buttons held_button !!! 0%nat) + 1))
    by (vm_compute; discriminate).
  destruct (Button_release_is_reported_also_after_hold (fun _ => Button.GPIO_PIN_SET)
              held_button 0 H0 H1 H2 H3 H4) as ((_ & _ & HC & _) & HQ).
  split; [exact HC|].
  apply HQ; [vm_compute; lia | reflexivity].
Defined.

Lemma Button_event_queue_is_bounded_fifo_witness :
  Button.pending
    (Button.PushEvent (Button.eventQueue released_buttons) 2 Button.BUTTON_STATE_PRESSED 0)
  = [Button.mkButtonEvent 2 Button.BUTTON_STATE_PRESSED 0].
Proof.
  assert (H1 : Button.queue_wf (Button.eventQueue released_buttons)).
  { unfold Button.queue_wf. vm_compute.
    split; [reflexivity|]. split; [split; [discriminate | reflexivity]|].
    split; [split; discriminate | reflexivity]. }
  etransitivity;
    [exact (proj1 (proj2 (proj2
              (Button_event_queue_is_bounded_fifo released_buttons inhabitant 2
                 Button.BUTTON_STATE_PRESSED 0 (fun _ => 0) H1))))
    | vm_compute; reflexivity].
Defined.

(** ** Preset manager *)

Section PresetProperties.
Import Preset.

Lemma checksum_loop (data : list Z) (n : nat) :
  (n <= List.length data)%nat ->
  Forall (fun b => 0 <= b < 256) data ->
  for_loop n (fun i checksum => to_uint32 (checksum + data !!! i)) PRESET_VALID_MARKER
  = to_uint32 (PRESET_VALID_MARKER + foldr Z.add 0 (take n data)).
Proof.
  intros Hn Hb. induction n as [|n IH].
  - cbn. reflexivity.
  - cbn [for_loop]. rewrite IH by lia.
    destruct (lookup_lt_is_Some_2 data n ltac:(lia)) as [x Hx].
    rewrite (take_S_r _ _ _ Hx), (list_lookup_total_correct _ _ _ Hx).
    rewrite foldr_app. cbn [foldr].
    assert (Hf : forall (l : list Z) a, foldr Z.add a l = foldr Z.add 0 l + a).
    { induction l as [|y l IHl]; intros a; cbn; [lia|]. rewrite IHl. lia. }
    rewrite (Hf _ (x + 0)). unfold to_uint32.
    rewrite Z.add_mod_idemp_l by lia. f_equal. lia.
Qed.

Lemma CalculateChecksum_sum (data : list Z) :
  Forall (fun b => 0 <= b < 256) data ->
  CalculateChecksum data = to_uint32 (PRESET_VALID_MARKER + foldr Z.add 0 data).
Proof.
  intros Hb. unfold CalculateChecksum. rewrite checksum_loop by (auto; lia).
  now rewrite firstn_all.
Qed.

Lemma sum_insert (data : list Z) (k : nat) (x v : Z) :
  data !! k = Some x ->
  foldr Z.add 0 (<[k := v]> data) = foldr Z.add 0 data - x + v.
Proof.
  revert k. induction data as [|y data IH]; intros [|k] Hk; try discriminate.
  - cbn in *. injection Hk as ->. lia.
  - change (<[S k := v]> (y :: data)) with (y :: <[k := v]> data).
    cbn [foldr]. rewrite (IH k Hk). lia.
Qed.

(** X22.  The checksum notices every change of a single byte of the settings: a
    preset that passes [IsPresetValid] fails it after one of its settings
    bytes has been changed. *)
Theorem Preset_checksum_detects_single_byte_change (preset : Preset_t) (k : nat) (v : Z) :
  Forall (fun b => 0 <= b < 256) (settings preset) ->
  (k < List.length (settings preset))%nat ->
  0 <= v < 256 ->
  v <> settings preset !!! k ->
  IsPresetValid preset = 1 ->
  IsPresetValid (mkPreset (metadata preset) (<[k := v]> (settings preset))) = 0.
Proof.
  intros Hb Hk Hv Hne Hvalid. unfold IsPresetValid in *. cbn [metadata settings].
  destruct ((presetId (metadata preset) <? USER_PRESET_START_ID)
            || (TOTAL_PRESET_COUNT <=? presetId (metadata preset))); [discriminate|].
  destruct (negb (CalculateChecksum (settings preset) =? checksum (metadata preset)))
    eqn:E; [discriminate|].
  apply negb_false_iff, Z.eqb_eq in E.
  destruct (lookup_lt_is_Some_2 (settings preset) k Hk) as [x Hx].
  rewrite (list_lookup_total_correct _ _ _ Hx) in Hne.
  assert (Hx' : 0 <= x < 256) by (eapply Forall_lookup_1 in Hb; eauto).
  assert (Hb' : Forall (fun b => 0 <= b < 256) (<[k := v]> (settings preset))).
  { apply Forall_insert; assumption. }
  rewrite (CalculateChecksum_sum _ Hb'), (sum_insert _ _ _ _ Hx), <- E,
    (CalculateChecksum_sum _ Hb).
  set (s := foldr Z.add 0 (settings preset)).
  destruct (negb _) eqn:E2; [reflexivity|].
  apply negb_false_iff, Z.eqb_eq in E2. unfold to_uint32 in E2. exfalso.
  assert (Hd : (v - x) mod 4294967296 = 0).
  { replace (v - x) with ((PRESET_VALID_MARKER + (s - x + v)) - (PRESET_VALID_MARKER + s)) by lia.
    rewrite Zminus_mod, E2, Z.sub_diag. reflexivity. }
  apply Z.mod_divide in Hd; [|lia]. destruct Hd as [q Hq]. lia.
Qed.

(** X23.  The checksum does not see the order of the bytes: a preset whose
    settings bytes are rearranged gets from [IsPresetValid] the answer it got
    before. *)
Theorem Preset_checksum_ignores_byte_order (preset : Preset_t) (bytes : list Z) :
  Forall (fun b => 0 <= b < 256) (settings preset) ->
  Permutation (settings preset) bytes ->
  IsPresetValid (mkPreset (metadata preset) bytes) = IsPresetValid preset.
Proof.
  intros Hb Hp. unfold IsPresetValid. cbn [metadata settings].
  assert (Hb' : Forall (fun b => 0 <= b < 256) bytes) by (rewrite <- Hp; assumption).
  rewrite (CalculateChecksum_sum _ Hb), (CalculateChecksum_sum _ Hb').
  replace (foldr Z.add 0 bytes) with (foldr Z.add 0 (settings preset)); [reflexivity|].
  clear Hb Hb'. induction Hp; cbn; lia.
Qed.

Lemma SanitizePresetName_loop_beyond (n i : nat) (name : list Z) :
  (List.length name <= i)%nat -> SanitizePresetName_loop n i name = name.
Proof.
  revert i name. induction n as [|n IH]; intros i name Hi; [reflexivity|].
  cbn [SanitizePresetName_loop].
  destruct (name !!! i =? 0); [reflexivity|]. cbv zeta.
  rewrite (list_insert_ge name i) by lia.
  destruct (negb _); apply IH; lia.
Qed.

Lemma SanitizePresetName_loop_spec (n i : nat) (name : list Z) :
  (i <= List.length name)%nat ->
  SanitizePresetName_loop n i name = take i name ++ sanitized_rest n (drop i name).
Proof.
  revert i name. induction n as [|n IH]; intros i name Hi.
  - cbn. now rewrite take_drop.
  - cbn [SanitizePresetName_loop].
    destruct (drop i name) as [|c rest] eqn:Ed.
    + assert (Hl : (List.length name <= i)%nat).
      { apply (f_equal List.length) in Ed. rewrite length_drop in Ed. cbn in Ed. lia. }
      change (_ = _) with (SanitizePresetName_loop (S n) i name = take i name ++ []).
      rewrite SanitizePresetName_loop_beyond, app_nil_r, firstn_all2 by lia.
      reflexivity.
    + assert (Hc : name !! i = Some c).
      { rewrite <- (take_drop i name) at 1. rewrite Ed.
        rewrite lookup_app_r by (rewrite length_take; lia).
        rewrite length_take. replace (i - i `min` List.length name)%nat with 0%nat by lia.
        reflexivity. }
      assert (Hlt : (i < List.length name)%nat) by (apply lookup_lt_is_Some; eauto).
      rewrite (list_lookup_total_correct _ _ _ Hc). cbn [sanitized_rest].
      destruct (c =? 0) eqn:Ez.
      * rewrite <- Ed. now rewrite take_drop.
      * cbv zeta. unfold sanitized_char.
        assert (Hd : drop (S i) name = rest).
        { replace (S i) with (i + 1)%nat by lia. rewrite <- drop_drop, Ed. reflexivity. }
        destruct (name_char_allowed c); cbn [negb].
        -- rewrite IH by lia. rewrite (take_S_r _ _ _ Hc), Hd, <- app_assoc. reflexivity.
        -- rewrite IH by (rewrite length_insert; lia).
           rewrite drop_insert_lt by lia. rewrite Hd.
           rewrite take_insert_lt by lia.
           rewrite (take_S_r _ _ _ Hc), insert_app_r_alt by (rewrite length_take; lia).
           rewrite length_take. replace (i - i `min` List.length name)%nat with 0%nat by lia.
           cbn [insert list_insert]. rewrite <- app_assoc. reflexivity.
Qed.

Lemma sanitized_char_nonzero (c : Z) : c <> 0 -> sanitized_char c <> 0.
Proof.
  intros Hc. unfold sanitized_char. destruct (name_char_allowed c); [assumption|lia].
Qed.

Lemma sanitized_char_allowed (c : Z) : name_char_allowed (sanitized_char c) = true.
Proof.
  unfold sanitized_char. destruct (name_char_allowed c) eqn:E; [assumption|reflexivity].
Qed.

Lemma sanitized_rest_spec (n : nat) (l : list Z) :
  (List.length (c_str l) <= n)%nat ->
  List.length (sanitized_rest n l) = List.length l /\
  c_str (sanitized_rest n l) = map sanitized_char (c_str l) /\
  sanitized_rest n (sanitized_rest n l) = sanitized_rest n l /\
  (forall k, l !!! k = 0 -> sanitized_rest n l !!! k = 0).
Proof.
  revert l. induction n as [|n IH]; intros l Hn.
  - cbn [sanitized_rest]. assert (E : c_str l = []) by (destruct (c_str l); [reflexivity | cbn in Hn; lia]).
    rewrite E. repeat split; auto.
  - destruct l as [|c rest]; [cbn; repeat split; auto|].
    cbn [sanitized_rest c_str] in *. destruct (c =? 0) eqn:Ez.
    + cbn [sanitized_rest c_str]. rewrite Ez. repeat split; auto.
    + cbn [List.length] in Hn. destruct (IH rest ltac:(lia)) as (I1 & I2 & I3 & I4).
      pose proof (sanitized_char_nonzero c ltac:(now apply Z.eqb_neq)) as Hs.
      apply Z.eqb_neq in Hs. cbn [sanitized_rest c_str List.length map]. rewrite Hs.
      split; [now rewrite I1|]. split; [now rewrite I2|].
      split.
      * unfold sanitized_char at 1. rewrite sanitized_char_allowed. now rewrite I3.
      * intros [|k]; cbn; [apply Z.eqb_neq in Ez; lia | apply I4].
Qed.

Lemma c_str_length_bound (l : list Z) (k : nat) :
  l !!! k = 0 -> (k < List.length l)%nat -> (List.length (c_str l) <= k)%nat.
Proof.
  revert k. induction l as [|c rest IH]; intros k Hk Hl; cbn in *; [lia|].
  destruct (c =? 0) eqn:Ez; cbn; [lia|].
  destruct k as [|k]; cbn in Hk.
  - apply Z.eqb_neq in Ez. lia.
  - specialize (IH k Hk ltac:(lia)). lia.
Qed.

(** X24.  [SanitizePresetName] on a 16-character buffer that ends in NUL (as its
    caller has made it).  The name that comes out is the name that went in
    with every character other than a letter, a digit, a space, an underscore
    or a hyphen replaced by an underscore, or User_Preset if it was empty;
    it is never empty, the buffer still ends in NUL, and sanitizing it again
    changes nothing. *)
Theorem Preset_name_is_sanitized (buf : list Z) :
  List.length buf = 16%nat ->
  buf !!! 15%nat = 0 ->
  let out := SanitizePresetName buf in
  List.length out = 16%nat /\ out !!! 15%nat = 0 /\
  c_str out = (if decide (c_str buf = []) then User_Preset
               else map sanitized_char (c_str buf)) /\
  c_str out <> [] /\
  Forall (fun c => name_char_allowed c = true) (c_str out) /\
  SanitizePresetName out = out.
Proof.
  intros Hlen Hnul. cbv zeta.
  assert (Hb : (List.length (c_str buf) <= 15)%nat) by (apply c_str_length_bound; [assumption|lia]).
  destruct (sanitized_rest_spec 15 buf Hb) as (S1 & S2 & S3 & S4).
  assert (Hloop : SanitizePresetName_loop STRING_MAX_LENGTH 0 buf = sanitized_rest 15 buf).
  { rewrite SanitizePresetName_loop_spec by lia. reflexivity. }
  unfold SanitizePresetName. cbv zeta. rewrite Hloop.
  set (name1 := sanitized_rest 15 buf) in *.
  assert (Hhead : (name1 !!! 0%nat =? 0) = true <-> c_str buf = []).
  { destruct buf as [|c rest]; [exfalso; clear -Hlen; cbn in Hlen; lia|]. subst name1.
    change (sanitized_rest 15 (c :: rest))
      with (if c =? 0 then c :: rest else sanitized_char c :: sanitized_rest 14 rest).
    cbn [c_str]. destruct (c =? 0) eqn:Ez.
    - change ((c :: rest) !!! 0%nat) with c. rewrite Ez. tauto.
    - change ((sanitized_char c :: sanitized_rest 14 rest) !!! 0%nat) with (sanitized_char c).
      pose proof (sanitized_char_nonzero c ltac:(now apply Z.eqb_neq)) as Hs.
      apply Z.eqb_neq in Hs. rewrite Hs. split; discriminate. }
  assert (L1 : List.length name1 = 16%nat) by lia.
  assert (N1 : name1 !!! 15%nat = 0) by (now apply S4).
  clear Hloop S4 S1. clearbody name1.
  destruct (name1 !!! 0%nat =? 0) eqn:E0.
  - assert (Hempty : c_str buf = []) by (now apply Hhead).
    destruct (decide (c_str buf = [])) as [_|Hc]; [|contradiction].
    clear S2 S3 Hhead Hempty Hb Hnul Hlen buf.
    destruct name1 as [|x0 [|x1 [|x2 [|x3 [|x4 [|x5 [|x6 [|x7 [|x8 [|x9 [|x10 [|x11
      [|x12 [|x13 [|x14 [|x15 [|]]]]]]]]]]]]]]]]]; try (exfalso; cbn in L1; lia).
    change (x15 = 0) in N1. subst x15.
    split; [reflexivity|]. split; [reflexivity|]. split; [reflexivity|].
    split; [intros E; discriminate E|]. split; [|reflexivity].
    unfold strcpy, User_Preset. cbn [app list_inserts c_str].
    repeat (apply List.Forall_cons; [reflexivity|]). apply List.Forall_nil.
  - assert (Hne : c_str buf <> []) by (intros E; apply Hhead in E; congruence).
    destruct (decide (c_str buf = [])) as [Hc|_]; [contradiction|].
    split; [exact L1|]. split; [exact N1|]. split; [exact S2|].
    split; [rewrite S2; destruct (c_str buf); [contradiction | intros E; discriminate E]|].
    split.
    + rewrite S2. apply Forall_map, Forall_forall. intros c _. apply sanitized_char_allowed.
    + assert (Hloop' : SanitizePresetName_loop STRING_MAX_LENGTH 0 name1 = name1).
      { rewrite SanitizePresetName_loop_spec by lia. cbn [take drop app].
        exact S3. }
      rewrite Hloop', E0. reflexivity.
Qed.

Lemma filter_keeps_all {A : Type} `{!Inhabited A} (f : A -> bool) (l : list A) :
  List.length (List.filter f l) = List.length l <->
  (forall j, (j < List.length l)%nat -> f (l !!! j) = true).
Proof.
  induction l as [|x l IH]; cbn [List.filter List.length].
  - split; [intros _ j Hj; lia | reflexivity].
  - pose proof (List.filter_length_le f l) as Hle.
    destruct (f x) eqn:E; cbn [List.length].
    + split.
      * intros Hl j Hj. destruct j as [|j]; [exact E|]. apply IH; lia.
      * intros Hall. f_equal. apply IH. intros j Hj. apply (Hall (S j)). lia.
    + split; [lia|]. intros Hall. specialize (Hall 0%nat ltac:(lia)).
      change ((x :: l) !!! 0%nat) with x in Hall. congruence.
Qed.

Lemma count_loop (pm : PresetManager) (n : nat) :
  (n <= MAX_USER_PRESETS)%nat ->
  (n <= List.length (presetMetadata pm))%nat ->
  for_loop n
    (fun i count =>
       if negb (presetId (presetMetadata pm !!! i) =? PRESET_ID_INVALID)
       then to_uint8 (count + 1) else count)
    USER_PRESET_START_ID
  = USER_PRESET_START_ID
    + Z.of_nat (List.length
                  (List.filter (fun m => negb (presetId m =? PRESET_ID_INVALID))
                     (take n (presetMetadata pm)))).
Proof.
  unfold MAX_USER_PRESETS, USER_PRESET_START_ID. intros Hn Hl.
  induction n as [|n IH].
  - reflexivity.
  - cbn [for_loop]. rewrite IH by lia.
    destruct (lookup_lt_is_Some_2 (presetMetadata pm) n ltac:(lia)) as [m Hm].
    rewrite (take_S_r _ _ _ Hm), (list_lookup_total_correct _ _ _ Hm), List.filter_app.
    rewrite length_app.
    pose proof (List.filter_length_le (fun m => negb (presetId m =? PRESET_ID_INVALID))
                  (take n (presetMetadata pm))) as Hf.
    rewrite length_take in Hf. cbn [List.filter].
    destruct (negb (presetId m =? PRESET_ID_INVALID)); cbn [List.length].
    + unfold to_uint8. rewrite Z.mod_small by lia. lia.
    + lia.
Qed.

Lemma next_loop (pm : PresetManager) (n i : nat) :
  (i + n <= 250)%nat ->
  let slot := GetNextEmptySlot_loop pm n i in
  (slot = PRESET_ID_INVALID /\
   forall j, (i <= j < i + n)%nat -> presetId (presetMetadata pm !!! j) <> PRESET_ID_INVALID)
  \/
  (exists j, (i <= j < i + n)%nat /\ slot = USER_PRESET_START_ID + Z.of_nat j /\
             presetId (presetMetadata pm !!! j) = PRESET_ID_INVALID /\
             forall k, (i <= k < j)%nat ->
                       presetId (presetMetadata pm !!! k) <> PRESET_ID_INVALID).
Proof.
  revert i. induction n as [|n IH]; intros i Hi; cbv zeta.
  - left. split; [reflexivity|]. intros j Hj. lia.
  - cbn [GetNextEmptySlot_loop].
    destruct (presetId (presetMetadata pm !!! i) =? PRESET_ID_INVALID) eqn:E.
    + apply Z.eqb_eq in E. right. exists i. split; [lia|]. split.
      * unfold to_uint8, USER_PRESET_START_ID. apply Z.mod_small. lia.
      * split; [exact E|]. intros k Hk. lia.
    + apply Z.eqb_neq in E.
      destruct (IH (S i) ltac:(lia)) as [(I1 & I2)|(j & J1 & J2 & J3 & J4)].
      * left. split; [exact I1|]. intros j Hj.
        destruct (decide (j = i)) as [->|Hne]; [exact E | apply I2; lia].
      * right. exists j. split; [lia|]. split; [exact J2|]. split; [exact J3|].
        intros k Hk. destruct (decide (k = i)) as [->|Hne]; [exact E | apply J4; lia].
Qed.

(** X25.  The count of presets and the search for a free slot agree.  With the
    ten metadata slots in place, [PresetManager_GetPresetCount] is five plus
    the number of slots in use; [PresetManager_GetNextEmptySlot] returns
    [PRESET_ID_INVALID] exactly when the count has reached
    [TOTAL_PRESET_COUNT], and otherwise the identifier of the first free
    slot. *)
Theorem Preset_count_and_free_slot_agree (pm : PresetManager) :
  List.length (presetMetadata pm) = MAX_USER_PRESETS ->
  let count := PresetManager_GetPresetCount pm in
  let slot := PresetManager_GetNextEmptySlot pm in
  count = USER_PRESET_START_ID + Z.of_nat (List.length (used_slots pm)) /\
  USER_PRESET_START_ID <= count <= TOTAL_PRESET_COUNT /\
  (slot = PRESET_ID_INVALID <-> count = TOTAL_PRESET_COUNT) /\
  (slot <> PRESET_ID_INVALID ->
   exists j, (j < MAX_USER_PRESETS)%nat /\ slot = USER_PRESET_START_ID + Z.of_nat j /\
             presetId (presetMetadata pm !!! j) = PRESET_ID_INVALID /\
             forall k, (k < j)%nat ->
                       presetId (presetMetadata pm !!! k) <> PRESET_ID_INVALID).
Proof.
  intros Hlen. cbv zeta.
  assert (Hcount : PresetManager_GetPresetCount pm
                   = USER_PRESET_START_ID + Z.of_nat (List.length (used_slots pm))).
  { unfold PresetManager_GetPresetCount. rewrite count_loop by lia.
    unfold used_slots. now rewrite <- Hlen, firstn_all. }
  pose proof (List.filter_length_le (fun m => negb (presetId m =? PRESET_ID_INVALID))
                (presetMetadata pm)) as Hf.
  fold (used_slots pm) in Hf. rewrite Hlen in Hf.
  split; [exact Hcount|]. rewrite Hcount.
  unfold TOTAL_PRESET_COUNT, USER_PRESET_START_ID, MAX_USER_PRESETS in *.
  split; [lia|].
  assert (Hall : List.length (used_slots pm) = 10%nat <->
                 forall j, (j < 10)%nat ->
                           presetId (presetMetadata pm !!! j) <> PRESET_ID_INVALID).
  { unfold used_slots. rewrite <- Hlen at 1. rewrite filter_keeps_all, Hlen.
    split; intros Hk j Hj; specialize (Hk j Hj).
    - apply negb_true_iff, Z.eqb_neq in Hk. exact Hk.
    - apply negb_true_iff, Z.eqb_neq. exact Hk. }
  destruct (next_loop pm 10 0 ltac:(lia)) as [(I1 & I2)|(j & J1 & J2 & J3 & J4)];
    change (GetNextEmptySlot_loop pm 10 0) with (PresetManager_GetNextEmptySlot pm) in *;
    unfold USER_PRESET_START_ID, PRESET_ID_INVALID in *.
  - split.
    + split; [intros _|intros _; exact I1].
      assert (List.length (used_slots pm) = 10%nat); [|lia].
      apply Hall. intros k Hk. apply I2. lia.
    + intros Hne. contradiction.
  - assert (Hlt : List.length (used_slots pm) <> 10%nat).
    { intros Hfull. apply (proj1 Hall Hfull j); [lia | exact J3]. }
    split.
    + split; [intros E; lia | intros E; lia].
    + intros _. exists j. split; [lia|]. split; [exact J2|]. split; [exact J3|].
      intros k Hk. apply J4. lia.
Qed.

Lemma GetPresetAddress_value (sz id : Z) :
  0 < sz -> 9 * sz < 4294967296 ->
  GetPresetAddress sz id
  = if (id <? 5) || (15 <=? id) || (32768 <=? (id - 5) * sz) then 0
    else 134266880 + (id - 5) * sz.
Proof.
  intros Hsz Hmax. unfold GetPresetAddress.
  change USER_PRESET_START_ID with 5. change TOTAL_PRESET_COUNT with 15.
  change PRESET_STORAGE_MAX_SIZE with 32768. change PRESET_STORAGE_BASE_ADDR with 134266880.
  destruct (id <? 5) eqn:E1; [reflexivity|]. destruct (15 <=? id) eqn:E2; [reflexivity|].
  cbn [orb]. cbv zeta. apply Z.ltb_ge in E1. apply Z.leb_gt in E2.
  unfold to_uint8. rewrite (Z.mod_small (id - 5)) by lia.
  unfold to_uint32. rewrite (Z.mod_small ((id - 5) * sz)) by nia.
  destruct (32768 <=? (id - 5) * sz) eqn:E3; [reflexivity|].
  apply Z.leb_gt in E3. apply Z.mod_small. nia.
Qed.

(** X26.  The flash regions of the user presets do not overlap.  For a
    [Preset_t] of [sz] bytes (nine of which fit in 32 bits),
    [GetPresetAddress] returns 0 exactly for the identifiers outside the
    user range and those whose region would start beyond the two storage
    sectors; the regions of the presets it accepts start inside the storage,
    [sz] bytes or more apart. *)
Theorem Preset_storage_regions_do_not_overlap (sz id1 id2 : Z) :
  0 < sz -> 9 * sz < 4294967296 ->
  (GetPresetAddress sz id1 = 0 <->
   id1 < USER_PRESET_START_ID \/ TOTAL_PRESET_COUNT <= id1 \/
   PRESET_STORAGE_MAX_SIZE <= (id1 - USER_PRESET_START_ID) * sz) /\
  (GetPresetAddress sz id1 <> 0 -> GetPresetAddress sz id2 <> 0 -> id1 < id2 ->
   PRESET_STORAGE_BASE_ADDR <= GetPresetAddress sz id1 /\
   GetPresetAddress sz id1 + sz <= GetPresetAddress sz id2 /\
   GetPresetAddress sz id2 < PRESET_STORAGE_BASE_ADDR + PRESET_STORAGE_MAX_SIZE).
Proof.
  intros Hsz Hmax. rewrite !GetPresetAddress_value by assumption.
  change USER_PRESET_START_ID with 5. change TOTAL_PRESET_COUNT with 15.
  change PRESET_STORAGE_MAX_SIZE with 32768. change PRESET_STORAGE_BASE_ADDR with 134266880.
  destruct (id1 <? 5) eqn:A1; [apply Z.ltb_lt in A1|apply Z.ltb_ge in A1];
    destruct (15 <=? id1) eqn:A2; [apply Z.leb_le in A2|apply Z.leb_gt in A2
                                  |apply Z.leb_le in A2|apply Z.leb_gt in A2];
    destruct (32768 <=? (id1 - 5) * sz) eqn:A3;
    [apply Z.leb_le in A3|apply Z.leb_gt in A3|apply Z.leb_le in A3|apply Z.leb_gt in A3
    |apply Z.leb_le in A3|apply Z.leb_gt in A3|apply Z.leb_le in A3|apply Z.leb_gt in A3];
    cbn [orb]; (split; [split; [intros; try lia; nia | intros; try lia; nia]|]);
    try (intros K; contradiction).
  intros _.
  destruct (id2 <? 5) eqn:B1; [intros K; contradiction|apply Z.ltb_ge in B1].
  destruct (15 <=? id2) eqn:B2; [intros K; contradiction|apply Z.leb_gt in B2].
  destruct (32768 <=? (id2 - 5) * sz) eqn:B3; [intros K; contradiction|apply Z.leb_gt in B3].
  cbn [orb]. intros _ Hlt. split; [nia|]. split; nia.
Qed.

End PresetProperties.

Lemma Preset_checksum_detects_single_byte_change_witness :
  Preset.IsPresetValid
    (Preset.mkPreset (Preset.metadata stored_preset) [1; 7; 3]) = 0.
Proof.
  assert (H1 : Forall (fun b => 0 <= b < 256) (Preset.settings stored_preset)).
  { repeat (apply List.Forall_cons; [cbn; lia|]). apply List.Forall_nil. }
  assert (H2 : (1 < length (Preset.settings stored_preset))%nat) by (cbn; lia).
  assert (H3 : 0 <= 7 < 256) by lia.
  assert (H4 : 7 <> Preset.settings stored_preset !!! 1%nat) by (cbn; lia).
  assert (H5 : Preset.IsPresetValid stored_preset = 1) by (vm_compute; reflexivity).
  exact (Preset_checksum_detects_single_byte_change stored_preset 1 7 H1 H2 H3 H4 H5).
Defined.

Lemma Preset_checksum_ignores_byte_order_witness :
  Preset.IsPresetValid (Preset.mkPreset (Preset.metadata stored_preset) [3; 1; 2])
  = Preset.IsPresetValid stored_preset.
Proof.
  assert (H1 : Forall (fun b => 0 <= b < 256) (Preset.settings stored_preset)).
  { repeat (apply List.Forall_cons; [cbn; lia|]). apply List.Forall_nil. }
  assert (H2 : Permutation (Preset.settings stored_preset) [3; 1; 2]).
  { change (Permutation ([1; 2] ++ [3]) ([3] ++ [1; 2])). apply Permutation_app_comm. }
  exact (Preset_checksum_ignores_byte_order stored_preset [3; 1; 2] H1 H2).
Defined.

Lemma Preset_name_is_sanitized_witness :
  Preset.c_str (Preset.SanitizePresetName raw_name)
  = [66; 97; 115; 115; 95; 66; 111; 111; 115; 116; 95].
Proof.
  assert (H1 : length raw_name = 16%nat) by reflexivity.
  assert (H2 : raw_name !!! 15%nat = 0) by reflexivity.
  etransitivity;
    [exact (proj1 (proj2 (proj2 (Preset_name_is_sanitized raw_name H1 H2))))
    | vm_compute; reflexivity].
Defined.

Lemma Preset_count_and_free_slot_agree_witness :
  Preset.PresetManager_GetPresetCount two_presets = 7 /\
  (Preset.PresetManager_GetNextEmptySlot two_presets = Preset.PRESET_ID_INVALID <->
   Preset.PresetManager_GetPresetCount two_presets = Preset.TOTAL_PRESET_COUNT).
Proof.
  assert (H1 : length (Preset.presetMetadata two_presets) = Preset.MAX_USER_PRESETS)
    by reflexivity.
  destruct (Preset_count_and_free_slot_agree two_presets H1) as (HC & _ & HS & _).
  split; [|exact HS].
  etransitivity; [exact HC | vm_compute; reflexivity].
Defined.

Lemma Preset_storage_regions_do_not_overlap_witness :
  Preset.GetPresetAddress 300 5 + 300 <= Preset.GetPresetAddress 300 6.
Proof.
  assert (H1 : 0 < 300) by lia.
  assert (H2 : 9 * 300 < 4294967296) by lia.
  destruct (Preset_storage_regions_do_not_overlap 300 5 6 H1 H2) as (_ & HR).
  apply HR; [vm_compute; discriminate | vm_compute; discriminate | lia].
Defined.
